(** * UINavAsyncWidgetManager: a model of the asynchronous widget loader

    The development embeds [UUINavAsyncWidgetManager]
    (Source/UINavigation/Private/UINavAsyncWidgetManager.cpp) and
    [FAsyncWidgetLoadRequest] (Public/UINavAsyncWidgetManager.h), and of
    [UUINavAsyncHelpers] (Private/UINavAsyncHelpers.cpp) the function
    [GetAsyncLoadStatistics].

    The manager runs on the game thread only, so every member function is a
    sequential state transformer over the manager's fields.  What the
    manager does to the outside (delegates it executes, streamable handles
    it requests or cancels, timers it arms or clears, widgets it asks the
    player controller to create) is recorded as a list of events, in the
    order of the calls.  What the outside does to the manager (a load that
    completes, a timer that fires, the periodic clean-up) is a call of the
    corresponding member function. *)

From Stdlib Require Import Ascii String.
From stdpp Require Import gmap strings list sorting.

Local Open Scope Z_scope.
#[local] Set Warnings "-clear-no-such-hyp".

(** ** Engine types *)

(** [int32] arithmetic: the counters are [int32] fields updated with [++]
    and [+=]. *)
Definition Int32Wrap (z : Z) : Z := (z + 2 ^ 31) `mod` 2 ^ 32 - 2 ^ 31.
Definition Int32Add (a b : Z) : Z := Int32Wrap (a + b).

(** Times.  [FPlatformTime::Seconds()] gives a [double] and [RequestTime]
    is a [float], so the constructor of a request rounds the reading of the
    clock.  Every finite [double] and every finite [float] is a whole
    number of 2^-1074 seconds, and a time is written as that number.  The
    clock gives neither an infinity nor a NaN; the [float] infinity, which
    the rounding of 2^128 seconds or more gives, is written as 2^128
    seconds, which is above every finite [float]. *)
Definition Seconds (s : Z) : Z := s * 2 ^ 1074.

(** [n / d] rounded to the nearest integer, and to the even one of two
    that are equally near ([0 ≤ n] and [0 < d]). *)
Definition RoundToEven (n d : Z) : Z :=
  let q := n `div` d in
  let r := n `mod` d in
  if 2 * r <? d then q
  else if d <? 2 * r then q + 1
  else if Z.even q then q else q + 1.

(** The conversion of a [double] to [float]: 24 significant bits are kept,
    and none below 2^-149. *)
Definition FloatOfDouble (x : Z) : Z :=
  let a := Z.abs x in
  let ulp := 2 ^ Z.max 925 (Z.log2 a - 23) in
  Z.sgn x * Z.min (RoundToEven a ulp * ulp) (2 ^ 1202).

Arguments Seconds : simpl never.
Arguments FloatOfDouble : simpl never.

(** [FGuid]: the 128 bits of a GUID as one number (word [A] is the most
    significant one).  [FGuid()] is the all-zero GUID. *)
Abbreviation FGuid := N (only parsing).
Definition FGuid_Default : FGuid := 0%N.
Definition FGuid_IsValid (g : FGuid) : bool := negb (g =? 0)%N.

(** [FGuid::ToString()]: 32 upper-case hexadecimal digits. *)
Definition HexDigit (n : N) : ascii :=
  ascii_of_N (if (n <? 10)%N then 48 + n else 55 + n)%N.

Fixpoint HexDigits (k : nat) (n : N) (acc : string) : string :=
  match k with
  | O => acc
  | S k' => HexDigits k' (n `div` 16)%N (String (HexDigit (n `mod` 16)%N) acc)
  end.

Definition FGuid_ToString (g : FGuid) : string := HexDigits 32 g EmptyString.

(** [FString::operator<]: lexicographic, ignoring case. *)
Definition ToLower (c : ascii) : N :=
  let n := N_of_ascii c in
  if ((65 <=? n) && (n <=? 90))%N then (n + 32)%N else n.

Fixpoint FString_lt (a b : string) : bool :=
  match a, b with
  | EmptyString, EmptyString => false
  | EmptyString, String _ _ => true
  | String _ _, EmptyString => false
  | String x a', String y b' =>
      if (ToLower x <? ToLower y)%N then true
      else if (ToLower y <? ToLower x)%N then false
      else FString_lt a' b'
  end.

(** A loaded class ([UClass*], never null here; [TSubclassOf] and a
    nullable [UClass*] are [option UClass]). *)
Abbreviation UClass := nat (only parsing).

(** A widget instance, as far as the manager looks at it. *)
Record UUINavWidget := { GetClass : UClass; WidgetObject : nat }.

(** [TSoftClassPtr<UUINavWidget>]: the soft object path.  [IsNull] holds of
    the empty path; [Get] resolves the path among the objects that are in
    memory, which is not something the manager controls. *)
Abbreviation TSoftClassPtr := string (only parsing).

Definition IsNull (p : TSoftClassPtr) : bool := bool_decide (p = EmptyString).

(** ** Delegates

    [FOnWidgetLoaded] and [FOnWidgetLoadFailed] are either unbound, bound by
    a caller (opaque, named by a tag), or bound to the lambdas of
    [PreloadWidgetClass], which capture the soft class. *)
Inductive FOnWidgetLoaded :=
| LoadedUnbound
| LoadedUser (tag : nat)
| LoadedPreload (WidgetClass : TSoftClassPtr).

Inductive FOnWidgetLoadFailed :=
| FailedUnbound
| FailedUser (tag : nat)
| FailedPreload (WidgetClass : TSoftClassPtr).

(** ** FAsyncWidgetLoadRequest *)
Record FAsyncWidgetLoadRequest := {
  RequestId : FGuid;
  WidgetClass : TSoftClassPtr;
  bRemoveParent : bool;
  bDestroyParent : bool;
  ZOrder : Z;
  OnLoadCompleted : FOnWidgetLoaded;
  OnLoadFailed : FOnWidgetLoadFailed;
  (* [float]: FPlatformTime::Seconds() at construction, rounded *)
  RequestTime : Z;
  bCancelled : bool;
  Priority : Z
}.

Definition MarkCancelled (r : FAsyncWidgetLoadRequest) : FAsyncWidgetLoadRequest :=
  {| RequestId := RequestId r; WidgetClass := WidgetClass r;
     bRemoveParent := bRemoveParent r; bDestroyParent := bDestroyParent r;
     ZOrder := ZOrder r; OnLoadCompleted := OnLoadCompleted r;
     OnLoadFailed := OnLoadFailed r; RequestTime := RequestTime r;
     bCancelled := true; Priority := Priority r |}.

(** [FAsyncWidgetLoadRequest::operator<] *)
Definition Request_lt (a b : FAsyncWidgetLoadRequest) : bool :=
  if negb (Priority a =? Priority b)
  then (Priority b <? Priority a)
  else (RequestTime a <? RequestTime b).

(** Not [b < a]: what [TArray::Sort()] makes hold of each element and the
    ones after it. *)
Definition Request_le (a b : FAsyncWidgetLoadRequest) : Prop := Request_lt b a = false.

#[global] Instance Request_le_dec : RelDecision Request_le :=
  λ a b, decide (Request_lt b a = false).

#[global] Instance FOnWidgetLoaded_eq_dec : EqDecision FOnWidgetLoaded.
Proof. solve_decision. Defined.

#[global] Instance FOnWidgetLoadFailed_eq_dec : EqDecision FOnWidgetLoadFailed.
Proof. solve_decision. Defined.

#[global] Instance FAsyncWidgetLoadRequest_eq_dec : EqDecision FAsyncWidgetLoadRequest.
Proof. solve_decision. Defined.

(** ** The surroundings of a call *)

(** The surroundings of one call: whether [WorldContext] is still valid,
    whether the first player controller has a [UUINavPCComponent], what its
    [GoToWidget] answers, which classes are in memory, whether
    [FStreamableManager::RequestAsyncLoad] hands out a valid handle, and
    what the engine's [TArray::Sort] makes of an array of requests. *)
Record World := {
  WorldContextIsValid : bool;
  HasUINavPC : bool;
  GoToWidget : UClass → bool → bool → Z → option UUINavWidget;
  ResolveObject : string → option UClass;
  RequestAsyncLoad : string → bool;
  TArraySort : list FAsyncWidgetLoadRequest → list FAsyncWidgetLoadRequest
}.

Definition SoftGet (w : World) (p : TSoftClassPtr) : option UClass :=
  if IsNull p then None else ResolveObject w p.

Definition IsValid (w : World) (p : TSoftClassPtr) : bool :=
  match SoftGet w p with Some _ => true | None => false end.

(** [TArray::Sort()] with [operator<].  The engine's sort is not stable: it
    leaves the array in order, with the elements it had, and where requests
    are equivalent under [operator<] the arrangement is the engine's.  So
    the arrangement is taken from the world; an answer that is not the
    array in order is not the engine's, and is not taken. *)
Definition Sort (w : World) (l : list FAsyncWidgetLoadRequest)
    : list FAsyncWidgetLoadRequest :=
  let Sorted := TArraySort w l in
  if bool_decide (StronglySorted Request_le Sorted ∧ Sorted ≡ₚ l) then Sorted
  else merge_sort Request_le l.

(** ** The manager's fields

    [ActiveHandles] and [TimeoutHandles] are maps whose values are never
    inspected beyond "is there an entry" (only valid handles are stored), so
    the set of their keys is kept.  [CacheHandles] is never added to in the
    source and is left out, as are the two [float] settings, which reach only
    the timer manager. *)
Record Manager := {
  ActiveRequests : list FAsyncWidgetLoadRequest;
  PendingRequests : list FAsyncWidgetLoadRequest;
  CancelledRequestIds : gset N;
  ActiveHandles : gset N;
  TimeoutHandles : gset N;
  MaxConcurrentLoads : Z;
  TotalRequestCount : Z;
  CompletedRequestCount : Z;
  FailedRequestCount : Z;
  CancelledRequestCount : Z;
  WidgetClassCache : gmap string nat
}.

(** The constructor. *)
Definition NewManager : Manager :=
  {| ActiveRequests := []; PendingRequests := [];
     CancelledRequestIds := ∅; ActiveHandles := ∅; TimeoutHandles := ∅;
     MaxConcurrentLoads := 3;
     TotalRequestCount := 0; CompletedRequestCount := 0;
     FailedRequestCount := 0; CancelledRequestCount := 0;
     WidgetClassCache := ∅ |}.

Definition with_ActiveRequests (f : list FAsyncWidgetLoadRequest → list FAsyncWidgetLoadRequest)
    (m : Manager) : Manager :=
  {| ActiveRequests := f (ActiveRequests m); PendingRequests := PendingRequests m;
     CancelledRequestIds := CancelledRequestIds m; ActiveHandles := ActiveHandles m;
     TimeoutHandles := TimeoutHandles m; MaxConcurrentLoads := MaxConcurrentLoads m;
     TotalRequestCount := TotalRequestCount m;
     CompletedRequestCount := CompletedRequestCount m;
     FailedRequestCount := FailedRequestCount m;
     CancelledRequestCount := CancelledRequestCount m;
     WidgetClassCache := WidgetClassCache m |}.

Definition with_PendingRequests (f : list FAsyncWidgetLoadRequest → list FAsyncWidgetLoadRequest)
    (m : Manager) : Manager :=
  {| ActiveRequests := ActiveRequests m; PendingRequests := f (PendingRequests m);
     CancelledRequestIds := CancelledRequestIds m; ActiveHandles := ActiveHandles m;
     TimeoutHandles := TimeoutHandles m; MaxConcurrentLoads := MaxConcurrentLoads m;
     TotalRequestCount := TotalRequestCount m;
     CompletedRequestCount := CompletedRequestCount m;
     FailedRequestCount := FailedRequestCount m;
     CancelledRequestCount := CancelledRequestCount m;
     WidgetClassCache := WidgetClassCache m |}.

Definition with_CancelledRequestIds (f : gset N → gset N) (m : Manager) : Manager :=
  {| ActiveRequests := ActiveRequests m; PendingRequests := PendingRequests m;
     CancelledRequestIds := f (CancelledRequestIds m); ActiveHandles := ActiveHandles m;
     TimeoutHandles := TimeoutHandles m; MaxConcurrentLoads := MaxConcurrentLoads m;
     TotalRequestCount := TotalRequestCount m;
     CompletedRequestCount := CompletedRequestCount m;
     FailedRequestCount := FailedRequestCount m;
     CancelledRequestCount := CancelledRequestCount m;
     WidgetClassCache := WidgetClassCache m |}.

Definition with_ActiveHandles (f : gset N → gset N) (m : Manager) : Manager :=
  {| ActiveRequests := ActiveRequests m; PendingRequests := PendingRequests m;
     CancelledRequestIds := CancelledRequestIds m; ActiveHandles := f (ActiveHandles m);
     TimeoutHandles := TimeoutHandles m; MaxConcurrentLoads := MaxConcurrentLoads m;
     TotalRequestCount := TotalRequestCount m;
     CompletedRequestCount := CompletedRequestCount m;
     FailedRequestCount := FailedRequestCount m;
     CancelledRequestCount := CancelledRequestCount m;
     WidgetClassCache := WidgetClassCache m |}.

Definition with_TimeoutHandles (f : gset N → gset N) (m : Manager) : Manager :=
  {| ActiveRequests := ActiveRequests m; PendingRequests := PendingRequests m;
     CancelledRequestIds := CancelledRequestIds m; ActiveHandles := ActiveHandles m;
     TimeoutHandles := f (TimeoutHandles m); MaxConcurrentLoads := MaxConcurrentLoads m;
     TotalRequestCount := TotalRequestCount m;
     CompletedRequestCount := CompletedRequestCount m;
     FailedRequestCount := FailedRequestCount m;
     CancelledRequestCount := CancelledRequestCount m;
     WidgetClassCache := WidgetClassCache m |}.

Definition with_MaxConcurrentLoads (f : Z → Z) (m : Manager) : Manager :=
  {| ActiveRequests := ActiveRequests m; PendingRequests := PendingRequests m;
     CancelledRequestIds := CancelledRequestIds m; ActiveHandles := ActiveHandles m;
     TimeoutHandles := TimeoutHandles m; MaxConcurrentLoads := f (MaxConcurrentLoads m);
     TotalRequestCount := TotalRequestCount m;
     CompletedRequestCount := CompletedRequestCount m;
     FailedRequestCount := FailedRequestCount m;
     CancelledRequestCount := CancelledRequestCount m;
     WidgetClassCache := WidgetClassCache m |}.

Definition with_TotalRequestCount (f : Z → Z) (m : Manager) : Manager :=
  {| ActiveRequests := ActiveRequests m; PendingRequests := PendingRequests m;
     CancelledRequestIds := CancelledRequestIds m; ActiveHandles := ActiveHandles m;
     TimeoutHandles := TimeoutHandles m; MaxConcurrentLoads := MaxConcurrentLoads m;
     TotalRequestCount := f (TotalRequestCount m);
     CompletedRequestCount := CompletedRequestCount m;
     FailedRequestCount := FailedRequestCount m;
     CancelledRequestCount := CancelledRequestCount m;
     WidgetClassCache := WidgetClassCache m |}.

Definition with_CompletedRequestCount (f : Z → Z) (m : Manager) : Manager :=
  {| ActiveRequests := ActiveRequests m; PendingRequests := PendingRequests m;
     CancelledRequestIds := CancelledRequestIds m; ActiveHandles := ActiveHandles m;
     TimeoutHandles := TimeoutHandles m; MaxConcurrentLoads := MaxConcurrentLoads m;
     TotalRequestCount := TotalRequestCount m;
     CompletedRequestCount := f (CompletedRequestCount m);
     FailedRequestCount := FailedRequestCount m;
     CancelledRequestCount := CancelledRequestCount m;
     WidgetClassCache := WidgetClassCache m |}.

Definition with_FailedRequestCount (f : Z → Z) (m : Manager) : Manager :=
  {| ActiveRequests := ActiveRequests m; PendingRequests := PendingRequests m;
     CancelledRequestIds := CancelledRequestIds m; ActiveHandles := ActiveHandles m;
     TimeoutHandles := TimeoutHandles m; MaxConcurrentLoads := MaxConcurrentLoads m;
     TotalRequestCount := TotalRequestCount m;
     CompletedRequestCount := CompletedRequestCount m;
     FailedRequestCount := f (FailedRequestCount m);
     CancelledRequestCount := CancelledRequestCount m;
     WidgetClassCache := WidgetClassCache m |}.

Definition with_CancelledRequestCount (f : Z → Z) (m : Manager) : Manager :=
  {| ActiveRequests := ActiveRequests m; PendingRequests := PendingRequests m;
     CancelledRequestIds := CancelledRequestIds m; ActiveHandles := ActiveHandles m;
     TimeoutHandles := TimeoutHandles m; MaxConcurrentLoads := MaxConcurrentLoads m;
     TotalRequestCount := TotalRequestCount m;
     CompletedRequestCount := CompletedRequestCount m;
     FailedRequestCount := FailedRequestCount m;
     CancelledRequestCount := f (CancelledRequestCount m);
     WidgetClassCache := WidgetClassCache m |}.

Definition with_WidgetClassCache (f : gmap string nat → gmap string nat) (m : Manager) : Manager :=
  {| ActiveRequests := ActiveRequests m; PendingRequests := PendingRequests m;
     CancelledRequestIds := CancelledRequestIds m; ActiveHandles := ActiveHandles m;
     TimeoutHandles := TimeoutHandles m; MaxConcurrentLoads := MaxConcurrentLoads m;
     TotalRequestCount := TotalRequestCount m;
     CompletedRequestCount := CompletedRequestCount m;
     FailedRequestCount := FailedRequestCount m;
     CancelledRequestCount := CancelledRequestCount m;
     WidgetClassCache := f (WidgetClassCache m) |}.

(** ** What the manager does to the outside *)
Inductive Event :=
(* StartLoadingWidget is entered for the request (its first log line) *)
| EvStartLoading (id : FGuid)
(* CreateAndSetupWidget(WidgetClass, Request) is called *)
| EvCreateWidget (id : FGuid) (cls : UClass) (bRemoveParent bDestroyParent : bool) (ZOrder : Z)
(* Request.OnLoadCompleted is bound and executed *)
| EvLoadCompleted (id : FGuid) (Widget : UUINavWidget)
(* Request.OnLoadFailed is bound and executed *)
| EvLoadFailed (id : FGuid) (ErrorMessage : string)
(* StreamableManager.RequestAsyncLoad *)
| EvRequestAsyncLoad (id : FGuid) (path : string)
(* FStreamableHandle::CancelHandle *)
| EvCancelHandle (id : FGuid)
(* FTimerManager::SetTimer / ClearTimer for the request's time-out *)
| EvSetTimer (id : FGuid)
| EvClearTimer (id : FGuid)
(* UUserWidget::RemoveFromParent *)
| EvRemoveFromParent (Widget : UUINavWidget).

(** ** State and event monad *)
Definition M (A : Type) : Type := Manager → A * Manager * list Event.

Definition M_ret {A} (a : A) : M A := λ m, (a, m, []).

Definition M_bind {A B} (c : M A) (k : A → M B) : M B :=
  λ m, let '(a, m1, t1) := c m in
       let '(b, m2, t2) := k a m1 in
       (b, m2, t1 ++ t2).

Notation "'do!' x ← c ; k" := (M_bind c (λ x, k))
  (at level 10, x name, c at level 100, k at level 200,
   format "'[v' 'do!'  x  ←  c ;  '/' k ']'").
Notation "c ;;; k" := (M_bind c (λ _, k))
  (at level 100, k at level 200, right associativity).

Definition get : M Manager := λ m, (m, m, []).
Definition modify (f : Manager → Manager) : M unit := λ m, ((), f m, []).
Definition emit (e : Event) : M unit := λ m, ((), m, [e]).
Definition skip : M unit := M_ret ().
Definition when (b : bool) (c : M unit) : M unit := if b then c else skip.

(** The three components of a run. *)
Definition result {A} (r : A * Manager * list Event) : A := r.1.1.
Definition state {A} (r : A * Manager * list Event) : Manager := r.1.2.
Definition trace {A} (r : A * Manager * list Event) : list Event := r.2.

Arguments result {A} !r /.
Arguments state {A} !r /.
Arguments trace {A} !r /.

(** ** Array helpers *)

(** The loops [for (i = 0; i < Num(); ++i) if (A[i].RequestId == Id) ...]:
    the first index whose request has the id. *)
Fixpoint IndexOfRequest (id : FGuid) (l : list FAsyncWidgetLoadRequest) : option nat :=
  match l with
  | [] => None
  | r :: l' =>
      if bool_decide (RequestId r = id) then Some O
      else S <$> IndexOfRequest id l'
  end.

(** The index together with [A[i]]. *)
Definition FindRequest (id : FGuid) (l : list FAsyncWidgetLoadRequest)
    : option (nat * FAsyncWidgetLoadRequest) :=
  match IndexOfRequest id l with
  | Some i => pair i <$> l !! i
  | None => None
  end.

(** [... { ActiveRequests.RemoveAt(i); break; }] *)
Definition RemoveFirstById (id : FGuid) (l : list FAsyncWidgetLoadRequest)
    : list FAsyncWidgetLoadRequest :=
  match IndexOfRequest id l with
  | Some i => delete i l
  | None => l
  end.

Definition IdsOf (l : list FAsyncWidgetLoadRequest) : list FGuid := RequestId <$> l.

Definition Num (l : list FAsyncWidgetLoadRequest) : Z := Z.of_nat (length l).

(** ** Member functions *)
Section Scheduler.

Variable w : World.

(** [CreateAndSetupWidget] *)
Definition CreateAndSetupWidget (Class : option UClass) (Request : FAsyncWidgetLoadRequest)
    : option UUINavWidget :=
  match Class with
  | None => None
  | Some cls =>
      if WorldContextIsValid w && HasUINavPC w
      then GoToWidget w cls (bRemoveParent Request) (bDestroyParent Request) (ZOrder Request)
      else None
  end.

(** [GetFromWidgetClassCache] *)
Definition GetFromWidgetClassCache (m : Manager) (SoftClass : TSoftClassPtr) : option UClass :=
  WidgetClassCache m !! SoftClass.

(** [IsWidgetClassCached] *)
Definition IsWidgetClassCached (m : Manager) (SoftClass : TSoftClassPtr) : bool :=
  if negb (IsValid w SoftClass) then false
  else bool_decide (is_Some (WidgetClassCache m !! SoftClass)).

(** [AddToWidgetClassCache] *)
Definition AddToWidgetClassCache (SoftClass : TSoftClassPtr) (LoadedClass : option UClass)
    : M unit :=
  match LoadedClass with
  | Some cls =>
      if negb (IsValid w SoftClass) then skip
      else modify (with_WidgetClassCache (<[SoftClass := cls]>))
  | None => skip
  end.

(** [if (Request.OnLoadCompleted.IsBound()) Request.OnLoadCompleted.ExecuteIfBound(Widget)].
    The lambda of [PreloadWidgetClass] caches the widget's class and takes
    the widget off its parent. *)
Definition ExecuteLoadCompleted (Request : FAsyncWidgetLoadRequest) (Widget : UUINavWidget)
    : M unit :=
  match OnLoadCompleted Request with
  | LoadedUnbound => skip
  | LoadedUser _ => emit (EvLoadCompleted (RequestId Request) Widget)
  | LoadedPreload SoftClass =>
      emit (EvLoadCompleted (RequestId Request) Widget) ;;;
      AddToWidgetClassCache SoftClass (Some (GetClass Widget)) ;;;
      emit (EvRemoveFromParent Widget)
  end.

(** [if (OnLoadFailed.IsBound()) OnLoadFailed.ExecuteIfBound(Message)], on
    behalf of the request [id].  The lambda of [PreloadWidgetClass] writes
    a log line and nothing else. *)
Definition ExecuteFailedDelegate (Delegate : FOnWidgetLoadFailed) (id : FGuid)
    (Message : string) : M unit :=
  match Delegate with
  | FailedUnbound => skip
  | FailedUser _ => emit (EvLoadFailed id Message)
  | FailedPreload _ => emit (EvLoadFailed id Message)
  end.

Definition ExecuteLoadFailed (Request : FAsyncWidgetLoadRequest) (Message : string)
    : M unit :=
  ExecuteFailedDelegate (OnLoadFailed Request) (RequestId Request) Message.

Definition RemoveFromActive (id : FGuid) : M unit :=
  modify (with_ActiveRequests (RemoveFirstById id)).

(** [StartLoadingWidget], with its two calls of [ProcessNextRequest] left
    open. *)
Definition StartLoadingWidget_with (ProcessNextRequest : M unit)
    (Request : FAsyncWidgetLoadRequest) : M unit :=
  emit (EvStartLoading (RequestId Request)) ;;;
  do! m ← get ;
  match GetFromWidgetClassCache m (WidgetClass Request) with
  | Some CachedClass =>
      emit (EvCreateWidget (RequestId Request) CachedClass (bRemoveParent Request)
              (bDestroyParent Request) (ZOrder Request)) ;;;
      match CreateAndSetupWidget (Some CachedClass) Request with
      | Some CreatedWidget =>
          ExecuteLoadCompleted Request CreatedWidget ;;;
          modify (with_CompletedRequestCount (λ n, Int32Add n 1))
      | None =>
          ExecuteLoadFailed Request "Failed to create widget from cached class" ;;;
          modify (with_FailedRequestCount (λ n, Int32Add n 1))
      end ;;;
      RemoveFromActive (RequestId Request) ;;;
      ProcessNextRequest
  | None =>
      when (WorldContextIsValid w)
        (emit (EvSetTimer (RequestId Request)) ;;;
         modify (with_TimeoutHandles (λ s, {[RequestId Request]} ∪ s))) ;;;
      emit (EvRequestAsyncLoad (RequestId Request) (WidgetClass Request)) ;;;
      if RequestAsyncLoad w (WidgetClass Request)
      then modify (with_ActiveHandles (λ s, {[RequestId Request]} ∪ s))
      else
        ExecuteLoadFailed Request "Failed to create streamable handle" ;;;
        RemoveFromActive (RequestId Request) ;;;
        modify (with_FailedRequestCount (λ n, Int32Add n 1)) ;;;
        ProcessNextRequest
  end.

(** [ProcessNextRequest].  Every nested call has taken one request off
    [PendingRequests], so the length of the queue bounds the depth. *)
Fixpoint ProcessNextRequest_depth (depth : nat) : M unit :=
  match depth with
  | O => skip
  | S depth' =>
      do! m ← get ;
      match PendingRequests m with
      | NextRequest :: _ =>
          if Num (ActiveRequests m) <? MaxConcurrentLoads m
          then
            modify (with_PendingRequests (delete O)) ;;;
            if bCancelled NextRequest
               || bool_decide (RequestId NextRequest ∈ CancelledRequestIds m)
            then ProcessNextRequest_depth depth'
            else
              modify (with_ActiveRequests (λ l, l ++ [NextRequest])) ;;;
              StartLoadingWidget_with (ProcessNextRequest_depth depth') NextRequest
          else skip
      | [] => skip
      end
  end.

Definition ProcessNextRequest : M unit :=
  λ m, ProcessNextRequest_depth (length (PendingRequests m)) m.

Definition StartLoadingWidget : FAsyncWidgetLoadRequest → M unit :=
  StartLoadingWidget_with ProcessNextRequest.

(** [LoadWidgetAsync].  [NewGuid] and [Now] are what [FGuid::NewGuid()] and
    [FPlatformTime::Seconds()] give to the request's constructor, which
    stores the time as a [float].  A
    rejected call executes the failure delegate on behalf of no request:
    the event carries the all-zero GUID that the call returns. *)
Definition LoadWidgetAsync (NewGuid : FGuid) (Now : Z)
    (SoftClass : TSoftClassPtr)
    (OnCompleted : FOnWidgetLoaded) (OnFailed : FOnWidgetLoadFailed)
    (RemoveParent DestroyParent : bool) (Z_Order Prio : Z) : M FGuid :=
  if IsNull SoftClass
  then
    ExecuteFailedDelegate OnFailed FGuid_Default "Invalid widget class provided" ;;;
    M_ret FGuid_Default
  else
    let NewRequest :=
      {| RequestId := NewGuid; WidgetClass := SoftClass;
         bRemoveParent := RemoveParent; bDestroyParent := DestroyParent;
         ZOrder := Z_Order; OnLoadCompleted := OnCompleted;
         OnLoadFailed := OnFailed; RequestTime := FloatOfDouble Now;
         bCancelled := false; Priority := Prio |} in
    modify (with_TotalRequestCount (λ n, Int32Add n 1)) ;;;
    do! m ← get ;
    (if Num (ActiveRequests m) <? MaxConcurrentLoads m
     then
       modify (with_ActiveRequests (λ l, l ++ [NewRequest])) ;;;
       StartLoadingWidget NewRequest
     else
       modify (with_PendingRequests (λ l, l ++ [NewRequest])) ;;;
       modify (with_PendingRequests (Sort w))) ;;;
    M_ret (RequestId NewRequest).

(** [CancelLoadRequest] *)
Definition CancelLoadRequest (id : FGuid) : M bool :=
  if negb (FGuid_IsValid id) then M_ret false
  else
    do! m ← get ;
    match FindRequest id (ActiveRequests m) with
    | Some (i, _) =>
        when (bool_decide (id ∈ ActiveHandles m))
          (emit (EvCancelHandle id) ;;;
           modify (with_ActiveHandles (λ s, s ∖ {[id]}))) ;;;
        when (bool_decide (id ∈ TimeoutHandles m))
          (when (WorldContextIsValid w) (emit (EvClearTimer id)) ;;;
           modify (with_TimeoutHandles (λ s, s ∖ {[id]}))) ;;;
        modify (with_ActiveRequests (alter MarkCancelled i)) ;;;
        modify (with_CancelledRequestIds (λ s, {[id]} ∪ s)) ;;;
        modify (with_ActiveRequests (delete i)) ;;;
        modify (with_CancelledRequestCount (λ n, Int32Add n 1)) ;;;
        ProcessNextRequest ;;;
        M_ret true
    | None =>
        match FindRequest id (PendingRequests m) with
        | Some (i, _) =>
            modify (with_PendingRequests (alter MarkCancelled i)) ;;;
            modify (with_CancelledRequestIds (λ s, {[id]} ∪ s)) ;;;
            modify (with_PendingRequests (delete i)) ;;;
            modify (with_CancelledRequestCount (λ n, Int32Add n 1)) ;;;
            M_ret true
        | None => M_ret false
        end
    end.

(** Range-based [for] loops. *)
Fixpoint ForEach {A} (body : A → M unit) (l : list A) : M unit :=
  match l with
  | [] => skip
  | x :: l' => body x ;;; ForEach body l'
  end.

(** [CancelAllLoadRequests] *)
Definition CancelAllLoadRequests : M unit :=
  do! m ← get ;
  ForEach (λ i,
    match ActiveRequests m !! i with
    | Some Request =>
        modify (with_ActiveRequests (alter MarkCancelled i)) ;;;
        modify (with_CancelledRequestIds (λ s, {[RequestId Request]} ∪ s)) ;;;
        when (bool_decide (RequestId Request ∈ ActiveHandles m))
          (emit (EvCancelHandle (RequestId Request))) ;;;
        when (bool_decide (RequestId Request ∈ TimeoutHandles m))
          (when (WorldContextIsValid w) (emit (EvClearTimer (RequestId Request))))
    | None => skip
    end) (seq 0 (length (ActiveRequests m))) ;;;
  ForEach (λ i,
    match PendingRequests m !! i with
    | Some Request =>
        modify (with_PendingRequests (alter MarkCancelled i)) ;;;
        modify (with_CancelledRequestIds (λ s, {[RequestId Request]} ∪ s))
    | None => skip
    end) (seq 0 (length (PendingRequests m))) ;;;
  modify (with_CancelledRequestCount (λ n,
    Int32Add n (Int32Add (Num (ActiveRequests m)) (Num (PendingRequests m))))) ;;;
  modify (with_ActiveRequests (λ _, [])) ;;;
  modify (with_PendingRequests (λ _, [])) ;;;
  modify (with_ActiveHandles (λ _, ∅)) ;;;
  modify (with_TimeoutHandles (λ _, ∅)).

(** The [while] loop of [SetMaxConcurrentLoads]: an iteration whose test
    holds takes at least one request off the queue. *)
Fixpoint ProcessWhilePossible (rounds : nat) : M unit :=
  match rounds with
  | O => skip
  | S rounds' =>
      do! m ← get ;
      if (Num (ActiveRequests m) <? MaxConcurrentLoads m)
         && (0 <? Num (PendingRequests m))
      then ProcessNextRequest ;;; ProcessWhilePossible rounds'
      else skip
  end.

(** [SetMaxConcurrentLoads] *)
Definition SetMaxConcurrentLoads (NewMaxConcurrentLoads : Z) : M unit :=
  modify (with_MaxConcurrentLoads (λ _, Z.max 1 NewMaxConcurrentLoads)) ;;;
  λ m, ProcessWhilePossible (length (PendingRequests m)) m.

(** [OnWidgetClassLoaded]: the delegate given to [RequestAsyncLoad]; its
    argument is the copy of the request captured when the load was
    requested. *)
Definition OnWidgetClassLoaded (Request : FAsyncWidgetLoadRequest) : M unit :=
  modify (with_ActiveHandles (λ s, s ∖ {[RequestId Request]})) ;;;
  do! m ← get ;
  when (bool_decide (RequestId Request ∈ TimeoutHandles m))
    (when (WorldContextIsValid w) (emit (EvClearTimer (RequestId Request))) ;;;
     modify (with_TimeoutHandles (λ s, s ∖ {[RequestId Request]}))) ;;;
  if bCancelled Request || bool_decide (RequestId Request ∈ CancelledRequestIds m)
  then
    RemoveFromActive (RequestId Request) ;;;
    ProcessNextRequest
  else
    match SoftGet w (WidgetClass Request) with
    | None =>
        ExecuteLoadFailed Request "Failed to load widget class" ;;;
        modify (with_FailedRequestCount (λ n, Int32Add n 1))
    | Some LoadedClass =>
        when (negb (IsWidgetClassCached m (WidgetClass Request)))
          (AddToWidgetClassCache (WidgetClass Request) (Some LoadedClass)) ;;;
        emit (EvCreateWidget (RequestId Request) LoadedClass (bRemoveParent Request)
                (bDestroyParent Request) (ZOrder Request)) ;;;
        match CreateAndSetupWidget (Some LoadedClass) Request with
        | Some CreatedWidget =>
            ExecuteLoadCompleted Request CreatedWidget ;;;
            modify (with_CompletedRequestCount (λ n, Int32Add n 1))
        | None =>
            ExecuteLoadFailed Request "Failed to create widget instance" ;;;
            modify (with_FailedRequestCount (λ n, Int32Add n 1))
        end
    end ;;;
    RemoveFromActive (RequestId Request) ;;;
    ProcessNextRequest.

(** [HandleLoadTimeout]: the lambda given to [SetTimer]. *)
Definition HandleLoadTimeout (id : FGuid) : M unit :=
  do! m ← get ;
  match FindRequest id (ActiveRequests m) with
  | Some (i, Request) =>
      when (bool_decide (id ∈ ActiveHandles m))
        (emit (EvCancelHandle id) ;;;
         modify (with_ActiveHandles (λ s, s ∖ {[id]}))) ;;;
      ExecuteLoadFailed Request "Load timeout" ;;;
      modify (with_ActiveRequests (alter MarkCancelled i)) ;;;
      modify (with_CancelledRequestIds (λ s, {[id]} ∪ s)) ;;;
      modify (with_ActiveRequests (delete i)) ;;;
      modify (with_FailedRequestCount (λ n, Int32Add n 1)) ;;;
      modify (with_TimeoutHandles (λ s, s ∖ {[id]})) ;;;
      ProcessNextRequest
  | None => skip
  end.

(** [PreloadWidgetClass] *)
Definition PreloadWidgetClass (NewGuid : FGuid) (Now : Z)
    (SoftClass : TSoftClassPtr) (Prio : Z) : M FGuid :=
  if negb (IsValid w SoftClass) then M_ret FGuid_Default
  else
    do! m0 ← get ;
    if IsWidgetClassCached m0 SoftClass then M_ret FGuid_Default
    else
      let PreloadRequest :=
        {| RequestId := NewGuid; WidgetClass := SoftClass;
           bRemoveParent := false; bDestroyParent := false; ZOrder := 0;
           OnLoadCompleted := LoadedPreload SoftClass;
           OnLoadFailed := FailedPreload SoftClass;
           RequestTime := FloatOfDouble Now; bCancelled := false; Priority := Prio |} in
      modify (with_TotalRequestCount (λ n, Int32Add n 1)) ;;;
      do! m ← get ;
      (if Num (ActiveRequests m) <? MaxConcurrentLoads m
       then
         modify (with_ActiveRequests (λ l, l ++ [PreloadRequest])) ;;;
         StartLoadingWidget PreloadRequest
       else
         modify (with_PendingRequests (λ l, l ++ [PreloadRequest])) ;;;
         modify (with_PendingRequests (Sort w))) ;;;
      M_ret (RequestId PreloadRequest).

End Scheduler.

(** ** Member functions that do not look at the world *)

(** [GetRequestStatus]: the return value and the three out-parameters. *)
Record RequestStatus := {
  Found : bool; bIsActive : bool; bIsPending : bool; bIsCancelled : bool
}.

Definition GetRequestStatus (m : Manager) (id : FGuid) : RequestStatus :=
  if bool_decide (id ∈ CancelledRequestIds m)
  then {| Found := true; bIsActive := false; bIsPending := false; bIsCancelled := true |}
  else if bool_decide (id ∈ IdsOf (ActiveRequests m))
  then {| Found := true; bIsActive := true; bIsPending := false; bIsCancelled := false |}
  else if bool_decide (id ∈ IdsOf (PendingRequests m))
  then {| Found := true; bIsActive := false; bIsPending := true; bIsCancelled := false |}
  else {| Found := false; bIsActive := false; bIsPending := false; bIsCancelled := false |}.

(** [GetActiveLoadRequestCount], [GetPendingLoadRequestCount] *)
Definition GetActiveLoadRequestCount (m : Manager) : Z := Num (ActiveRequests m).
Definition GetPendingLoadRequestCount (m : Manager) : Z := Num (PendingRequests m).

(** [IsWidgetLoading] *)
Definition IsWidgetLoading (m : Manager) (SoftClass : TSoftClassPtr) : bool :=
  existsb (λ Request,
      bool_decide (WidgetClass Request = SoftClass) && negb (bCancelled Request))
    (ActiveRequests m)
  || existsb (λ Request,
      bool_decide (WidgetClass Request = SoftClass) && negb (bCancelled Request))
    (PendingRequests m).

(** [GetLoadStatistics]: total, completed, failed, cancelled. *)
Definition GetLoadStatistics (m : Manager) : Z * Z * Z * Z :=
  (TotalRequestCount m, CompletedRequestCount m, FailedRequestCount m,
   CancelledRequestCount m).

(** The lambda given to [CancelledArray.Sort]. *)
Definition GuidString_le (a b : FGuid) : Prop :=
  FString_lt (FGuid_ToString b) (FGuid_ToString a) = false.

#[global] Instance GuidString_le_dec : RelDecision GuidString_le :=
  λ a b, decide (FString_lt (FGuid_ToString b) (FGuid_ToString a) = false).

Definition MaxCancelledIds : Z := 100.

(** What [CleanupCompletedRequests] does to [CancelledRequestIds]. *)
Definition PruneCancelled (ids : gset N) : gset N :=
  if MaxCancelledIds <? Z.of_nat (size ids)
  then
    let CancelledArray := merge_sort GuidString_le (elements ids) in
    let ToRemove := Z.of_nat (size ids) - MaxCancelledIds `quot` 2 in
    foldl (λ s g, s ∖ {[g]}) ids (take (Z.to_nat ToRemove) CancelledArray)
  else ids.

(** [CleanupCompletedRequests], run by the clean-up timer. *)
Definition CleanupCompletedRequests : M unit :=
  modify (with_CancelledRequestIds PruneCancelled).

(** [ClearCache].  ([CacheHandles] is empty; the load of an empty path list
    it requests from the streamable manager is not followed.) *)
Definition ClearCache : M unit :=
  modify (with_WidgetClassCache (λ _, ∅)).

(** ** UUINavAsyncHelpers *)

(** [UUINavAsyncHelpers::GetAsyncLoadStatistics]: the numbers of requests
    in total, active, pending, completed, failed and cancelled.  (The
    helper finds the manager with [GetInstance], which creates it on first
    use and never answers null.) *)
Definition GetAsyncLoadStatistics (m : Manager) : Z * Z * Z * Z * Z * Z :=
  let '(TotalRequests, CompletedRequests, FailedRequests, CancelledRequests) :=
    GetLoadStatistics m in
  (TotalRequests, GetActiveLoadRequestCount m, GetPendingLoadRequestCount m,
   CompletedRequests, FailedRequests, CancelledRequests).

(** ** Runs of the manager

    A run is a sequence of calls: the public functions, called by the game,
    and the three callbacks, called by the streamable manager and the timer
    manager.  Each call comes with the world it finds. *)
Inductive Call :=
| CallLoadWidgetAsync (NewGuid : FGuid) (Now : Z) (SoftClass : TSoftClassPtr)
    (OnCompleted : FOnWidgetLoaded) (OnFailed : FOnWidgetLoadFailed)
    (RemoveParent DestroyParent : bool) (Z_Order Prio : Z)
| CallPreloadWidgetClass (NewGuid : FGuid) (Now : Z) (SoftClass : TSoftClassPtr) (Prio : Z)
| CallCancelLoadRequest (id : FGuid)
| CallCancelAllLoadRequests
| CallSetMaxConcurrentLoads (NewMaxConcurrentLoads : Z)
| CallClearCache
| CallOnWidgetClassLoaded (Request : FAsyncWidgetLoadRequest)
| CallHandleLoadTimeout (id : FGuid)
| CallCleanupCompletedRequests.

Definition Perform (w : World) (c : Call) : M unit :=
  match c with
  | CallLoadWidgetAsync g now p onc onf rp dp z prio =>
      LoadWidgetAsync w g now p onc onf rp dp z prio ;;; skip
  | CallPreloadWidgetClass g now p prio =>
      PreloadWidgetClass w g now p prio ;;; skip
  | CallCancelLoadRequest id => CancelLoadRequest w id ;;; skip
  | CallCancelAllLoadRequests => CancelAllLoadRequests w
  | CallSetMaxConcurrentLoads n => SetMaxConcurrentLoads w n
  | CallClearCache => ClearCache
  | CallOnWidgetClassLoaded r => OnWidgetClassLoaded w r
  | CallHandleLoadTimeout id => HandleLoadTimeout w id
  | CallCleanupCompletedRequests => CleanupCompletedRequests
  end.

Fixpoint PerformAll (cs : list (World * Call)) : M unit :=
  match cs with
  | [] => skip
  | (w, c) :: cs' => Perform w c ;;; PerformAll cs'
  end.

(** [FGuid::NewGuid()] gives a valid GUID that is not in use. *)
Definition FreshGuid (g : FGuid) (m : Manager) : Prop :=
  g ≠ 0%N ∧ (g ∉ IdsOf (ActiveRequests m)) ∧ (g ∉ IdsOf (PendingRequests m))
  ∧ (g ∉ CancelledRequestIds m).

Definition GuidsFresh (c : Call) (m : Manager) : Prop :=
  match c with
  | CallLoadWidgetAsync g _ _ _ _ _ _ _ _ => FreshGuid g m
  | CallPreloadWidgetClass g _ _ _ => FreshGuid g m
  | _ => True
  end.

(** A call that does not set the limit below the number of loads that are
    running. *)
Definition LimitKept (c : Call) (m : Manager) : Prop :=
  match c with
  | CallSetMaxConcurrentLoads n => Num (ActiveRequests m) ≤ Z.max 1 n
  | _ => True
  end.

(** States reached from the constructor by calls that are allowed by [P]. *)
Inductive ReachableBy (P : Call → Manager → Prop) : Manager → Prop :=
| ReachableBy_new : ReachableBy P NewManager
| ReachableBy_call w c m :
    ReachableBy P m → P c m → ReachableBy P (state (Perform w c m)).

Definition Reachable : Manager → Prop := ReachableBy GuidsFresh.

(** ** What is read off a state or a trace *)

(** No free slot next to a waiting request. *)
Definition NoStall (m : Manager) : Prop :=
  PendingRequests m = [] ∨ MaxConcurrentLoads m ≤ Num (ActiveRequests m).

(** The test of [ProcessNextRequest] and [OnWidgetClassLoaded]. *)
Definition IsCancelled (m : Manager) (r : FAsyncWidgetLoadRequest) : bool :=
  bCancelled r || bool_decide (RequestId r ∈ CancelledRequestIds m).

(** The requests whose loading was started, in order. *)
Definition StartedIds (t : list Event) : list FGuid :=
  omap (λ e, match e with EvStartLoading id => Some id | _ => None end) t.

(** The delegates executed on behalf of a request. *)
Definition IsCallbackOf (id : FGuid) (e : Event) : bool :=
  match e with
  | EvLoadCompleted id' _ => bool_decide (id' = id)
  | EvLoadFailed id' _ => bool_decide (id' = id)
  | _ => false
  end.

Definition CallbacksOf (id : FGuid) (t : list Event) : list Event :=
  filter (λ e, IsCallbackOf id e = true) t.


(** ** The scheduler, step by step *)

(** [StartLoadingWidget] up to its call of [ProcessNextRequest]: the answer
    tells whether that call is made. *)
Definition StartLoadingWidget_body (w : World) (Request : FAsyncWidgetLoadRequest) : M bool :=
  emit (EvStartLoading (RequestId Request)) ;;;
  do! m ← get ;
  match GetFromWidgetClassCache m (WidgetClass Request) with
  | Some CachedClass =>
      emit (EvCreateWidget (RequestId Request) CachedClass (bRemoveParent Request)
              (bDestroyParent Request) (ZOrder Request)) ;;;
      match CreateAndSetupWidget w (Some CachedClass) Request with
      | Some CreatedWidget =>
          ExecuteLoadCompleted w Request CreatedWidget ;;;
          modify (with_CompletedRequestCount (λ n, Int32Add n 1))
      | None =>
          ExecuteLoadFailed Request "Failed to create widget from cached class" ;;;
          modify (with_FailedRequestCount (λ n, Int32Add n 1))
      end ;;;
      RemoveFromActive (RequestId Request) ;;;
      M_ret true
  | None =>
      when (WorldContextIsValid w)
        (emit (EvSetTimer (RequestId Request)) ;;;
         modify (with_TimeoutHandles (λ s, {[RequestId Request]} ∪ s))) ;;;
      emit (EvRequestAsyncLoad (RequestId Request) (WidgetClass Request)) ;;;
      if RequestAsyncLoad w (WidgetClass Request)
      then modify (with_ActiveHandles (λ s, {[RequestId Request]} ∪ s)) ;;; M_ret false
      else
        ExecuteLoadFailed Request "Failed to create streamable handle" ;;;
        RemoveFromActive (RequestId Request) ;;;
        modify (with_FailedRequestCount (λ n, Int32Add n 1)) ;;;
        M_ret true
  end.

(** One run of [ProcessNextRequest], as a derivation. *)
Inductive Serves (w : World) : Manager → Manager → list Event → Prop :=
| Serves_empty m :
    PendingRequests m = [] → Serves w m m []
| Serves_full m :
    (Num (ActiveRequests m) <? MaxConcurrentLoads m) = false → Serves w m m []
| Serves_skip m NextRequest rest m' t :
    PendingRequests m = NextRequest :: rest →
    (Num (ActiveRequests m) <? MaxConcurrentLoads m) = true →
    IsCancelled m NextRequest = true →
    Serves w (with_PendingRequests (λ _, rest) m) m' t →
    Serves w m m' t
| Serves_again m NextRequest rest m1 t1 m' t :
    PendingRequests m = NextRequest :: rest →
    (Num (ActiveRequests m) <? MaxConcurrentLoads m) = true →
    IsCancelled m NextRequest = false →
    StartLoadingWidget_body w NextRequest
      (with_ActiveRequests (λ l, l ++ [NextRequest]) (with_PendingRequests (λ _, rest) m))
      = (true, m1, t1) →
    Serves w m1 m' t →
    Serves w m m' (t1 ++ t)
| Serves_loading m NextRequest rest m1 t1 :
    PendingRequests m = NextRequest :: rest →
    (Num (ActiveRequests m) <? MaxConcurrentLoads m) = true →
    IsCancelled m NextRequest = false →
    StartLoadingWidget_body w NextRequest
      (with_ActiveRequests (λ l, l ++ [NextRequest]) (with_PendingRequests (λ _, rest) m))
      = (false, m1, t1) →
    Serves w m m1 t1.

(** ** What the statements speak of *)

(** The events of a trace that speak of a request: its delegates and its
    widget. *)
Definition EventFor (e : Event) : option FGuid :=
  match e with
  | EvCreateWidget id _ _ _ _ => Some id
  | EvLoadCompleted id _ => Some id
  | EvLoadFailed id _ => Some id
  | _ => None
  end.


(** What executing a completion delegate shows. *)
Definition CompletedEvents (d : FOnWidgetLoaded) (id : FGuid) (Widget : UUINavWidget)
    : list Event :=
  match d with
  | LoadedUnbound => []
  | LoadedUser _ => [EvLoadCompleted id Widget]
  | LoadedPreload _ => [EvLoadCompleted id Widget; EvRemoveFromParent Widget]
  end.

(** What executing a failure delegate shows. *)
Definition FailedEvents (d : FOnWidgetLoadFailed) (id : FGuid) (Message : string)
    : list Event :=
  match d with
  | FailedUnbound => []
  | _ => [EvLoadFailed id Message]
  end.

(** What [StartLoadingWidget] shows for a request whose class is cached:
    the widget is asked for with the cached class and the request's
    placement, then the request's delegate is executed. *)
Definition CacheHitEvents (w : World) (Request : FAsyncWidgetLoadRequest) (cls : UClass)
    : list Event :=
  EvStartLoading (RequestId Request)
  :: EvCreateWidget (RequestId Request) cls (bRemoveParent Request)
       (bDestroyParent Request) (ZOrder Request)
  :: match CreateAndSetupWidget w (Some cls) Request with
     | Some CreatedWidget =>
         CompletedEvents (OnLoadCompleted Request) (RequestId Request) CreatedWidget
     | None =>
         FailedEvents (OnLoadFailed Request) (RequestId Request)
           "Failed to create widget from cached class"
     end.

(** The state of [HandleLoadTimeout] after [Request.bCancelled = true] and
    [CancelledRequestIds.Add(RequestId)], the request being
    [ActiveRequests[i]]. *)
Definition TimeoutMarked (id : FGuid) (i : nat) (m : Manager) : Manager :=
  with_CancelledRequestIds (λ s, {[id]} ∪ s)
    (with_ActiveRequests (alter MarkCancelled i)
       (if bool_decide (id ∈ ActiveHandles m)
        then with_ActiveHandles (λ s, s ∖ {[id]}) m else m)).

(** The state in which [HandleLoadTimeout] calls [ProcessNextRequest]. *)
Definition AfterTimeout (id : FGuid) (i : nat) (m : Manager) : Manager :=
  with_TimeoutHandles (λ s, s ∖ {[id]})
    (with_FailedRequestCount (λ n, Int32Add n 1)
       (with_ActiveRequests (delete i) (TimeoutMarked id i m))).

(** The state in which [OnWidgetClassLoaded] calls [ProcessNextRequest] when
    it finds the request cancelled. *)
Definition AfterDiscard (Request : FAsyncWidgetLoadRequest) (m : Manager) : Manager :=
  with_ActiveRequests (RemoveFirstById (RequestId Request))
    ((if bool_decide (RequestId Request ∈ TimeoutHandles m)
      then with_TimeoutHandles (λ s, s ∖ {[RequestId Request]}) else id)
       (with_ActiveHandles (λ s, s ∖ {[RequestId Request]}) m)).

(** [Settles m m']: the settings and the cancelled ids are kept, the queue
    has lost a prefix, no request has appeared, and the active array has
    not grown beyond the limit. *)
Definition Settles (m m' : Manager) : Prop :=
  MaxConcurrentLoads m' = MaxConcurrentLoads m
  ∧ CancelledRequestIds m' = CancelledRequestIds m
  ∧ (∃ k, PendingRequests m' = drop k (PendingRequests m))
  ∧ IdsOf (ActiveRequests m') ++ IdsOf (PendingRequests m')
    ⊆+ IdsOf (ActiveRequests m) ++ IdsOf (PendingRequests m)
  ∧ Num (ActiveRequests m') ≤ Z.max (Num (ActiveRequests m)) (MaxConcurrentLoads m).

(** The limit on running loads. *)
Definition WithinLimit (m : Manager) : Prop :=
  Num (ActiveRequests m) ≤ MaxConcurrentLoads m.

(** The queue is ordered by [operator<], every request of the two arrays has
    its own id, and no waiting request is cancelled. *)
Definition QueueOK (m : Manager) : Prop :=
  StronglySorted Request_le (PendingRequests m)
  ∧ NoDup (IdsOf (ActiveRequests m) ++ IdsOf (PendingRequests m))
  ∧ (∀ r, r ∈ PendingRequests m → IsCancelled m r = false).

(** Every call of a run is allowed by [P] in the state it finds. *)
Fixpoint AllowedAll (P : Call → Manager → Prop) (cs : list (World * Call)) (m : Manager)
    : Prop :=
  match cs with
  | [] => True
  | (w, c) :: cs' => P c m ∧ AllowedAll P cs' (state (Perform w c m))
  end.

(** ** What the further properties speak of *)

(** No request that is kept in an array is cancelled: its flag is clear and
    its id is not among the cancelled ones. *)
Definition Live (m : Manager) : Prop :=
  ∀ r, r ∈ ActiveRequests m ++ PendingRequests m → IsCancelled m r = false.

(** A streamable handle is kept for each running request and for nothing
    else. *)
Definition HandlesMatch (m : Manager) : Prop :=
  ∀ id, id ∈ ActiveHandles m ↔ id ∈ IdsOf (ActiveRequests m).

(** Two integers that are the same [int32] value. *)
Definition Cong32 (a b : Z) : Prop := (a - b) `mod` 2 ^ 32 = 0.

(** The requests that are accounted for: those that the counters report as
    completed, failed or cancelled, and those that are kept in the arrays. *)
Definition Accounted (m : Manager) : Z :=
  CompletedRequestCount m + FailedRequestCount m + CancelledRequestCount m
  + Num (ActiveRequests m) + Num (PendingRequests m).

(** The counters add up, as [int32] values. *)
Definition Balanced (m : Manager) : Prop :=
  TotalRequestCount m = Int32Wrap (Accounted m).

(** Calls as the engine makes them: the GUIDs of new requests are fresh, and
    the streamable manager calls the delegate of a load that is still
    running, or of one that has been cancelled in the meantime. *)
Definition Orderly (c : Call) (m : Manager) : Prop :=
  match c with
  | CallOnWidgetClassLoaded Request =>
      Request ∈ ActiveRequests m ∨ RequestId Request ∈ CancelledRequestIds m
  | _ => GuidsFresh c m
  end.

(** What [CancelAllLoadRequests] shows for one running request: its
    streamable handle is cancelled and its timer cleared, where it has
    them. *)
Definition CancelEvents (w : World) (m : Manager) (id : FGuid) : list Event :=
  (if bool_decide (id ∈ ActiveHandles m) then [EvCancelHandle id] else [])
  ++ (if bool_decide (id ∈ TimeoutHandles m) && WorldContextIsValid w
      then [EvClearTimer id] else []).

(** The state that [CancelAllLoadRequests] leaves. *)
Definition AfterCancelAll (m : Manager) : Manager :=
  {| ActiveRequests := []; PendingRequests := [];
     CancelledRequestIds :=
       list_to_set (IdsOf (ActiveRequests m ++ PendingRequests m)) ∪ CancelledRequestIds m;
     ActiveHandles := ∅; TimeoutHandles := ∅;
     MaxConcurrentLoads := MaxConcurrentLoads m;
     TotalRequestCount := TotalRequestCount m;
     CompletedRequestCount := CompletedRequestCount m;
     FailedRequestCount := FailedRequestCount m;
     CancelledRequestCount :=
       Int32Add (CancelledRequestCount m)
         (Int32Add (Num (ActiveRequests m)) (Num (PendingRequests m)));
     WidgetClassCache := WidgetClassCache m |}.

(** The state in which [CancelLoadRequest] calls [ProcessNextRequest], the
    request being [ActiveRequests[i]]. *)
Definition AfterCancel (id : FGuid) (i : nat) (m : Manager) : Manager :=
  with_CancelledRequestCount (λ n, Int32Add n 1)
    (with_ActiveRequests (delete i)
       (with_CancelledRequestIds (λ s, {[id]} ∪ s)
          (with_TimeoutHandles (λ s, s ∖ {[id]})
             (with_ActiveHandles (λ s, s ∖ {[id]}) m)))).

(** The state that [CancelLoadRequest] leaves when the request is
    [PendingRequests[i]]. *)
Definition AfterCancelPending (id : FGuid) (i : nat) (m : Manager) : Manager :=
  with_CancelledRequestCount (λ n, Int32Add n 1)
    (with_PendingRequests (delete i)
       (with_CancelledRequestIds (λ s, {[id]} ∪ s) m)).

(** What clearing the time-out of a request shows: [ClearTimer] is called
    when the request has a timer handle and the world is still there. *)
Definition ClearTimerEvents (w : World) (m : Manager) (id : FGuid) : list Event :=
  if bool_decide (id ∈ TimeoutHandles m) && WorldContextIsValid w
  then [EvClearTimer id] else [].

(** The cache after [OnWidgetClassLoaded] has seen the class [cls] loaded
    for the soft class [p]: an entry that is there is kept. *)
Definition CacheWith (p : TSoftClassPtr) (cls : UClass) (cache : gmap string nat)
    : gmap string nat :=
  match cache !! p with
  | Some _ => cache
  | None => <[p := cls]> cache
  end.

(** What [OnWidgetClassLoaded] shows for a request that is not cancelled:
    the failure delegate when the class is not there, else the widget is
    asked for and the delegate that fits the answer is executed. *)
Definition CompletionEvents (w : World) (Request : FAsyncWidgetLoadRequest) : list Event :=
  match SoftGet w (WidgetClass Request) with
  | None =>
      FailedEvents (OnLoadFailed Request) (RequestId Request) "Failed to load widget class"
  | Some cls =>
      EvCreateWidget (RequestId Request) cls (bRemoveParent Request)
        (bDestroyParent Request) (ZOrder Request)
      :: match CreateAndSetupWidget w (Some cls) Request with
         | Some Widget =>
             CompletedEvents (OnLoadCompleted Request) (RequestId Request) Widget
         | None =>
             FailedEvents (OnLoadFailed Request) (RequestId Request)
               "Failed to create widget instance"
         end
  end.

(** What arming the time-out of a request shows. *)
Definition SetTimerEvents (w : World) (id : FGuid) : list Event :=
  if WorldContextIsValid w then [EvSetTimer id] else [].

(** The events that belong to the scheduler: a run of [ProcessNextRequest]
    cancels no handle and clears no timer. *)
Definition IsSchedulerEvent (e : Event) : Prop :=
  match e with
  | EvCancelHandle _ | EvClearTimer _ => False
  | _ => True
  end.

(** The request that an event is about. *)
Definition EventId (e : Event) : option FGuid :=
  match e with
  | EvStartLoading id | EvCreateWidget id _ _ _ _ | EvLoadCompleted id _
  | EvLoadFailed id _ | EvRequestAsyncLoad id _ | EvCancelHandle id
  | EvSetTimer id | EvClearTimer id => Some id
  | EvRemoveFromParent _ => None
  end.

(** ** Sample worlds and states *)

(** What the engine's sort does with an array of at most eight elements:
    as long as more than one element is left, the first of the greatest of
    them is swapped with the last of them, which is then left out.
    [FirstGreatest] is the inner loop: [Max] is the index of the greatest
    element [x] seen so far, and moves to [Item] when the element at [Max]
    is less than the one at [Item]. *)
Fixpoint FirstGreatest (Max : nat) (x : FAsyncWidgetLoadRequest) (Item : nat)
    (l : list FAsyncWidgetLoadRequest) : nat :=
  match l with
  | [] => Max
  | y :: l' =>
      if Request_lt x y then FirstGreatest Item y (S Item) l'
      else FirstGreatest Max x (S Item) l'
  end.

Definition Swap (i j : nat) (l : list FAsyncWidgetLoadRequest)
    : list FAsyncWidgetLoadRequest :=
  match l !! i, l !! j with
  | Some x, Some y => <[i := y]> (<[j := x]> l)
  | _, _ => l
  end.

Fixpoint SimpleSort_upto (Last : nat) (l : list FAsyncWidgetLoadRequest)
    : list FAsyncWidgetLoadRequest :=
  match Last with
  | O => l
  | S Last' =>
      let Max :=
        match l with
        | [] => O
        | x :: l' => FirstGreatest O x 1 (take Last l')
        end in
      SimpleSort_upto Last' (Swap Max Last l)
  end.

Definition SimpleSort (l : list FAsyncWidgetLoadRequest) : list FAsyncWidgetLoadRequest :=
  SimpleSort_upto (length l - 1) l.

(** A world in which no class is in memory. *)
Definition QuietWorld : World :=
  {| WorldContextIsValid := true; HasUINavPC := true;
     GoToWidget := λ cls _ _ _, Some {| GetClass := cls; WidgetObject := 0 |};
     ResolveObject := λ _, None;
     RequestAsyncLoad := λ _, true;
     TArraySort := SimpleSort |}.

(** A world in which the classes "A" and "B" are in memory, every load is
    accepted and every widget is created; arrays are sorted as the engine
    sorts short ones. *)
Definition GameWorld : World :=
  {| WorldContextIsValid := true; HasUINavPC := true;
     GoToWidget := λ cls _ _ _, Some {| GetClass := cls; WidgetObject := 0 |};
     ResolveObject := λ p,
       if bool_decide (p = "A"%string) then Some 1%nat
       else if bool_decide (p = "B"%string) then Some 2%nat
       else None;
     RequestAsyncLoad := λ _, true;
     TArraySort := SimpleSort |}.

(** That request. *)
Definition RequestA : FAsyncWidgetLoadRequest :=
  {| RequestId := 1%N; WidgetClass := "A"; bRemoveParent := false;
     bDestroyParent := false; ZOrder := 0; OnLoadCompleted := LoadedUser 0;
     OnLoadFailed := FailedUser 0; RequestTime := Seconds 10; bCancelled := false;
     Priority := 0 |}.

(** One request, for "A", has been made and is loading. *)
Definition OneLoading : Manager :=
  state (Perform GameWorld
    (CallLoadWidgetAsync 1%N (Seconds 10) "A" (LoadedUser 0) (FailedUser 0) false false 0 0)
    NewManager).

(** The request has been cancelled while it was loading. *)
Definition CancelledA : Manager :=
  state (Perform GameWorld (CallCancelLoadRequest 1%N) OneLoading).

(** The class "A" has been loaded once and is cached; nothing is active. *)
Definition Warm : Manager :=
  state (PerformAll
    [(GameWorld, CallLoadWidgetAsync 1%N (Seconds 10) "A" (LoadedUser 0) (FailedUser 0)
                   false false 0 0);
     (GameWorld, CallOnWidgetClassLoaded RequestA)] NewManager).

(** As [Warm], but with a limit of one load, and one load of "B" running. *)
Definition Busy : Manager :=
  state (PerformAll
    [(GameWorld, CallSetMaxConcurrentLoads 1);
     (GameWorld, CallLoadWidgetAsync 2%N (Seconds 20) "B" (LoadedUser 0) (FailedUser 0)
                   false false 0 0)] Warm).

(** Two loads are running under the limit of three when the limit is set to
    one. *)
Definition Lowered : Manager :=
  state (PerformAll
    [(GameWorld, CallLoadWidgetAsync 1%N (Seconds 10) "A" (LoadedUser 0) (FailedUser 0)
                   false false 0 0);
     (GameWorld, CallLoadWidgetAsync 2%N (Seconds 20) "B" (LoadedUser 0) (FailedUser 0)
                   false false 0 0);
     (GameWorld, CallSetMaxConcurrentLoads 1)] NewManager).


Definition RequestHigh : FAsyncWidgetLoadRequest :=
  {| RequestId := 3%N; WidgetClass := "B"; bRemoveParent := false;
     bDestroyParent := false; ZOrder := 0; OnLoadCompleted := LoadedUser 0;
     OnLoadFailed := FailedUser 0; RequestTime := Seconds 30; bCancelled := false;
     Priority := 5 |}.

(** Under a limit of one, "A" is loading; a request of priority 1 and then
    one of priority 5 have been put in the queue. *)
Definition Queued : Manager :=
  state (PerformAll
    [(GameWorld, CallSetMaxConcurrentLoads 1);
     (GameWorld, CallLoadWidgetAsync 1%N (Seconds 10) "A" (LoadedUser 0) (FailedUser 0)
                   false false 0 0);
     (GameWorld, CallLoadWidgetAsync 2%N (Seconds 20) "B" (LoadedUser 0) (FailedUser 0)
                   false false 0 1);
     (GameWorld, CallLoadWidgetAsync 3%N (Seconds 30) "B" (LoadedUser 0) (FailedUser 0)
                   false false 0 5)] NewManager).

(** Two requests for "B", of the same priority, made one second apart at
    clock readings that are stored as the same [float]. *)
Definition RequestEarly : FAsyncWidgetLoadRequest :=
  {| RequestId := 2%N; WidgetClass := "B"; bRemoveParent := false;
     bDestroyParent := false; ZOrder := 0; OnLoadCompleted := LoadedUser 0;
     OnLoadFailed := FailedUser 0; RequestTime := Seconds 16777216;
     bCancelled := false; Priority := 0 |}.

Definition RequestLate : FAsyncWidgetLoadRequest :=
  {| RequestId := 3%N; WidgetClass := "B"; bRemoveParent := false;
     bDestroyParent := false; ZOrder := 0; OnLoadCompleted := LoadedUser 0;
     OnLoadFailed := FailedUser 0; RequestTime := Seconds 16777216;
     bCancelled := false; Priority := 0 |}.


(** As [Tied], but the second request is made at 16777218 seconds, which is
    stored as it is. *)
Definition Apart : Manager :=
  state (PerformAll
    [(GameWorld, CallSetMaxConcurrentLoads 1);
     (GameWorld, CallLoadWidgetAsync 1%N (Seconds 10) "A" (LoadedUser 0) (FailedUser 0)
                   false false 0 0);
     (GameWorld, CallLoadWidgetAsync 2%N (Seconds 16777216) "B" (LoadedUser 0)
                   (FailedUser 0) false false 0 0);
     (GameWorld, CallLoadWidgetAsync 3%N (Seconds 16777218) "B" (LoadedUser 0)
                   (FailedUser 0) false false 0 0)] NewManager).

(** The ids 1 to 101, recorded from 101 down to 1: 101 is the oldest, 1 the
    newest. *)
Definition ManyCancelled : Manager :=
  with_CancelledRequestIds
    (λ s, foldl (λ s g, {[g]} ∪ s) s (N.of_nat <$> reverse (seq 1 101))) NewManager.

(** As [GameWorld], but the first player controller has no
    [UUINavPCComponent]: no widget can be created. *)
Definition HeadlessWorld : World :=
  {| WorldContextIsValid := true; HasUINavPC := false;
     GoToWidget := GoToWidget GameWorld;
     ResolveObject := ResolveObject GameWorld;
     RequestAsyncLoad := λ _, true;
     TArraySort := TArraySort GameWorld |}.

(** As [GameWorld], but the streamable manager hands out no handle. *)
Definition OfflineWorld : World :=
  {| WorldContextIsValid := true; HasUINavPC := true;
     GoToWidget := GoToWidget GameWorld;
     ResolveObject := ResolveObject GameWorld;
     RequestAsyncLoad := λ _, false;
     TArraySort := TArraySort GameWorld |}.

(** Four requests under a limit of two: the first two are started and two
    wait; one of the waiting requests is cancelled; the first load
    completes, which lets the other waiting request be served from the
    cache; the second load times out. *)
Definition Eventful : Manager :=
  state (PerformAll
    [(GameWorld, CallSetMaxConcurrentLoads 2);
     (GameWorld, CallLoadWidgetAsync 1%N (Seconds 10) "A" (LoadedUser 0) (FailedUser 0)
                   false false 0 0);
     (GameWorld, CallLoadWidgetAsync 2%N (Seconds 20) "B" (LoadedUser 0) (FailedUser 0)
                   false false 0 0);
     (GameWorld, CallLoadWidgetAsync 3%N (Seconds 30) "B" (LoadedUser 0) (FailedUser 0)
                   false false 0 1);
     (GameWorld, CallLoadWidgetAsync 4%N (Seconds 40) "A" (LoadedUser 0) (FailedUser 0)
                   false false 0 0);
     (GameWorld, CallCancelLoadRequest 3%N);
     (GameWorld, CallOnWidgetClassLoaded RequestA);
     (GameWorld, CallHandleLoadTimeout 2%N)] NewManager).

(** * Lemmas *)

Ltac unfold_M :=
  unfold when, skip, M_bind, M_ret, modify, get, emit, state, trace, result in *.

Lemma with_PendingRequests_const f m rest :
  f (PendingRequests m) = rest →
  with_PendingRequests f m = with_PendingRequests (λ _, rest) m.
Proof. intros <-. reflexivity. Qed.

Lemma StartLoadingWidget_with_body w k Request m :
  StartLoadingWidget_with w k Request m
  = (do! b ← StartLoadingWidget_body w Request ; if b then k else skip) m.
Proof.
  unfold StartLoadingWidget_with, StartLoadingWidget_body, GetFromWidgetClassCache,
    ExecuteLoadCompleted, ExecuteLoadFailed, ExecuteFailedDelegate, RemoveFromActive,
    AddToWidgetClassCache.
  unfold_M. simpl.
  repeat (case_match; simpl; simplify_eq; try reflexivity);
    repeat match goal with
    | |- context [k ?x] => destruct (k x) as [[[] ?] ?]
    end; simpl; rewrite ?app_nil_r; reflexivity.
Qed.

Lemma StartLoadingWidget_body_frame w Request m b m' t :
  StartLoadingWidget_body w Request m = (b, m', t) →
  PendingRequests m' = PendingRequests m
  ∧ MaxConcurrentLoads m' = MaxConcurrentLoads m
  ∧ CancelledRequestIds m' = CancelledRequestIds m
  ∧ CancelledRequestCount m' = CancelledRequestCount m
  ∧ TotalRequestCount m' = TotalRequestCount m
  ∧ ActiveRequests m'
    = (if b then RemoveFirstById (RequestId Request) (ActiveRequests m)
       else ActiveRequests m)
  ∧ StartedIds t = [RequestId Request]
  ∧ (∀ e id, e ∈ t → EventFor e = Some id → id = RequestId Request).
Proof.
  unfold StartLoadingWidget_body, GetFromWidgetClassCache,
    ExecuteLoadCompleted, ExecuteLoadFailed, ExecuteFailedDelegate, RemoveFromActive,
    AddToWidgetClassCache.
  unfold_M. simpl. intros H.
  repeat (case_match; simpl in *; simplify_eq);
    (repeat split; try reflexivity;
     intros e id He Hid;
     repeat (apply elem_of_cons in He as [-> | He]; [simpl in Hid; congruence|]);
     by apply elem_of_nil in He).
Qed.

Lemma ProcessNextRequest_depth_S w depth m :
  ProcessNextRequest_depth w (S depth) m =
  match PendingRequests m with
  | [] => ((), m, [])
  | NextRequest :: rest =>
      if Num (ActiveRequests m) <? MaxConcurrentLoads m
      then
        if IsCancelled m NextRequest
        then ProcessNextRequest_depth w depth (with_PendingRequests (λ _, rest) m)
        else
          let '(b, m1, t1) :=
            StartLoadingWidget_body w NextRequest
              (with_ActiveRequests (λ l, l ++ [NextRequest])
                 (with_PendingRequests (λ _, rest) m)) in
          if b
          then let '(u, m2, t2) := ProcessNextRequest_depth w depth m1 in (u, m2, t1 ++ t2)
          else ((), m1, t1)
      else ((), m, [])
  end.
Proof.
  simpl. unfold M_bind at 1, get at 1.
  destruct (PendingRequests m) as [|NextRequest rest] eqn:Hp; [done|].
  destruct (Num (ActiveRequests m) <? MaxConcurrentLoads m); [|done].
  unfold M_bind at 1, modify at 1.
  rewrite (with_PendingRequests_const _ m rest) by (rewrite Hp; done).
  fold (IsCancelled m NextRequest).
  destruct (IsCancelled m NextRequest).
  - destruct (ProcessNextRequest_depth w depth _) as [[[] m2] t2]. done.
  - unfold M_bind at 1, modify at 1.
    rewrite StartLoadingWidget_with_body. unfold M_bind at 1.
    destruct (StartLoadingWidget_body w NextRequest _) as [[[] m1] t1].
    + destruct (ProcessNextRequest_depth w depth m1) as [[[] m2] t2]. done.
    + simpl. by rewrite app_nil_r.
Qed.

Lemma ProcessNextRequest_depth_Serves w depth m :
  (length (PendingRequests m) ≤ depth)%nat →
  Serves w m (state (ProcessNextRequest_depth w depth m))
             (trace (ProcessNextRequest_depth w depth m)).
Proof.
  revert m. induction depth as [|depth IH]; intros m Hlen.
  - change (Serves w m m []).
    apply Serves_empty. destruct (PendingRequests m); simpl in *; [done | lia].
  - rewrite ProcessNextRequest_depth_S.
    destruct (PendingRequests m) as [|NextRequest rest] eqn:Hp.
    { apply Serves_empty. done. }
    destruct (Num (ActiveRequests m) <? MaxConcurrentLoads m) eqn:Hlt.
    2: { apply Serves_full. done. }
    destruct (IsCancelled m NextRequest) eqn:Hc.
    + eapply Serves_skip; eauto. apply IH. simpl in *. lia.
    + destruct (StartLoadingWidget_body w NextRequest _) as [[b m1] t1] eqn:Eb.
      pose proof (StartLoadingWidget_body_frame _ _ _ _ _ _ Eb) as (Hp1 & _).
      destruct b.
      * specialize (IH m1).
        destruct (ProcessNextRequest_depth w depth m1) as [[[] m2] t2] eqn:E.
        eapply Serves_again; eauto. apply IH. rewrite Hp1. simpl in *. lia.
      * eapply Serves_loading; eauto.
Qed.

Lemma ProcessNextRequest_Serves w m :
  Serves w m (state (ProcessNextRequest w m)) (trace (ProcessNextRequest w m)).
Proof. apply ProcessNextRequest_depth_Serves. done. Qed.

(** ** The rounding of the clock *)

Lemma RoundToEven_bounds n d :
  0 < d → n `div` d ≤ RoundToEven n d ≤ n `div` d + 1.
Proof.
  intros Hd. unfold RoundToEven. cbv zeta.
  repeat case_match; lia.
Qed.

Lemma RoundToEven_multiple k d : 0 < d → RoundToEven (k * d) d = k.
Proof.
  intros Hd. unfold RoundToEven. cbv zeta.
  rewrite Z.div_mul, Z.mod_mul by lia.
  rewrite (proj2 (Z.ltb_lt _ _)) by lia. done.
Qed.

Lemma RoundToEven_mono n1 n2 d :
  0 < d → n1 ≤ n2 → RoundToEven n1 d ≤ RoundToEven n2 d.
Proof.
  intros Hd Hn.
  pose proof (Z.div_le_mono n1 n2 d Hd Hn) as Hq.
  destruct (decide (n1 `div` d = n2 `div` d)) as [He|Hne].
  - pose proof (Z.div_mod n1 d ltac:(lia)) as E1.
    pose proof (Z.div_mod n2 d ltac:(lia)) as E2.
    assert (n1 `mod` d ≤ n2 `mod` d) as Hr by (rewrite He in E1; lia).
    unfold RoundToEven. cbv zeta. rewrite He.
    repeat case_match; lia.
  - pose proof (RoundToEven_bounds n1 d Hd). pose proof (RoundToEven_bounds n2 d Hd). lia.
Qed.

Lemma FloatOfDouble_nonneg x :
  0 ≤ x →
  FloatOfDouble x
  = Z.min (RoundToEven x (2 ^ Z.max 925 (Z.log2 x - 23))
           * 2 ^ Z.max 925 (Z.log2 x - 23)) (2 ^ 1202)
  ∧ 0 ≤ FloatOfDouble x.
Proof.
  intros Hx. unfold FloatOfDouble. cbv zeta. rewrite (Z.abs_eq x) by done.
  set (u := 2 ^ Z.max 925 (Z.log2 x - 23)).
  assert (0 < u) as Hu by (apply Z.pow_pos_nonneg; lia).
  assert (0 ≤ RoundToEven x u * u) as Hr.
  { pose proof (RoundToEven_bounds x u Hu). pose proof (Z.div_pos x u Hx Hu). nia. }
  assert (0 < 2 ^ 1202) as Hc by (apply Z.pow_pos_nonneg; lia).
  destruct (decide (x = 0)) as [->|Hne].
  - replace (RoundToEven 0 u) with 0.
    + simpl. split; [|done]. by rewrite Z.min_l by lia.
    + symmetry. apply (RoundToEven_multiple 0 u Hu).
  - rewrite Z.sgn_pos by lia. split; [lia|]. lia.
Qed.

Lemma FloatOfDouble_opp x : FloatOfDouble (- x) = - FloatOfDouble x.
Proof.
  unfold FloatOfDouble. cbv zeta. rewrite Z.abs_opp, Z.sgn_opp. lia.
Qed.

Lemma RoundedUp_mono a b :
  0 ≤ a → a ≤ b →
  RoundToEven a (2 ^ Z.max 925 (Z.log2 a - 23)) * 2 ^ Z.max 925 (Z.log2 a - 23)
  ≤ RoundToEven b (2 ^ Z.max 925 (Z.log2 b - 23)) * 2 ^ Z.max 925 (Z.log2 b - 23).
Proof.
  intros Ha Hab.
  set (ea := Z.max 925 (Z.log2 a - 23)). set (eb := Z.max 925 (Z.log2 b - 23)).
  pose proof (Z.log2_le_mono a b Hab) as Hl.
  assert (0 < 2 ^ ea) as Hua by (apply Z.pow_pos_nonneg; lia).
  assert (0 < 2 ^ eb) as Hub by (apply Z.pow_pos_nonneg; lia).
  destruct (decide (ea = eb)) as [He|Hne].
  - rewrite <- He. apply Z.mul_le_mono_nonneg_r; [lia|]. by apply RoundToEven_mono.
  - assert (ea < eb ∧ eb = Z.log2 b - 23 ∧ Z.log2 a < Z.log2 b) as (Hlt & Heb & Hll) by lia.
    assert (0 < b) as Hb.
    { destruct (decide (0 < b)); [done|]. rewrite (Z.log2_nonpos b) in Hll by lia.
      pose proof (Z.log2_nonneg a). lia. }
    set (p := 2 ^ Z.log2 b).
    assert (p ≤ b) as Hpb by (apply Z.log2_spec; lia).
    assert (a ≤ p) as Hap.
    { destruct (decide (a = 0)) as [->|Hne0].
      - unfold p. pose proof (Z.pow_pos_nonneg 2 (Z.log2 b)). lia.
      - pose proof (Z.log2_spec a ltac:(lia)) as [_ Hup].
        assert (2 ^ Z.succ (Z.log2 a) ≤ p); [|lia].
        apply Z.pow_le_mono_r; lia. }
    assert (p = 2 ^ (Z.log2 b - ea) * 2 ^ ea) as Hpa.
    { unfold p. rewrite <- Z.pow_add_r by lia. f_equal. lia. }
    assert (p = 2 ^ (Z.log2 b - eb) * 2 ^ eb) as Hpb'.
    { unfold p. rewrite <- Z.pow_add_r by lia. f_equal. lia. }
    trans p.
    + rewrite Hpa. apply Z.mul_le_mono_nonneg_r; [lia|].
      rewrite <- (RoundToEven_multiple (2 ^ (Z.log2 b - ea)) (2 ^ ea) Hua).
      apply RoundToEven_mono; [done|]. by rewrite <- Hpa.
    + rewrite Hpb' at 1. apply Z.mul_le_mono_nonneg_r; [lia|].
      rewrite <- (RoundToEven_multiple (2 ^ (Z.log2 b - eb)) (2 ^ eb) Hub).
      apply RoundToEven_mono; [done|]. by rewrite <- Hpb'.
Qed.

(** The rounding keeps the order of the readings, but not their being
    different. *)
Lemma FloatOfDouble_mono a b : a ≤ b → FloatOfDouble a ≤ FloatOfDouble b.
Proof.
  intros Hab.
  destruct (decide (0 ≤ a)) as [Ha|Ha].
  - destruct (FloatOfDouble_nonneg a Ha) as [-> _].
    destruct (FloatOfDouble_nonneg b ltac:(lia)) as [-> _].
    apply Z.min_le_compat_r. by apply RoundedUp_mono.
  - destruct (decide (0 ≤ b)) as [Hb|Hb].
    + destruct (FloatOfDouble_nonneg b Hb) as [_ Hpos].
      destruct (FloatOfDouble_nonneg (- a) ltac:(lia)) as [_ Hneg].
      rewrite FloatOfDouble_opp in Hneg. lia.
    + destruct (FloatOfDouble_nonneg (- a) ltac:(lia)) as [Ea _].
      destruct (FloatOfDouble_nonneg (- b) ltac:(lia)) as [Eb _].
      rewrite FloatOfDouble_opp in Ea, Eb.
      assert (- FloatOfDouble b ≤ - FloatOfDouble a); [|lia].
      rewrite Ea, Eb. apply Z.min_le_compat_r. apply RoundedUp_mono; lia.
Qed.

Example FloatOfDouble_exact : FloatOfDouble (Seconds 10) = Seconds 10.
Proof. by vm_compute. Qed.

Example FloatOfDouble_inexact :
  FloatOfDouble (Seconds 16777216) = Seconds 16777216
  ∧ FloatOfDouble (Seconds 16777216 + 2 ^ 1072) = Seconds 16777216
  ∧ FloatOfDouble (Seconds 16777217) = Seconds 16777216
  ∧ FloatOfDouble (Seconds 16777218) = Seconds 16777218
  ∧ FloatOfDouble (Seconds 16777219) = Seconds 16777220.
Proof. repeat split; by vm_compute. Qed.

(** ** Searching the arrays *)

Lemma IndexOfRequest_Some id l i :
  IndexOfRequest id l = Some i →
  ∃ r, l !! i = Some r ∧ RequestId r = id.
Proof.
  revert i. induction l as [|r l IH]; intros i; simpl; [done|].
  case_bool_decide as Hr.
  - intros [= <-]. eauto.
  - destruct (IndexOfRequest id l) as [j|]; simpl; [|done].
    intros [= <-]. apply IH. done.
Qed.

Lemma IndexOfRequest_None id l :
  IndexOfRequest id l = None ↔ id ∉ IdsOf l.
Proof.
  unfold IdsOf. induction l as [|r l IH]; simpl.
  - split; [intros _; apply not_elem_of_nil | done].
  - rewrite not_elem_of_cons. case_bool_decide as Hr.
    + split; [done | intros [? _]; congruence].
    + destruct (IndexOfRequest id l); simpl.
      * split; [done|]. intros [_ Hn]. by apply IH in Hn.
      * split; [|done]. intros _. split; [congruence | by apply IH].
Qed.

Lemma IndexOfRequest_elem_of id l :
  id ∈ IdsOf l → ∃ i, IndexOfRequest id l = Some i.
Proof.
  intros Hin. destruct (IndexOfRequest id l) as [i|] eqn:E; [eauto|].
  apply IndexOfRequest_None in E. done.
Qed.

Lemma FindRequest_Some id l i r :
  FindRequest id l = Some (i, r) →
  IndexOfRequest id l = Some i ∧ l !! i = Some r ∧ RequestId r = id.
Proof.
  unfold FindRequest. destruct (IndexOfRequest id l) as [j|] eqn:E; [|done].
  apply IndexOfRequest_Some in E as E'. destruct E' as (r' & Hr & Hid).
  rewrite Hr. simpl. intros [= <- <-]. done.
Qed.

Lemma FindRequest_None id l :
  FindRequest id l = None ↔ id ∉ IdsOf l.
Proof.
  rewrite <- IndexOfRequest_None. unfold FindRequest.
  destruct (IndexOfRequest id l) as [j|] eqn:E; [|done].
  apply IndexOfRequest_Some in E as (r' & -> & _). done.
Qed.

Lemma RemoveFirstById_sublist id l : RemoveFirstById id l `sublist_of` l.
Proof.
  unfold RemoveFirstById. destruct (IndexOfRequest id l); [apply sublist_delete | done].
Qed.

Lemma RemoveFirstById_app_new id l r :
  RequestId r = id →
  IdsOf (RemoveFirstById id (l ++ [r])) ≡ₚ IdsOf l.
Proof.
  intros <-. unfold RemoveFirstById, IdsOf.
  induction l as [|a l IH]; simpl.
  - rewrite bool_decide_eq_true_2 by done. done.
  - case_bool_decide as Ha; simpl.
    + rewrite fmap_app. simpl. rewrite Ha.
      rewrite <- Permutation_cons_append. done.
    + destruct (IndexOfRequest (RequestId r) (l ++ [r])) as [i|] eqn:E; simpl in *.
      * by rewrite IH.
      * apply IndexOfRequest_None in E. exfalso. apply E.
        unfold IdsOf. rewrite fmap_app. set_solver.
Qed.

Lemma RemoveFirstById_app_new_length id l r :
  RequestId r = id →
  length (RemoveFirstById id (l ++ [r])) = length l.
Proof.
  intros Hid. apply (RemoveFirstById_app_new id l r) in Hid.
  apply Permutation_length in Hid. unfold IdsOf in Hid.
  by rewrite !length_fmap in Hid.
Qed.

Lemma RemoveFirstById_absent id l : id ∉ IdsOf l → RemoveFirstById id l = l.
Proof.
  intros H. apply IndexOfRequest_None in H. unfold RemoveFirstById. by rewrite H.
Qed.

Lemma RemoveFirstById_length id l :
  id ∈ IdsOf l → S (length (RemoveFirstById id l)) = length l.
Proof.
  intros [i Hi]%IndexOfRequest_elem_of. unfold RemoveFirstById. rewrite Hi.
  apply IndexOfRequest_Some in Hi as (r & Hr & _).
  rewrite length_delete by eauto.
  apply lookup_lt_Some in Hr. lia.
Qed.

Lemma RemoveFirstById_not_elem_of id l :
  NoDup (IdsOf l) → id ∉ IdsOf (RemoveFirstById id l).
Proof.
  unfold RemoveFirstById, IdsOf. induction l as [|a l IH]; simpl.
  - intros _. apply not_elem_of_nil.
  - intros [Ha Hl]%NoDup_cons. case_bool_decide as E; simpl.
    + by rewrite <- E.
    + destruct (IndexOfRequest id l) as [i|]; simpl in *.
      * rewrite not_elem_of_cons. split; [congruence | by apply IH].
      * rewrite not_elem_of_cons. split; [congruence | by apply IH].
Qed.

(** ** What one run of [ProcessNextRequest] does *)

Ltac body_facts H :=
  let Hp := fresh "Hpend" in let Hm := fresh "Hmax" in
  let Hc := fresh "Hcids" in let Hcc := fresh "Hccount" in
  let Ht := fresh "Htotal" in let Ha := fresh "Hact" in
  let Hs := fresh "Hstart" in let He := fresh "Hev" in
  pose proof (StartLoadingWidget_body_frame _ _ _ _ _ _ H)
    as (Hp & Hm & Hc & Hcc & Ht & Ha & Hs & He);
  simpl in Hp, Hm, Hc, Hcc, Ht, Ha.

Lemma Serves_frame w m m' t :
  Serves w m m' t →
  MaxConcurrentLoads m' = MaxConcurrentLoads m
  ∧ CancelledRequestIds m' = CancelledRequestIds m
  ∧ CancelledRequestCount m' = CancelledRequestCount m
  ∧ TotalRequestCount m' = TotalRequestCount m.
Proof.
  induction 1 as [m Hp|m Hf|m r rest m' t Hp Hlt Hc _ IH
                  |m r rest m1 t1 m' t Hp Hlt Hc Hb _ IH|m r rest m1 t1 Hp Hlt Hc Hb];
    try done.
  - body_facts Hb. destruct IH as (-> & -> & -> & ->). done.
  - body_facts Hb. done.
Qed.

Lemma IsCancelled_ext m m' r :
  CancelledRequestIds m' = CancelledRequestIds m →
  IsCancelled m' r = IsCancelled m r.
Proof. unfold IsCancelled. by intros ->. Qed.

(** The queue loses a prefix; the requests of the prefix that are not
    cancelled are started, in the order of the queue. *)
Lemma Serves_queue w m m' t :
  Serves w m m' t →
  ∃ k, PendingRequests m' = drop k (PendingRequests m)
       ∧ StartedIds t
         = IdsOf (filter (λ r, IsCancelled m r = false) (take k (PendingRequests m))).
Proof.
  induction 1 as [m Hp|m Hf|m r rest m' t Hp Hlt Hc _ IH
                  |m r rest m1 t1 m' t Hp Hlt Hc Hb HA IH|m r rest m1 t1 Hp Hlt Hc Hb].
  - exists O. done.
  - exists O. done.
  - destruct IH as (k & Hd & Hs). simpl in Hd, Hs.
    exists (S k). rewrite Hp. simpl. split; [done|].
    rewrite filter_cons_False by (rewrite Hc; done).
    exact Hs.
  - body_facts Hb. destruct IH as (k & Hd & Hs).
    exists (S k). rewrite Hp. simpl. split; [by rewrite Hd, Hpend|].
    rewrite filter_cons_True by done.
    unfold StartedIds in *. rewrite omap_app, Hstart, Hs, Hpend. simpl. f_equal.
    f_equal. apply list_filter_iff. intros x. by rewrite (IsCancelled_ext m).
  - body_facts Hb. exists 1%nat. rewrite Hp. simpl. split; [by rewrite drop_0|].
    rewrite take_0, filter_cons_True by done. done.
Qed.

Lemma Serves_active_length w m m' t :
  Serves w m m' t →
  (length (ActiveRequests m) ≤ length (ActiveRequests m'))%nat
  ∧ Num (ActiveRequests m') ≤ Z.max (Num (ActiveRequests m)) (MaxConcurrentLoads m).
Proof.
  unfold Num.
  induction 1 as [m Hp|m Hf|m r rest m' t Hp Hlt Hc _ IH
                  |m r rest m1 t1 m' t Hp Hlt Hc Hb HA IH|m r rest m1 t1 Hp Hlt Hc Hb].
  - lia.
  - lia.
  - simpl in IH. lia.
  - body_facts Hb. rewrite Hact, RemoveFirstById_app_new_length, Hmax in IH by done.
    lia.
  - body_facts Hb. rewrite Hact, length_app. simpl.
    apply Z.ltb_lt in Hlt. unfold Num in Hlt. lia.
Qed.

(** A run that starts with at most one free slot ends without a free slot
    next to a waiting request. *)
Lemma Serves_NoStall w m m' t :
  Serves w m m' t →
  PendingRequests m = [] ∨ MaxConcurrentLoads m - 1 ≤ Num (ActiveRequests m) →
  NoStall m'.
Proof.
  unfold NoStall, Num.
  induction 1 as [m Hp|m Hf|m r rest m' t Hp Hlt Hc _ IH
                  |m r rest m1 t1 m' t Hp Hlt Hc Hb HA IH|m r rest m1 t1 Hp Hlt Hc Hb];
    intros Hpre.
  - by left.
  - right. apply Z.ltb_ge in Hf. done.
  - apply IH. simpl. right. destruct Hpre as [Hn|]; [congruence | done].
  - body_facts Hb. apply IH. right.
    rewrite Hact, RemoveFirstById_app_new_length, Hmax by done.
    destruct Hpre as [Hn|]; [congruence | done].
  - body_facts Hb. right. rewrite Hact, Hmax, length_app. simpl.
    destruct Hpre as [Hn|]; [congruence | lia].
Qed.

(** A delegate is executed, or a widget created, only for a request that
    waited in the queue and is not cancelled. *)
Lemma Serves_events w m m' t :
  Serves w m m' t →
  ∀ e id, e ∈ t → EventFor e = Some id →
  ∃ r, r ∈ PendingRequests m ∧ RequestId r = id ∧ IsCancelled m r = false.
Proof.
  induction 1 as [m Hp|m Hf|m r rest m' t Hp Hlt Hc _ IH
                  |m r rest m1 t1 m' t Hp Hlt Hc Hb HA IH|m r rest m1 t1 Hp Hlt Hc Hb];
    intros e id He Hid.
  - by apply elem_of_nil in He.
  - by apply elem_of_nil in He.
  - destruct (IH e id He Hid) as (r' & Hr' & Hid' & Hc'). simpl in Hr'.
    exists r'. rewrite Hp. split; [by apply elem_of_cons; right|]. done.
  - body_facts Hb. apply elem_of_app in He as [He|He].
    + exists r. rewrite Hp. split; [by apply elem_of_cons; left|].
      split; [|done]. symmetry. eauto.
    + destruct (IH e id He Hid) as (r' & Hr' & Hid' & Hc').
      exists r'. rewrite Hp. rewrite Hpend in Hr'.
      split; [by apply elem_of_cons; right|]. split; [done|].
      by rewrite <- (IsCancelled_ext m m1).
  - body_facts Hb. exists r. rewrite Hp. split; [by apply elem_of_cons; left|].
    split; [|done]. symmetry. eauto.
Qed.

(** No request appears out of nowhere. *)
Lemma Serves_ids w m m' t :
  Serves w m m' t →
  IdsOf (ActiveRequests m') ++ IdsOf (PendingRequests m')
  ⊆+ IdsOf (ActiveRequests m) ++ IdsOf (PendingRequests m).
Proof.
  induction 1 as [m Hp|m Hf|m r rest m' t Hp Hlt Hc _ IH
                  |m r rest m1 t1 m' t Hp Hlt Hc Hb HA IH|m r rest m1 t1 Hp Hlt Hc Hb].
  - done.
  - done.
  - simpl in IH. etrans; [apply IH|]. rewrite Hp. simpl.
    apply submseteq_app; [done|]. by apply submseteq_cons.
  - body_facts Hb. etrans; [apply IH|].
    rewrite Hact, Hpend, Hp, RemoveFirstById_app_new by done. simpl.
    rewrite <- Permutation_middle. by apply submseteq_cons.
  - body_facts Hb. rewrite Hact, Hpend, Hp. unfold IdsOf. rewrite fmap_app. simpl.
    rewrite <- app_assoc. done.
Qed.

Lemma Serves_progress w m m' t :
  Serves w m m' t →
  PendingRequests m ≠ [] →
  Num (ActiveRequests m) < MaxConcurrentLoads m →
  (length (PendingRequests m') < length (PendingRequests m))%nat.
Proof.
  intros HA Hne Hlt.
  destruct (Serves_queue _ _ _ _ HA) as (k & Hd & _).
  destruct HA as [m Hp|m Hf|m r rest m' t Hp _ _ HA
                  |m r rest m1 t1 m' t Hp _ _ Hb HA|m r rest m1 t1 Hp _ _ Hb].
  - done.
  - apply Z.ltb_ge in Hf. lia.
  - destruct (Serves_queue _ _ _ _ HA) as (k' & -> & _). simpl.
    rewrite Hp, length_drop. simpl. lia.
  - body_facts Hb. destruct (Serves_queue _ _ _ _ HA) as (k' & -> & _).
    rewrite Hpend, Hp, length_drop. simpl. lia.
  - body_facts Hb. rewrite Hpend, Hp. simpl. lia.
Qed.

Arguments ProcessNextRequest : simpl never.

Lemma ProcessNextRequest_run w m u m' t :
  ProcessNextRequest w m = (u, m', t) → Serves w m m' t.
Proof.
  intros H. pose proof (ProcessNextRequest_Serves w m) as HA.
  rewrite H in HA. done.
Qed.

(** Name the run of [ProcessNextRequest] in the goal and keep its
    derivation. *)
Ltac name_run :=
  match goal with
  | |- context [ProcessNextRequest ?w ?m] =>
      let E := fresh "Erun" in
      let m' := fresh "m'" in let t' := fresh "t'" in
      destruct (ProcessNextRequest w m) as [[[] m'] t'] eqn:E;
      apply ProcessNextRequest_run in E
  | H : context [ProcessNextRequest ?w ?m] |- _ =>
      let E := fresh "Erun" in
      let m' := fresh "m'" in let t' := fresh "t'" in
      destruct (ProcessNextRequest w m) as [[[] m'] t'] eqn:E;
      apply ProcessNextRequest_run in E
  end.

Ltac unfold_calls :=
  unfold LoadWidgetAsync, PreloadWidgetClass, CancelLoadRequest, SetMaxConcurrentLoads,
    OnWidgetClassLoaded, HandleLoadTimeout, CleanupCompletedRequests, ClearCache,
    ExecuteLoadCompleted, ExecuteLoadFailed, ExecuteFailedDelegate,
    RemoveFromActive, AddToWidgetClassCache, GetFromWidgetClassCache in *.

(** [StartLoadingWidget], as its body followed by [ProcessNextRequest]. *)
Lemma StartLoadingWidget_run w Request m :
  StartLoadingWidget w Request m
  = (do! b ← StartLoadingWidget_body w Request ;
     if b then ProcessNextRequest w else skip) m.
Proof. apply StartLoadingWidget_with_body. Qed.

Lemma StartLoadingWidget_NoStall w Request m :
  PendingRequests m = [] ∨ MaxConcurrentLoads m ≤ Num (ActiveRequests m) →
  NoStall (state (StartLoadingWidget w Request m)).
Proof.
  intros Hpre. rewrite StartLoadingWidget_run. unfold M_bind.
  destruct (StartLoadingWidget_body w Request m) as [[b m1] t1] eqn:Hb.
  body_facts Hb. destruct b.
  - name_run. simpl. eapply Serves_NoStall; [done|].
    rewrite Hpend, Hmax, Hact.
    destruct Hpre as [|Hpre]; [by left | right].
    destruct (decide (RequestId Request ∈ IdsOf (ActiveRequests m))) as [Hin|Hni].
    + apply RemoveFirstById_length in Hin. unfold Num in *. lia.
    + rewrite RemoveFirstById_absent by done. lia.
  - unfold_M. simpl. unfold NoStall. rewrite Hpend, Hmax, Hact. done.
Qed.

(** ** What the scheduler may do to a state *)

Lemma Settles_refl m : Settles m m.
Proof. repeat split; try done; [by exists O | lia]. Qed.

Lemma Settles_trans m1 m2 m3 : Settles m1 m2 → Settles m2 m3 → Settles m1 m3.
Proof.
  intros (Hm & Hc & (k & Hk) & Hi & Hn) (Hm' & Hc' & (k' & Hk') & Hi' & Hn').
  repeat split.
  - congruence.
  - congruence.
  - exists (k + k')%nat. by rewrite Hk', Hk, drop_drop.
  - by etrans.
  - rewrite Hm in Hn'. lia.
Qed.

Lemma Serves_Settles w m m' t : Serves w m m' t → Settles m m'.
Proof.
  intros HA.
  destruct (Serves_frame _ _ _ _ HA) as (Hm & Hc & _).
  destruct (Serves_queue _ _ _ _ HA) as (k & Hk & _).
  destruct (Serves_active_length _ _ _ _ HA) as (_ & Hn).
  repeat split; eauto using Serves_ids.
Qed.

Lemma StartLoadingWidget_body_Settles w Request m b m' t :
  StartLoadingWidget_body w Request m = (b, m', t) → Settles m m'.
Proof.
  intros Hb. body_facts Hb. repeat split; try done.
  - exists O. done.
  - rewrite Hpend, Hact. apply submseteq_app; [|done].
    destruct b; [|done]. unfold IdsOf. apply sublist_submseteq, fmap_sublist.
    apply RemoveFirstById_sublist.
  - rewrite Hact. destruct b; [|lia].
    pose proof (sublist_length _ _ (RemoveFirstById_sublist (RequestId Request)
      (ActiveRequests m))). unfold Num. lia.
Qed.

Lemma StartLoadingWidget_Settles w Request m :
  Settles m (state (StartLoadingWidget w Request m)).
Proof.
  rewrite StartLoadingWidget_run. unfold M_bind.
  destruct (StartLoadingWidget_body w Request m) as [[b m1] t1] eqn:Hb.
  apply StartLoadingWidget_body_Settles in Hb. destruct b.
  - name_run. simpl. eapply Settles_trans; eauto using Serves_Settles.
  - unfold_M. simpl. done.
Qed.

Lemma ProcessNextRequest_Settles w m :
  Settles m (state (ProcessNextRequest w m)).
Proof. eapply Serves_Settles, ProcessNextRequest_Serves. Qed.

(** ** Invariants of the reachable states *)

Lemma StronglySorted_drop {A} (R : relation A) k l :
  StronglySorted R l → StronglySorted R (drop k l).
Proof.
  revert l. induction k as [|k IH]; intros [|x l] H; simpl; try done.
  apply IH. by inversion H.
Qed.

Lemma StronglySorted_delete {A} (R : relation A) i l :
  StronglySorted R l → StronglySorted R (delete i l).
Proof.
  revert i. induction l as [|x l IH]; intros i H; [by destruct i|].
  inversion H as [|? ? Hl Hx]; subst. destruct i as [|i]; simpl; [done|].
  constructor; [by apply IH|].
  apply Forall_forall. intros y Hy.
  rewrite Forall_forall in Hx. apply Hx.
  eapply elem_of_sublist; [done | apply sublist_delete].
Qed.

Lemma submseteq_NoDup_inv {A} (l k : list A) : l ⊆+ k → NoDup k → NoDup l.
Proof.
  intros (k' & Hk)%submseteq_Permutation Hd. rewrite Hk in Hd.
  by apply NoDup_app in Hd as (? & _).
Qed.

Lemma Settles_WithinLimit m m' : Settles m m' → WithinLimit m → WithinLimit m'.
Proof. unfold WithinLimit. intros (Hm & _ & _ & _ & Hn) H. rewrite Hm. lia. Qed.

Lemma Settles_QueueOK m m' : Settles m m' → QueueOK m → QueueOK m'.
Proof.
  intros (Hm & Hc & (k & Hk) & Hi & Hn) (Hs & Hd & Hnc). repeat split.
  - rewrite Hk. by apply StronglySorted_drop.
  - eapply submseteq_NoDup_inv; eauto.
  - intros r Hr. rewrite (IsCancelled_ext m) by done. apply Hnc.
    rewrite Hk in Hr. eapply elem_of_sublist; [done | apply sublist_drop].
Qed.

(** ** The loop of [SetMaxConcurrentLoads] *)

Lemma ProcessWhilePossible_S w rounds m :
  ProcessWhilePossible w (S rounds) m =
  if (Num (ActiveRequests m) <? MaxConcurrentLoads m) && (0 <? Num (PendingRequests m))
  then let '(_, m1, t1) := ProcessNextRequest w m in
       let '(u, m2, t2) := ProcessWhilePossible w rounds m1 in (u, m2, t1 ++ t2)
  else ((), m, []).
Proof.
  simpl. unfold M_bind at 1, get at 1.
  destruct (_ && _); [|done]. unfold M_bind.
  destruct (ProcessNextRequest w m) as [[[] m1] t1].
  destruct (ProcessWhilePossible w rounds m1) as [[[] m2] t2]. done.
Qed.

Lemma ProcessWhilePossible_Settles w rounds m :
  Settles m (state (ProcessWhilePossible w rounds m)).
Proof.
  revert m. induction rounds as [|rounds IH]; intros m.
  - apply Settles_refl.
  - rewrite ProcessWhilePossible_S. destruct (_ && _); [|apply Settles_refl].
    name_run. specialize (IH m').
    destruct (ProcessWhilePossible w rounds m') as [[[] m2] t2].
    eapply Settles_trans; eauto using Serves_Settles.
Qed.

Lemma ProcessWhilePossible_NoStall w rounds m :
  (length (PendingRequests m) ≤ rounds)%nat →
  NoStall (state (ProcessWhilePossible w rounds m)).
Proof.
  revert m. induction rounds as [|rounds IH]; intros m Hlen.
  - change (NoStall m). left.
    destruct (PendingRequests m); simpl in *; [done | lia].
  - rewrite ProcessWhilePossible_S.
    destruct (_ && _) eqn:Htest.
    + apply andb_true_iff in Htest as [Hlt Hq].
      apply Z.ltb_lt in Hlt. apply Z.ltb_lt in Hq.
      name_run. specialize (IH m').
      destruct (ProcessWhilePossible w rounds m') as [[[] m2] t2]. apply IH.
      assert (PendingRequests m ≠ []) as Hne.
      { intros Hnil. rewrite Hnil in Hq. unfold Num in Hq. simpl in Hq. lia. }
      pose proof (Serves_progress _ _ _ _ Erun Hne Hlt). lia.
    + apply andb_false_iff in Htest as [Hlt|Hq].
      * right. apply Z.ltb_ge in Hlt. done.
      * left. apply Z.ltb_ge in Hq. unfold Num in Hq. simpl in *.
        destruct (PendingRequests m); simpl in *; [done | lia].
Qed.

(** ** Loops over an array *)

Lemma ForEach_invariant {A} (I : Manager → Prop) (body : A → M unit) l m :
  (∀ x m, I m → I (state (body x m))) →
  I m → I (state (ForEach body l m)).
Proof.
  intros Hbody. revert m. induction l as [|x l IH]; intros m Hm; simpl; [done|].
  unfold M_bind. specialize (Hbody x m Hm).
  destruct (body x m) as [[[] m1] t1]. specialize (IH m1 Hbody).
  destruct (ForEach body l m1) as [[[] m2] t2]. done.
Qed.

Lemma delete_alter {A} (f : A → A) i (l : list A) :
  delete i (alter f i l) = delete i l.
Proof.
  revert i. induction l as [|x l IH]; intros [|i]; simpl; try done.
  f_equal. apply IH.
Qed.

Lemma Num_delete i r (l : list FAsyncWidgetLoadRequest) :
  l !! i = Some r → Num (delete i l) = Num l - 1.
Proof.
  intros H. unfold Num. rewrite length_delete by eauto.
  apply lookup_lt_Some in H. lia.
Qed.

Lemma Num_nonneg l : 0 ≤ Num l.
Proof. unfold Num. lia. Qed.

Lemma Num_RemoveFirstById_ge id l : Num l - 1 ≤ Num (RemoveFirstById id l).
Proof.
  destruct (decide (id ∈ IdsOf l)) as [Hin|Hni].
  - apply RemoveFirstById_length in Hin. unfold Num. lia.
  - rewrite RemoveFirstById_absent by done. lia.
Qed.

Lemma Num_RemoveFirstById_le id l : Num (RemoveFirstById id l) ≤ Num l.
Proof.
  pose proof (sublist_length _ _ (RemoveFirstById_sublist id l)). unfold Num. lia.
Qed.

Lemma Num_app l r : Num (l ++ [r]) = Num l + 1.
Proof. unfold Num. rewrite length_app. simpl. lia. Qed.

(** These tactics bring a goal about a call to goals about the runs of the
    scheduler inside it. *)
Ltac run_facts :=
  repeat match goal with
  | H : ProcessNextRequest _ _ = _ |- _ => apply ProcessNextRequest_run in H
  end.

Ltac split_call :=
  unfold_calls; unfold_M; simpl;
  repeat (case_match; simpl in *; simplify_eq);
  run_facts.

(** ** No free slot is left next to a waiting request *)

Lemma StartOrQueue_NoStall w Request m m1 :
  NoStall m →
  PendingRequests m1 = PendingRequests m →
  ActiveRequests m1 = ActiveRequests m →
  MaxConcurrentLoads m1 = MaxConcurrentLoads m →
  (Num (ActiveRequests m) <? MaxConcurrentLoads m) = true →
  NoStall (state (StartLoadingWidget w Request
    (with_ActiveRequests (λ l, l ++ [Request]) m1))).
Proof.
  intros [Hn|Hn] Hp Ha Hm Hlt; apply Z.ltb_lt in Hlt; [|lia].
  apply StartLoadingWidget_NoStall. left. simpl. congruence.
Qed.

Lemma Perform_NoStall w c m : NoStall m → NoStall (state (Perform w c m)).
Proof.
  intros HN. destruct c; unfold Perform.
  - unfold_calls. unfold_M. destruct (IsNull SoftClass); simpl.
    { by destruct OnFailed. }
    destruct (Num (ActiveRequests m) <? MaxConcurrentLoads m) eqn:Hlt.
    + match goal with |- context [StartLoadingWidget w ?r ?x] =>
        pose proof (StartOrQueue_NoStall w r m
          (with_TotalRequestCount (λ n, Int32Add n 1) m) HN eq_refl eq_refl eq_refl Hlt) as X;
        destruct (StartLoadingWidget w r x) as [[[] ?] ?] end.
      done.
    + simpl. right. simpl. apply Z.ltb_ge in Hlt. done.
  - unfold_calls. unfold_M. destruct (negb (IsValid w SoftClass)); simpl; [done|].
    destruct (IsWidgetClassCached w m SoftClass); simpl; [done|].
    destruct (Num (ActiveRequests m) <? MaxConcurrentLoads m) eqn:Hlt.
    + match goal with |- context [StartLoadingWidget w ?r ?x] =>
        pose proof (StartOrQueue_NoStall w r m
          (with_TotalRequestCount (λ n, Int32Add n 1) m) HN eq_refl eq_refl eq_refl Hlt) as X;
        destruct (StartLoadingWidget w r x) as [[[] ?] ?] end.
      done.
    + simpl. right. simpl. apply Z.ltb_ge in Hlt. done.
  - split_call; try done.
    all: try (eapply Serves_NoStall; [done|]; simpl;
      match goal with H : FindRequest _ _ = Some _ |- _ =>
        apply FindRequest_Some in H as (_ & Hl & _) end;
      rewrite delete_alter, (Num_delete _ _ _ Hl);
      destruct HN as [HN|HN]; [by left | right; lia]).
    all: match goal with H : FindRequest _ (PendingRequests _) = Some _ |- _ =>
        apply FindRequest_Some in H as (_ & Hl & _) end.
    all: destruct HN as [HN|HN]; [rewrite HN in Hl; done | by right].
  - unfold CancelAllLoadRequests. unfold_M.
    repeat (case_match; simpl in *; simplify_eq); by left.
  - unfold_calls. unfold M_bind, modify.
    match goal with |- context [ProcessWhilePossible w ?n ?x] =>
      pose proof (ProcessWhilePossible_NoStall w n x (reflexivity _)) as X;
      destruct (ProcessWhilePossible w n x) as [[[] ?] ?] end.
    done.
  - done.
  - split_call.
    all: eapply Serves_NoStall; [done|]; simpl.
    all: pose proof (Num_RemoveFirstById_ge (RequestId Request) (ActiveRequests m)).
    all: destruct HN as [HN|HN]; [by left | right; lia].
  - split_call; try done.
    all: eapply Serves_NoStall; [done|]; simpl.
    all: match goal with H : FindRequest _ _ = Some _ |- _ =>
        apply FindRequest_Some in H as (_ & Hl & _) end.
    all: rewrite delete_alter, (Num_delete _ _ _ Hl).
    all: destruct HN as [HN|HN]; [by left | right; lia].
  - done.
Qed.

(** ** The limit on running loads *)

Ltac settle :=
  match goal with
  | H : Serves _ ?m1 ?m' _ |- WithinLimit ?m' =>
      apply (Settles_WithinLimit m1 m' (Serves_Settles _ _ _ _ H))
  end.

Lemma StartOrQueue_WithinLimit w Request m m1 :
  WithinLimit m →
  ActiveRequests m1 = ActiveRequests m →
  MaxConcurrentLoads m1 = MaxConcurrentLoads m →
  (Num (ActiveRequests m) <? MaxConcurrentLoads m) = true →
  WithinLimit (state (StartLoadingWidget w Request
    (with_ActiveRequests (λ l, l ++ [Request]) m1))).
Proof.
  intros HW Ha Hm Hlt. apply Z.ltb_lt in Hlt.
  eapply Settles_WithinLimit; [apply StartLoadingWidget_Settles|].
  unfold WithinLimit. simpl. rewrite Ha, Hm, Num_app. lia.
Qed.

Lemma CancelAllLoadRequests_state w m :
  ∃ m2, state (CancelAllLoadRequests w m)
        = with_TimeoutHandles (λ _, ∅) (with_ActiveHandles (λ _, ∅)
            (with_PendingRequests (λ _, []) (with_ActiveRequests (λ _, []) m2)))
        ∧ MaxConcurrentLoads m2 = MaxConcurrentLoads m.
Proof.
  unfold CancelAllLoadRequests. unfold M_bind at 1, get at 1.
  unfold M_bind at 1.
  match goal with |- context [ForEach ?b ?l m] =>
    pose proof (ForEach_invariant (λ x, MaxConcurrentLoads x = MaxConcurrentLoads m)
                  b l m) as H1;
    destruct (ForEach b l m) as [[[] m1] t1] end.
  unfold M_bind at 1.
  match goal with |- context [ForEach ?b ?l m1] =>
    pose proof (ForEach_invariant (λ x, MaxConcurrentLoads x = MaxConcurrentLoads m)
                  b l m1) as H2;
    destruct (ForEach b l m1) as [[[] m2] t2] end.
  unfold_M. simpl in *. eexists. split; [reflexivity|]. simpl.
  apply H2.
  - intros i m0 <-. destruct (PendingRequests m !! i); done.
  - apply H1; [|done].
    intros i m0 <-. destruct (ActiveRequests m !! i); [|done].
    repeat (case_match; simpl in *; simplify_eq); done.
Qed.

Lemma Perform_WithinLimit w c m :
  LimitKept c m → WithinLimit m → WithinLimit (state (Perform w c m)).
Proof.
  intros HK HW. destruct c; unfold Perform.
  - unfold_calls. unfold_M. destruct (IsNull SoftClass); simpl.
    { by destruct OnFailed. }
    destruct (Num (ActiveRequests m) <? MaxConcurrentLoads m) eqn:Hlt.
    + match goal with |- context [StartLoadingWidget w ?r ?x] =>
        pose proof (StartOrQueue_WithinLimit w r m
          (with_TotalRequestCount (λ n, Int32Add n 1) m) HW eq_refl eq_refl Hlt) as X;
        destruct (StartLoadingWidget w r x) as [[[] ?] ?] end.
      done.
    + done.
  - unfold_calls. unfold_M. destruct (negb (IsValid w SoftClass)); simpl; [done|].
    destruct (IsWidgetClassCached w m SoftClass); simpl; [done|].
    destruct (Num (ActiveRequests m) <? MaxConcurrentLoads m) eqn:Hlt.
    + match goal with |- context [StartLoadingWidget w ?r ?x] =>
        pose proof (StartOrQueue_WithinLimit w r m
          (with_TotalRequestCount (λ n, Int32Add n 1) m) HW eq_refl eq_refl Hlt) as X;
        destruct (StartLoadingWidget w r x) as [[[] ?] ?] end.
      done.
    + done.
  - split_call; try done.
    all: settle; unfold WithinLimit in *; simpl.
    all: match goal with H : FindRequest _ _ = Some _ |- _ =>
        apply FindRequest_Some in H as (_ & Hl & _) end.
    all: rewrite delete_alter, (Num_delete _ _ _ Hl); lia.
  - destruct (CancelAllLoadRequests_state w m) as (m2 & -> & Hm).
    unfold WithinLimit in *. simpl. rewrite Hm.
    pose proof (Num_nonneg (ActiveRequests m)). unfold Num at 1. simpl. lia.
  - unfold_calls. unfold M_bind, modify.
    match goal with |- context [ProcessWhilePossible w ?n ?x] =>
      pose proof (ProcessWhilePossible_Settles w n x) as X;
      destruct (ProcessWhilePossible w n x) as [[[] ?] ?] end.
    eapply Settles_WithinLimit; [done|]. done.
  - done.
  - split_call.
    all: settle; unfold WithinLimit in *; simpl.
    all: pose proof (Num_RemoveFirstById_le (RequestId Request) (ActiveRequests m)); lia.
  - split_call; try done.
    all: settle; unfold WithinLimit in *; simpl.
    all: match goal with H : FindRequest _ _ = Some _ |- _ =>
        apply FindRequest_Some in H as (_ & Hl & _) end.
    all: rewrite delete_alter, (Num_delete _ _ _ Hl); lia.
  - done.
Qed.

(** ** The order of the queue *)

#[global] Instance Request_le_total : Total Request_le.
Proof.
  intros a b. unfold Request_le, Request_lt.
  destruct (Priority a =? Priority b) eqn:E1, (Priority b =? Priority a) eqn:E2; simpl;
    rewrite ?Z.ltb_ge, ?Z.eqb_eq, ?Z.eqb_neq in *; lia.
Qed.

#[global] Instance Request_le_trans : Transitive Request_le.
Proof.
  intros a b c. unfold Request_le, Request_lt.
  destruct (Priority a =? Priority b) eqn:E1, (Priority b =? Priority c) eqn:E2,
    (Priority c =? Priority a) eqn:E3, (Priority b =? Priority a) eqn:E4,
    (Priority c =? Priority b) eqn:E5; simpl;
    rewrite ?Z.ltb_ge, ?Z.eqb_eq, ?Z.eqb_neq in *; try lia.
Qed.

Lemma Sort_sorted w l : StronglySorted Request_le (Sort w l).
Proof.
  unfold Sort. case_bool_decide as H; [apply H|].
  apply StronglySorted_merge_sort; apply _.
Qed.

Lemma Sort_Permutation w l : Sort w l ≡ₚ l.
Proof.
  unfold Sort. case_bool_decide as H; [apply H|]. apply merge_sort_Permutation.
Qed.

Lemma StronglySorted_sublist {A} (R : relation A) l1 l2 :
  l1 `sublist_of` l2 → StronglySorted R l2 → StronglySorted R l1.
Proof.
  induction 1 as [|x l1 l2 Hs IH|x l1 l2 Hs IH]; intros H; [done|..].
  - inversion H as [|? ? Hl Hx]; subst. constructor; [by apply IH|].
    rewrite Forall_forall in *. intros y Hy. apply Hx. by eapply elem_of_sublist.
  - inversion H; subst. by apply IH.
Qed.

Lemma QueueOK_shrink m m1 :
  QueueOK m →
  PendingRequests m1 `sublist_of` PendingRequests m →
  IdsOf (ActiveRequests m1) ++ IdsOf (PendingRequests m1)
    ⊆+ IdsOf (ActiveRequests m) ++ IdsOf (PendingRequests m) →
  (∀ r, r ∈ PendingRequests m1 → RequestId r ∈ CancelledRequestIds m1 →
        RequestId r ∈ CancelledRequestIds m) →
  QueueOK m1.
Proof.
  intros (Hs & Hd & Hnc) Hsub Hids Hc. repeat split.
  - by eapply StronglySorted_sublist.
  - by eapply submseteq_NoDup_inv.
  - intros r Hr. specialize (Hnc r (elem_of_sublist _ _ _ Hr Hsub)).
    unfold IsCancelled in *. apply orb_false_iff in Hnc as [-> Hn]. simpl.
    apply bool_decide_eq_false. apply bool_decide_eq_false in Hn.
    intros Hin. apply Hn. by apply Hc.
Qed.

Lemma IdsOf_delete_submseteq i l : IdsOf (delete i l) ⊆+ IdsOf l.
Proof. unfold IdsOf. apply sublist_submseteq, fmap_sublist, sublist_delete. Qed.

Lemma IdsOf_RemoveFirstById_submseteq id l : IdsOf (RemoveFirstById id l) ⊆+ IdsOf l.
Proof. unfold IdsOf. apply sublist_submseteq, fmap_sublist, RemoveFirstById_sublist. Qed.

Lemma elem_of_IdsOf r l : r ∈ l → RequestId r ∈ IdsOf l.
Proof. intros H. unfold IdsOf. by apply list_elem_of_fmap_2. Qed.

Lemma lookup_IdsOf i r l : l !! i = Some r → RequestId r ∈ IdsOf l.
Proof. intros H. apply elem_of_IdsOf. by eapply list_elem_of_lookup_2. Qed.

(** In an array without repeated ids, what is left after [RemoveAt(i)] does
    not have the id of [A[i]]. *)
Lemma delete_other_id i r0 r l :
  NoDup (IdsOf l) → l !! i = Some r0 → r ∈ delete i l → RequestId r ≠ RequestId r0.
Proof.
  unfold IdsOf. revert i. induction l as [|a l IH]; intros i Hd Hi Hr; [done|].
  apply NoDup_cons in Hd as [Ha Hd]. destruct i as [|i]; simpl in *.
  - simplify_eq. intros E. apply Ha. rewrite <- E. by apply (elem_of_IdsOf r l).
  - apply elem_of_cons in Hr as [->|Hr].
    + intros E. apply Ha. rewrite E. by apply (lookup_IdsOf i r0 l).
    + by eapply IH.
Qed.

Lemma foldl_remove (l : list N) (s : gset N) :
  foldl (λ s g, s ∖ {[g]}) s l = s ∖ list_to_set l.
Proof.
  revert s. induction l as [|g l IH]; intros s; simpl.
  - set_solver.
  - rewrite IH. set_solver.
Qed.

Lemma PruneCancelled_subseteq ids : PruneCancelled ids ⊆ ids.
Proof.
  unfold PruneCancelled. case_match; [|done].
  rewrite foldl_remove. set_solver.
Qed.

Lemma StartOrQueue_QueueOK w Request m m1 :
  QueueOK m → FreshGuid (RequestId Request) m →
  PendingRequests m1 = PendingRequests m →
  ActiveRequests m1 = ActiveRequests m →
  CancelledRequestIds m1 = CancelledRequestIds m →
  QueueOK (state (StartLoadingWidget w Request
    (with_ActiveRequests (λ l, l ++ [Request]) m1))).
Proof.
  intros (Hs & Hd & Hnc) (Hv & Hfa & Hfp & Hfc) Hp Ha Hc.
  eapply Settles_QueueOK; [apply StartLoadingWidget_Settles|].
  repeat split; simpl.
  - by rewrite Hp.
  - rewrite Hp, Ha. unfold IdsOf in *. rewrite fmap_app, <- app_assoc. simpl.
    rewrite <- Permutation_middle. apply NoDup_cons. split; [|done].
    rewrite elem_of_app. tauto.
  - rewrite Hp. intros r Hr. rewrite <- (Hnc r Hr). by apply IsCancelled_ext.
Qed.

Lemma Queue_QueueOK w Request m m1 :
  QueueOK m → FreshGuid (RequestId Request) m → bCancelled Request = false →
  PendingRequests m1 = PendingRequests m →
  ActiveRequests m1 = ActiveRequests m →
  CancelledRequestIds m1 = CancelledRequestIds m →
  QueueOK (with_PendingRequests (Sort w) (with_PendingRequests (λ l, l ++ [Request]) m1)).
Proof.
  intros (Hs & Hd & Hnc) (Hv & Hfa & Hfp & Hfc) Hb Hp Ha Hc.
  repeat split; simpl.
  - apply Sort_sorted.
  - rewrite Hp, Ha. unfold IdsOf in *.
    rewrite Sort_Permutation, fmap_app, app_assoc. simpl.
    rewrite <- Permutation_cons_append. apply NoDup_cons. split; [|done].
    rewrite elem_of_app. tauto.
  - intros r Hr. rewrite Sort_Permutation, Hp in Hr.
    apply elem_of_app in Hr as [Hr|Hr].
    + rewrite <- (Hnc r Hr). by apply IsCancelled_ext.
    + apply list_elem_of_singleton in Hr as ->. unfold IsCancelled. rewrite Hb. simpl.
      apply bool_decide_eq_false. by rewrite Hc.
Qed.

Ltac settle_queue :=
  match goal with
  | H : Serves _ ?m1 ?m' _ |- QueueOK ?m' =>
      apply (Settles_QueueOK m1 m' (Serves_Settles _ _ _ _ H))
  end.

Lemma QueueOK_cancel_active m m1 id i r :
  QueueOK m →
  ActiveRequests m !! i = Some r → RequestId r = id →
  PendingRequests m1 = PendingRequests m →
  ActiveRequests m1 = delete i (ActiveRequests m) →
  CancelledRequestIds m1 = {[id]} ∪ CancelledRequestIds m →
  QueueOK m1.
Proof.
  intros HQ Hl Hid Hp Ha Hc. eapply QueueOK_shrink; [done|..].
  - by rewrite Hp.
  - rewrite Hp, Ha. apply submseteq_app; [apply IdsOf_delete_submseteq | done].
  - intros r' Hr'. rewrite Hc, Hp in *. intros [Hin|Hin]%elem_of_union; [|done].
    apply elem_of_singleton in Hin. destruct HQ as (_ & Hd & _).
    apply NoDup_app in Hd as (_ & Hd & _). exfalso.
    apply (Hd id); [rewrite <- Hid; by eapply lookup_IdsOf|].
    rewrite <- Hin. by apply elem_of_IdsOf.
Qed.

Lemma QueueOK_cancel_pending m m1 id i r :
  QueueOK m →
  PendingRequests m !! i = Some r → RequestId r = id →
  PendingRequests m1 = delete i (PendingRequests m) →
  ActiveRequests m1 = ActiveRequests m →
  CancelledRequestIds m1 = {[id]} ∪ CancelledRequestIds m →
  QueueOK m1.
Proof.
  intros HQ Hl Hid Hp Ha Hc. eapply QueueOK_shrink; [done|..].
  - rewrite Hp. apply sublist_delete.
  - rewrite Hp, Ha. apply submseteq_app; [done | apply IdsOf_delete_submseteq].
  - intros r' Hr'. rewrite Hc, Hp in *. intros [Hin|Hin]%elem_of_union; [|done].
    apply elem_of_singleton in Hin. destruct HQ as (_ & Hd & _).
    apply NoDup_app in Hd as (_ & _ & Hd). exfalso.
    eapply delete_other_id; [done..|]. congruence.
Qed.

Lemma Perform_QueueOK w c m :
  GuidsFresh c m → QueueOK m → QueueOK (state (Perform w c m)).
Proof.
  intros HF HQ. destruct c; unfold Perform; simpl in HF.
  - unfold_calls. unfold_M. destruct (IsNull SoftClass); simpl.
    { by destruct OnFailed. }
    destruct (Num (ActiveRequests m) <? MaxConcurrentLoads m) eqn:Hlt.
    + match goal with |- context [StartLoadingWidget w ?r ?x] =>
        pose proof (StartOrQueue_QueueOK w r m
          (with_TotalRequestCount (λ n, Int32Add n 1) m) HQ HF eq_refl eq_refl eq_refl) as X;
        destruct (StartLoadingWidget w r x) as [[[] ?] ?] end.
      done.
    + simpl. by apply (Queue_QueueOK _ _ m).
  - unfold_calls. unfold_M. destruct (negb (IsValid w SoftClass)); simpl; [done|].
    destruct (IsWidgetClassCached w m SoftClass); simpl; [done|].
    destruct (Num (ActiveRequests m) <? MaxConcurrentLoads m) eqn:Hlt.
    + match goal with |- context [StartLoadingWidget w ?r ?x] =>
        pose proof (StartOrQueue_QueueOK w r m
          (with_TotalRequestCount (λ n, Int32Add n 1) m) HQ HF eq_refl eq_refl eq_refl) as X;
        destruct (StartLoadingWidget w r x) as [[[] ?] ?] end.
      done.
    + simpl. by apply (Queue_QueueOK _ _ m).
  - split_call; try done.
    all: try settle_queue.
    all: match goal with H : FindRequest _ _ = Some _ |- _ =>
        apply FindRequest_Some in H as (_ & Hl & Hid) end.
    all: subst.
    all: first [ eapply QueueOK_cancel_active; [done..| | |]; simpl;
                 rewrite ?delete_alter; reflexivity
               | eapply QueueOK_cancel_pending; [done..| | |]; simpl;
                 rewrite ?delete_alter; reflexivity ].
  - destruct (CancelAllLoadRequests_state w m) as (m2 & -> & Hm).
    repeat split; simpl; [constructor | constructor |].
    intros r Hr. by apply elem_of_nil in Hr.
  - unfold_calls. unfold M_bind, modify.
    match goal with |- context [ProcessWhilePossible w ?n ?x] =>
      pose proof (ProcessWhilePossible_Settles w n x) as X;
      destruct (ProcessWhilePossible w n x) as [[[] ?] ?] end.
    eapply Settles_QueueOK; [done|]. done.
  - done.
  - split_call.
    all: settle_queue.
    all: eapply QueueOK_shrink; [done| | |]; simpl; [done| |done].
    all: apply submseteq_app; [apply IdsOf_RemoveFirstById_submseteq | done].
  - split_call; try done.
    all: settle_queue.
    all: match goal with H : FindRequest _ _ = Some _ |- _ =>
        apply FindRequest_Some in H as (_ & Hl & Hid) end.
    all: subst.
    all: eapply QueueOK_cancel_active; [done..| | |]; simpl;
         rewrite ?delete_alter; reflexivity.
  - simpl. eapply QueueOK_shrink; [done| | |]; simpl; [done..|].
    intros r _. apply PruneCancelled_subseteq.
Qed.

(** ** The order of admission *)



Lemma StartedIds_app t1 t2 : StartedIds (t1 ++ t2) = StartedIds t1 ++ StartedIds t2.
Proof. apply omap_app. Qed.












(** ** Reachable states *)

Lemma ReachableBy_invariant (P : Call → Manager → Prop) (I : Manager → Prop) :
  I NewManager →
  (∀ w c m, P c m → I m → I (state (Perform w c m))) →
  ∀ m, ReachableBy P m → I m.
Proof. intros H0 Hstep m. induction 1; eauto. Qed.

Lemma NewManager_QueueOK : QueueOK NewManager.
Proof.
  repeat split; simpl; [constructor | constructor |].
  intros r Hr. by apply elem_of_nil in Hr.
Qed.

Lemma Reachable_QueueOK m : Reachable m → QueueOK m.
Proof.
  apply ReachableBy_invariant; [apply NewManager_QueueOK|].
  intros w c m0. apply Perform_QueueOK.
Qed.

(** ** What a delegate's execution shows *)

Lemma ExecuteLoadCompleted_trace w Request Widget m :
  trace (ExecuteLoadCompleted w Request Widget m)
  = CompletedEvents (OnLoadCompleted Request) (RequestId Request) Widget.
Proof.
  unfold ExecuteLoadCompleted, CompletedEvents, AddToWidgetClassCache.
  destruct (OnLoadCompleted Request); unfold_M; simpl; try done.
  by destruct (negb (IsValid w WidgetClass0)).
Qed.

Lemma ExecuteFailedDelegate_run d id Message m :
  ExecuteFailedDelegate d id Message m = ((), m, FailedEvents d id Message).
Proof. by destruct d. Qed.

Lemma StartLoadingWidget_frame w Request m :
  let r := StartLoadingWidget w Request m in
  TotalRequestCount (state r) = TotalRequestCount m
  ∧ CancelledRequestCount (state r) = CancelledRequestCount m
  ∧ CancelledRequestIds (state r) = CancelledRequestIds m
  ∧ ∃ rest, StartedIds (trace r) = RequestId Request :: rest.
Proof.
  simpl. rewrite StartLoadingWidget_run. unfold M_bind.
  destruct (StartLoadingWidget_body w Request m) as [[b m1] t1] eqn:Hb.
  body_facts Hb. destruct b.
  - name_run. simpl. destruct (Serves_frame _ _ _ _ Erun) as (_ & -> & -> & ->).
    rewrite StartedIds_app, Hstart. repeat split; try done. by eexists.
  - unfold_M. simpl. rewrite app_nil_r, Hstart. repeat split; try done. by eexists.
Qed.

(** [LoadWidgetAsync] for a soft class that is not null. *)
Lemma LoadWidgetAsync_accepted w NewGuid Now SoftClass OnCompleted OnFailed
    RemoveParent DestroyParent Z_Order Prio m :
  IsNull SoftClass = false →
  let r := LoadWidgetAsync w NewGuid Now SoftClass OnCompleted OnFailed
             RemoveParent DestroyParent Z_Order Prio m in
  let NewRequest :=
    {| RequestId := NewGuid; WidgetClass := SoftClass;
       bRemoveParent := RemoveParent; bDestroyParent := DestroyParent;
       ZOrder := Z_Order; OnLoadCompleted := OnCompleted;
       OnLoadFailed := OnFailed; RequestTime := FloatOfDouble Now;
       bCancelled := false; Priority := Prio |} in
  result r = NewGuid
  ∧ TotalRequestCount (state r) = Int32Add (TotalRequestCount m) 1
  ∧ (Num (ActiveRequests m) < MaxConcurrentLoads m →
     ∃ rest, StartedIds (trace r) = NewGuid :: rest)
  ∧ (MaxConcurrentLoads m ≤ Num (ActiveRequests m) →
     PendingRequests (state r) = Sort w (PendingRequests m ++ [NewRequest])
     ∧ ActiveRequests (state r) = ActiveRequests m
     ∧ trace r = []).
Proof.
  intros Hnull. simpl. unfold LoadWidgetAsync. rewrite Hnull.
  unfold_M. simpl.
  destruct (Num (ActiveRequests m) <? MaxConcurrentLoads m) eqn:Hlt.
  - apply Z.ltb_lt in Hlt.
    match goal with |- context [StartLoadingWidget w ?r ?x] =>
      destruct (StartLoadingWidget_frame w r x) as (Ht & _ & _ & rest & Hs);
      destruct (StartLoadingWidget w r x) as [[[] ?] ?] end.
    simpl in *. rewrite !app_nil_r. repeat split; [done | | lia..].
    intros _. by exists rest.
  - apply Z.ltb_ge in Hlt. simpl. repeat split; try done. lia.
Qed.

Lemma IsValid_not_null w SoftClass : IsValid w SoftClass = true → IsNull SoftClass = false.
Proof. unfold IsValid, SoftGet. by destruct (IsNull SoftClass). Qed.

Lemma PreloadWidgetClass_accepted w NewGuid Now SoftClass Prio m :
  IsValid w SoftClass = true → WidgetClassCache m !! SoftClass = None →
  PreloadWidgetClass w NewGuid Now SoftClass Prio m
  = LoadWidgetAsync w NewGuid Now SoftClass
      (LoadedPreload SoftClass) (FailedPreload SoftClass) false false 0 Prio m.
Proof.
  intros Hv Hc. unfold PreloadWidgetClass, LoadWidgetAsync, IsWidgetClassCached.
  rewrite (IsValid_not_null _ _ Hv), Hv. simpl.
  unfold M_bind at 1, get at 1. rewrite Hc.
  rewrite bool_decide_eq_false_2 by (by intros [? ?]).
  match goal with |- _ = ?c => by destruct c as [[? ?] ?] end.
Qed.

(** ** Pruning the cancelled ids *)

Lemma PruneCancelled_small ids :
  Z.of_nat (size ids) ≤ MaxCancelledIds → PruneCancelled ids = ids.
Proof.
  intros H. unfold PruneCancelled.
  by rewrite (proj2 (Z.ltb_ge _ _)) by done.
Qed.

Lemma PruneCancelled_large ids :
  MaxCancelledIds < Z.of_nat (size ids) → size (PruneCancelled ids) = 50%nat.
Proof.
  intros H. unfold PruneCancelled.
  rewrite (proj2 (Z.ltb_lt _ _)) by done. rewrite foldl_remove.
  unfold MaxCancelledIds in *.
  change (100 `quot` 2) with 50.
  set (sorted := merge_sort GuidString_le (elements ids)).
  set (n := Z.to_nat (Z.of_nat (size ids) - 50)).
  assert (sorted ≡ₚ elements ids) as Hperm by apply merge_sort_Permutation.
  assert (NoDup sorted) as Hnd by (rewrite Hperm; apply NoDup_elements).
  assert (length sorted = size ids) as Hlen by (by rewrite Hperm).
  assert (list_to_set (take n sorted) ⊆ ids) as Hsub.
  { intros x Hx. apply elem_of_list_to_set in Hx.
    apply elem_of_elements. rewrite <- Hperm.
    eapply elem_of_sublist; [done | apply sublist_take]. }
  rewrite size_difference by done.
  rewrite size_list_to_set by (eapply sublist_NoDup; [done | apply sublist_take]).
  rewrite length_take. lia.
Qed.

(** ** Traces *)

Lemma CallbacksOf_app id t1 t2 :
  CallbacksOf id (t1 ++ t2) = CallbacksOf id t1 ++ CallbacksOf id t2.
Proof. apply filter_app. Qed.

Lemma IsCallbackOf_EventFor id e : IsCallbackOf id e = true → EventFor e = Some id.
Proof.
  destruct e; simpl; try done; intros H; apply bool_decide_eq_true in H; congruence.
Qed.

Lemma CallbacksOf_none id t :
  (∀ e, e ∈ t → EventFor e ≠ Some id) → CallbacksOf id t = [].
Proof.
  intros H. unfold CallbacksOf. induction t as [|e t IH]; [done|].
  rewrite filter_cons_False.
  - apply IH. intros e' He'. apply H. by right.
  - intros Hc. apply (H e); [by left | by apply IsCallbackOf_EventFor].
Qed.

(** A run of the scheduler executes no delegate and creates no widget for an
    id that is recorded as cancelled, nor for one that is not in the queue. *)
Lemma Serves_silent w m m' t id :
  Serves w m m' t →
  id ∈ CancelledRequestIds m ∨ id ∉ IdsOf (PendingRequests m) →
  ∀ e, e ∈ t → EventFor e ≠ Some id.
Proof.
  intros HA Hid e He Hev.
  destruct (Serves_events _ _ _ _ HA e id He Hev) as (r & Hr & <- & Hc).
  destruct Hid as [Hin|Hni].
  - unfold IsCancelled in Hc. apply orb_false_iff in Hc as [_ Hc].
    by apply bool_decide_eq_false in Hc.
  - apply Hni. by apply elem_of_IdsOf.
Qed.


Lemma ProcessNextRequest_frame w m :
  let m' := state (ProcessNextRequest w m) in
  MaxConcurrentLoads m' = MaxConcurrentLoads m
  ∧ CancelledRequestIds m' = CancelledRequestIds m
  ∧ CancelledRequestCount m' = CancelledRequestCount m
  ∧ TotalRequestCount m' = TotalRequestCount m.
Proof. eapply Serves_frame, ProcessNextRequest_Serves. Qed.

(** ** The time-out *)

Arguments AfterTimeout : simpl never.

Lemma HandleLoadTimeout_run w id m i Request :
  FindRequest id (ActiveRequests m) = Some (i, Request) →
  HandleLoadTimeout w id m =
  let '(u, m', t') := ProcessNextRequest w (AfterTimeout id i m) in
  (u, m',
   (if bool_decide (id ∈ ActiveHandles m) then [EvCancelHandle id] else [])
   ++ FailedEvents (OnLoadFailed Request) id "Load timeout" ++ t').
Proof.
  intros Hf. unfold HandleLoadTimeout, AfterTimeout, TimeoutMarked.
  unfold M_bind at 1, get at 1.
  rewrite Hf. apply FindRequest_Some in Hf as (_ & Hl & Hid).
  unfold ExecuteLoadFailed. rewrite Hid.
  unfold_M. simpl.
  destruct (bool_decide (id ∈ ActiveHandles m)); rewrite ExecuteFailedDelegate_run;
    match goal with |- context [ProcessNextRequest w ?x] =>
      destruct (ProcessNextRequest w x) as [[[] m'] t'] end; done.
Qed.

Lemma CallbacksOf_FailedEvents d id Message :
  CallbacksOf id (FailedEvents d id Message) = FailedEvents d id Message.
Proof.
  destruct d; simpl; try done; unfold CallbacksOf;
    rewrite filter_cons_True by (simpl; by rewrite bool_decide_eq_true_2); done.
Qed.

Lemma timeout_facts w id m i Request :
  FindRequest id (ActiveRequests m) = Some (i, Request) →
  state (HandleLoadTimeout w id m) = state (ProcessNextRequest w (AfterTimeout id i m))
  ∧ ActiveRequests (AfterTimeout id i m) = delete i (ActiveRequests m)
  ∧ PendingRequests (AfterTimeout id i m) = PendingRequests m.
Proof.
  intros Hf. rewrite (HandleLoadTimeout_run _ _ _ _ _ Hf).
  split; [by destruct (ProcessNextRequest w (AfterTimeout id i m)) as [[[] ?] ?]|].
  unfold AfterTimeout, TimeoutMarked. simpl. rewrite delete_alter.
  split; by case_match.
Qed.

(** ** A completion that comes after the cancellation *)

Lemma OnWidgetClassLoaded_cancelled_run w Request m :
  IsCancelled m Request = true →
  OnWidgetClassLoaded w Request m =
  let '(u, m', t') := ProcessNextRequest w (AfterDiscard Request m) in
  (u, m',
   (if bool_decide (RequestId Request ∈ TimeoutHandles m) && WorldContextIsValid w
    then [EvClearTimer (RequestId Request)] else []) ++ t').
Proof.
  unfold IsCancelled, OnWidgetClassLoaded, AfterDiscard, RemoveFromActive. intros Hc.
  unfold_M. simpl. rewrite Hc.
  destruct (bool_decide (RequestId Request ∈ TimeoutHandles m)),
    (WorldContextIsValid w); simpl;
    match goal with |- context [ProcessNextRequest w ?x] =>
      destruct (ProcessNextRequest w x) as [[[] m'] t'] end; done.
Qed.

(** ** A submission that finds its class in the cache *)

Lemma StartLoadingWidget_body_hit w Request m cls :
  WidgetClassCache m !! WidgetClass Request = Some cls →
  ∃ m1, StartLoadingWidget_body w Request m = (true, m1, CacheHitEvents w Request cls).
Proof.
  intros Hc. unfold StartLoadingWidget_body, GetFromWidgetClassCache, CacheHitEvents.
  unfold M_bind at 1, emit at 1. unfold M_bind at 1, get at 1. rewrite Hc.
  unfold M_bind at 1, emit at 1. unfold M_bind at 1.
  destruct (CreateAndSetupWidget w (Some cls) Request) as [Widget|].
  - unfold M_bind at 1.
    pose proof (ExecuteLoadCompleted_trace w Request Widget m) as Ht.
    destruct (ExecuteLoadCompleted w Request Widget m) as [[[] m0] t0].
    simpl in Ht. subst t0. unfold_M. unfold RemoveFromActive. simpl.
    rewrite !app_nil_r. by eexists.
  - unfold ExecuteLoadFailed. unfold M_bind at 1.
    rewrite ExecuteFailedDelegate_run. unfold_M. unfold RemoveFromActive. simpl.
    rewrite !app_nil_r. by eexists.
Qed.

Lemma not_elem_of_submseteq {A} (x : A) l k : l ⊆+ k → x ∉ k → x ∉ l.
Proof. intros Hs Hx Hl. apply Hx. by eapply elem_of_submseteq. Qed.

Lemma LoadWidgetAsync_hit_run w NewGuid Now SoftClass OnCompleted OnFailed
    RemoveParent DestroyParent Z_Order Prio m cls :
  IsNull SoftClass = false →
  WidgetClassCache m !! SoftClass = Some cls →
  Num (ActiveRequests m) < MaxConcurrentLoads m →
  let NewRequest :=
    {| RequestId := NewGuid; WidgetClass := SoftClass;
       bRemoveParent := RemoveParent; bDestroyParent := DestroyParent;
       ZOrder := Z_Order; OnLoadCompleted := OnCompleted;
       OnLoadFailed := OnFailed; RequestTime := FloatOfDouble Now;
       bCancelled := false; Priority := Prio |} in
  ∃ m1,
    LoadWidgetAsync w NewGuid Now SoftClass OnCompleted OnFailed
      RemoveParent DestroyParent Z_Order Prio m
    = (let '(_, m', t') := ProcessNextRequest w m1 in
       (NewGuid, m', CacheHitEvents w NewRequest cls ++ t'))
    ∧ PendingRequests m1 = PendingRequests m
    ∧ ActiveRequests m1 = RemoveFirstById NewGuid (ActiveRequests m ++ [NewRequest])
    ∧ CancelledRequestIds m1 = CancelledRequestIds m.
Proof.
  intros Hnull Hhit Hlt. simpl. unfold LoadWidgetAsync. rewrite Hnull.
  unfold M_bind at 1, modify at 1.
  unfold M_bind at 1, get at 1. simpl.
  rewrite (proj2 (Z.ltb_lt _ _) Hlt).
  unfold M_bind at 1. unfold M_bind at 1, modify at 1.
  rewrite StartLoadingWidget_run. unfold M_bind at 1.
  match goal with |- context [StartLoadingWidget_body w ?r ?x] =>
    destruct (StartLoadingWidget_body_hit w r x cls Hhit) as (m1 & Hb);
    rewrite Hb; body_facts Hb end.
  exists m1. repeat split; try done.
  destruct (ProcessNextRequest w m1) as [[[] m'] t']. unfold_M. simpl.
  by rewrite !app_nil_r.
Qed.

(** ** Runs given as a list of calls *)

Lemma PerformAll_cons w c cs m :
  state (PerformAll ((w, c) :: cs) m) = state (PerformAll cs (state (Perform w c m))).
Proof.
  simpl. unfold M_bind. destruct (Perform w c m) as [[[] m1] t1]. simpl.
  by destruct (PerformAll cs m1) as [[[] m2] t2].
Qed.

Lemma ReachableBy_PerformAll P cs m :
  ReachableBy P m → AllowedAll P cs m → ReachableBy P (state (PerformAll cs m)).
Proof.
  revert m. induction cs as [|[w c] cs IH]; intros m Hm Hall; [done|].
  destruct Hall as [Hc Hall]. rewrite PerformAll_cons.
  apply IH; [|done]. by constructor.
Qed.

#[global] Instance FreshGuid_dec g m : Decision (FreshGuid g m).
Proof. unfold FreshGuid. apply _. Defined.

#[global] Instance GuidsFresh_dec c m : Decision (GuidsFresh c m).
Proof. destruct c; simpl; apply _. Defined.

#[global] Instance LimitKept_dec c m : Decision (LimitKept c m).
Proof. destruct c; simpl; apply _. Defined.

#[global] Instance AllowedAll_dec P `{∀ c m, Decision (P c m)} cs m :
  Decision (AllowedAll P cs m).
Proof. revert m. induction cs as [|[w c] cs IH]; intros m; simpl; apply _. Defined.

(** ** Scenarios *)

Example guid_text : FGuid_ToString 255%N = "000000000000000000000000000000FF"%string.
Proof. reflexivity. Qed.

Example first_request_starts_loading :
  trace (Perform GameWorld
    (CallLoadWidgetAsync 1%N (Seconds 10) "A" (LoadedUser 0) (FailedUser 0) false false 0 0)
    NewManager)
  = [EvStartLoading 1%N; EvSetTimer 1%N; EvRequestAsyncLoad 1%N "A"].
Proof. by vm_compute. Qed.

Example completion_creates_the_widget :
  trace (OnWidgetClassLoaded GameWorld RequestA OneLoading)
  = [EvClearTimer 1%N; EvCreateWidget 1%N 1%nat false false 0;
     EvLoadCompleted 1%N {| GetClass := 1%nat; WidgetObject := 0%nat |}]
  ∧ WidgetClassCache (state (OnWidgetClassLoaded GameWorld RequestA OneLoading))
    !! "A"%string = Some 1%nat.
Proof. by vm_compute. Qed.

Example cached_class_is_served_without_a_load :
  trace (LoadWidgetAsync GameWorld 3%N (Seconds 30) "A" (LoadedUser 1) (FailedUser 1)
           false false 0 0 Warm)
  = [EvStartLoading 3%N; EvCreateWidget 3%N 1%nat false false 0;
     EvLoadCompleted 3%N {| GetClass := 1%nat; WidgetObject := 0%nat |}].
Proof. by vm_compute. Qed.

Example timeout_reports_failure :
  trace (HandleLoadTimeout GameWorld 1%N OneLoading)
  = [EvCancelHandle 1%N; EvLoadFailed 1%N "Load timeout"]
  ∧ GetLoadStatistics (state (HandleLoadTimeout GameWorld 1%N OneLoading)) = (1, 0, 1, 0).
Proof. by vm_compute. Qed.

(** With a limit of one: the running request is not interrupted by a
    request of higher priority; when it completes, the waiting request of
    the highest priority is the one started. *)
Example running_request_is_not_preempted :
  IdsOf (ActiveRequests Queued) = [1%N]
  ∧ IdsOf (PendingRequests Queued) = [3%N; 2%N]
  ∧ StartedIds (trace (OnWidgetClassLoaded GameWorld RequestA Queued)) = [3%N]
  ∧ IdsOf (PendingRequests (state (OnWidgetClassLoaded GameWorld RequestA Queued)))
    = [2%N].
Proof. by vm_compute. Qed.

(** Raising the limit starts the waiting requests at once. *)
Example queue_is_served_by_priority :
  StartedIds (trace (Perform GameWorld (CallSetMaxConcurrentLoads 3) Queued))
  = [3%N; 2%N].
Proof. by vm_compute. Qed.

(** ** Every removal is followed by [ProcessNextRequest] *)

Lemma OnWidgetClassLoaded_ends_in_run w Request m :
  ∃ m1, state (OnWidgetClassLoaded w Request m) = state (ProcessNextRequest w m1)
        ∧ ActiveRequests m1 = RemoveFirstById (RequestId Request) (ActiveRequests m)
        ∧ PendingRequests m1 = PendingRequests m.
Proof.
  unfold_calls. unfold_M. simpl.
  repeat (case_match; simpl in *; simplify_eq).
  all: match goal with H : ProcessNextRequest _ ?x = _ |- _ =>
         exists x; rewrite H; done end.
Qed.

Lemma CancelLoadRequest_ends_in_run w id m i Request :
  FGuid_IsValid id = true →
  FindRequest id (ActiveRequests m) = Some (i, Request) →
  ∃ m1 t, CancelLoadRequest w id m = (true, state (ProcessNextRequest w m1), t)
          ∧ ActiveRequests m1 = delete i (ActiveRequests m)
          ∧ PendingRequests m1 = PendingRequests m.
Proof.
  intros Hv Hf. unfold CancelLoadRequest. rewrite Hv. simpl.
  unfold M_bind at 1, get at 1. rewrite Hf.
  unfold_M. simpl.
  repeat (case_match; simpl in *; simplify_eq).
  all: match goal with H : ProcessNextRequest _ ?x = _ |- _ =>
         exists x; eexists; rewrite H; simpl; rewrite ?delete_alter; done end.
Qed.

Lemma StartLoadingWidget_ends_in_run w Request m :
  let m1 := state (StartLoadingWidget_body w Request m) in
  (ActiveRequests m1 = ActiveRequests m
   ∧ state (StartLoadingWidget w Request m) = m1)
  ∨ (ActiveRequests m1 = RemoveFirstById (RequestId Request) (ActiveRequests m)
     ∧ state (StartLoadingWidget w Request m) = state (ProcessNextRequest w m1)).
Proof.
  simpl. rewrite StartLoadingWidget_run. unfold M_bind.
  destruct (StartLoadingWidget_body w Request m) as [[b m1] t1] eqn:Hb.
  body_facts Hb. destruct b.
  - right. split; [done|]. simpl. by destruct (ProcessNextRequest w m1) as [[[] ?] ?].
  - left. done.
Qed.

(** ** The depth given to the recursion and to the loop is enough *)

(** [ProcessNextRequest] satisfies the equation that the source states. *)
Lemma ProcessNextRequest_unfold w m :
  ProcessNextRequest w m =
  match PendingRequests m with
  | [] => ((), m, [])
  | NextRequest :: rest =>
      if Num (ActiveRequests m) <? MaxConcurrentLoads m
      then
        if IsCancelled m NextRequest
        then ProcessNextRequest w (with_PendingRequests (λ _, rest) m)
        else
          StartLoadingWidget w NextRequest
            (with_ActiveRequests (λ l, l ++ [NextRequest])
               (with_PendingRequests (λ _, rest) m))
      else ((), m, [])
  end.
Proof.
  unfold ProcessNextRequest at 1.
  destruct (PendingRequests m) as [|NextRequest rest] eqn:Hp; [done|].
  simpl length. rewrite ProcessNextRequest_depth_S, Hp.
  destruct (Num (ActiveRequests m) <? MaxConcurrentLoads m); [|done].
  destruct (IsCancelled m NextRequest); [done|].
  rewrite StartLoadingWidget_run. unfold M_bind.
  destruct (StartLoadingWidget_body w NextRequest _) as [[b m1] t1] eqn:Hb.
  body_facts Hb. destruct b; [|unfold_M; by rewrite app_nil_r].
  unfold ProcessNextRequest. by rewrite Hpend.
Qed.

Lemma ProcessWhilePossible_enough w n1 n2 m :
  (length (PendingRequests m) ≤ n1)%nat → (length (PendingRequests m) ≤ n2)%nat →
  ProcessWhilePossible w n1 m = ProcessWhilePossible w n2 m.
Proof.
  revert n2 m. induction n1 as [|n1 IH]; intros n2 m H1 H2.
  - destruct n2 as [|n2]; [done|]. rewrite ProcessWhilePossible_S.
    destruct (PendingRequests m) eqn:Hp; simpl in H1; [|lia].
    unfold Num. simpl. by rewrite andb_false_r.
  - destruct n2 as [|n2].
    + rewrite ProcessWhilePossible_S.
      destruct (PendingRequests m) eqn:Hp; simpl in H2; [|lia].
      unfold Num. simpl. by rewrite andb_false_r.
    + rewrite !ProcessWhilePossible_S.
      destruct (_ && _) eqn:Htest; [|done].
      apply andb_true_iff in Htest as [Hlt Hq].
      apply Z.ltb_lt in Hlt. apply Z.ltb_lt in Hq.
      assert (PendingRequests m ≠ []) as Hne.
      { intros Hnil. rewrite Hnil in Hq. unfold Num in Hq. simpl in Hq. lia. }
      name_run. pose proof (Serves_progress _ _ _ _ Erun Hne Hlt).
      rewrite (IH n2 m') by lia. done.
Qed.

(** [SetMaxConcurrentLoads] satisfies the equation of its [while] loop. *)
Lemma ProcessWhilePossible_unfold w m :
  ProcessWhilePossible w (length (PendingRequests m)) m =
  if (Num (ActiveRequests m) <? MaxConcurrentLoads m) && (0 <? Num (PendingRequests m))
  then let '(_, m1, t1) := ProcessNextRequest w m in
       let '(u, m2, t2) := ProcessWhilePossible w (length (PendingRequests m1)) m1 in
       (u, m2, t1 ++ t2)
  else ((), m, []).
Proof.
  destruct (length (PendingRequests m)) as [|n] eqn:Hl.
  - unfold Num. rewrite Hl. simpl. by rewrite andb_false_r.
  - rewrite ProcessWhilePossible_S.
    destruct (_ && _) eqn:Htest; [|done].
    apply andb_true_iff in Htest as [Hlt Hq]. apply Z.ltb_lt in Hlt.
    name_run.
    assert (PendingRequests m ≠ []) as Hne by (by destruct (PendingRequests m)).
    pose proof (Serves_progress _ _ _ _ Erun Hne Hlt) as Hprog.
    rewrite (ProcessWhilePossible_enough w n (length (PendingRequests m')) m') by lia.
    done.
Qed.

(** * The properties of the specification *)

(** C1 (as amended).  A call of [LoadWidgetAsync] for a class that is in the
    cache, made while fewer than [MaxConcurrentLoads] requests are active,
    is completed before it returns: [CreateAndSetupWidget] is called with
    the cached class and the placement given, then the completion delegate
    is executed with the widget, or the failure delegate if no widget was
    made; nothing is added to the queue, and the request, having a new id,
    is in neither array afterwards. *)
Theorem cached_class_completes_at_once w NewGuid Now SoftClass OnCompleted OnFailed
    RemoveParent DestroyParent Z_Order Prio m cls :
  IsNull SoftClass = false →
  WidgetClassCache m !! SoftClass = Some cls →
  Num (ActiveRequests m) < MaxConcurrentLoads m →
  let r := LoadWidgetAsync w NewGuid Now SoftClass OnCompleted OnFailed
             RemoveParent DestroyParent Z_Order Prio m in
  let NewRequest :=
    {| RequestId := NewGuid; WidgetClass := SoftClass;
       bRemoveParent := RemoveParent; bDestroyParent := DestroyParent;
       ZOrder := Z_Order; OnLoadCompleted := OnCompleted;
       OnLoadFailed := OnFailed; RequestTime := FloatOfDouble Now;
       bCancelled := false; Priority := Prio |} in
  result r = NewGuid
  ∧ (∃ rest, trace r = CacheHitEvents w NewRequest cls ++ rest
             ∧ (NewGuid ∉ IdsOf (PendingRequests m) →
                ∀ e, e ∈ rest → EventFor e ≠ Some NewGuid))
  ∧ (∃ k, PendingRequests (state r) = drop k (PendingRequests m))
  ∧ (NewGuid ∉ IdsOf (ActiveRequests m) → NewGuid ∉ IdsOf (PendingRequests m) →
     (NewGuid ∉ IdsOf (ActiveRequests (state r)))
     ∧ (NewGuid ∉ IdsOf (PendingRequests (state r)))).
Proof.
  intros Hnull Hhit Hlt. simpl.
  destruct (LoadWidgetAsync_hit_run w NewGuid Now SoftClass OnCompleted OnFailed
              RemoveParent DestroyParent Z_Order Prio m cls Hnull Hhit Hlt)
    as (m1 & -> & Hpend & Hact & Hcids).
  name_run. simpl.
  destruct (Serves_queue _ _ _ _ Erun) as (k & Hk & _).
  pose proof (Serves_ids _ _ _ _ Erun) as Hids.
  rewrite Hact, Hpend in Hids. rewrite Hpend in Hk.
  rewrite RemoveFirstById_app_new in Hids by done.
  split; [done|]. split; [|split].
  - eexists. split; [reflexivity|]. intros Hfresh.
    eapply Serves_silent; [done|]. right. by rewrite Hpend.
  - by exists k.
  - intros Ha Hp.
    assert (NewGuid ∉ IdsOf (ActiveRequests m') ++ IdsOf (PendingRequests m')) as Hn.
    { eapply not_elem_of_submseteq; [done|]. apply not_elem_of_app. done. }
    by apply not_elem_of_app in Hn.
Qed.

Lemma cached_class_completes_at_once_witness :
  (IsNull "A" = false
   ∧ WidgetClassCache Warm !! "A"%string = Some 1%nat
   ∧ Num (ActiveRequests Warm) < MaxConcurrentLoads Warm)
  ∧ result (LoadWidgetAsync GameWorld 3%N (Seconds 30) "A" (LoadedUser 1) (FailedUser 1)
              false false 0 0 Warm) = 3%N.
Proof.
  assert (IsNull "A" = false) as H1 by reflexivity.
  assert (WidgetClassCache Warm !! "A"%string = Some 1%nat) as H2 by (by vm_compute).
  assert (Num (ActiveRequests Warm) < MaxConcurrentLoads Warm) as H3 by (by vm_compute).
  split; [repeat (split; [assumption|]); assumption|].
  destruct (cached_class_completes_at_once GameWorld 3%N 30 "A" (LoadedUser 1)
              (FailedUser 1) false false 0 0 Warm 1%nat H1 H2 H3) as (Hres & _).
  exact Hres.
Defined.

(** C1, as stated, fails: with the one slot taken, a request for the cached
    class "A" is put in the queue; no widget is asked for and no delegate is
    executed before [LoadWidgetAsync] returns. *)
Lemma cached_class_waits_when_full :
  let r := LoadWidgetAsync GameWorld 3%N (Seconds 30) "A" (LoadedUser 1) (FailedUser 1)
             false false 0 0 Busy in
  WidgetClassCache Busy !! "A"%string = Some 1%nat
  ∧ Num (ActiveRequests Busy) = 1 ∧ MaxConcurrentLoads Busy = 1
  ∧ trace r = []
  ∧ IdsOf (PendingRequests (state r)) = [3%N].
Proof. simpl. repeat split; by vm_compute. Qed.

(** C2 (as amended).  In every state reached by calls none of which sets
    the limit below the number of active requests, [ActiveRequests] holds at
    most [MaxConcurrentLoads] requests.  In any such state, [LoadWidgetAsync]
    starts a request only if fewer than [MaxConcurrentLoads] are active, and
    so does [ProcessNextRequest]. *)
Theorem active_within_limit m :
  ReachableBy LimitKept m →
  Num (ActiveRequests m) ≤ MaxConcurrentLoads m
  ∧ (∀ w NewGuid Now SoftClass OnCompleted OnFailed RemoveParent DestroyParent Z_Order Prio,
       StartedIds (trace (LoadWidgetAsync w NewGuid Now SoftClass OnCompleted OnFailed
                            RemoveParent DestroyParent Z_Order Prio m)) ≠ [] →
       Num (ActiveRequests m) < MaxConcurrentLoads m)
  ∧ (∀ w, StartedIds (trace (ProcessNextRequest w m)) ≠ [] →
       Num (ActiveRequests m) < MaxConcurrentLoads m).
Proof.
  intros Hr. split; [|split].
  - revert m Hr. apply (ReachableBy_invariant LimitKept WithinLimit).
    + unfold WithinLimit. simpl. unfold Num. simpl. lia.
    + intros w c m. apply Perform_WithinLimit.
  - intros w NewGuid Now SoftClass OnCompleted OnFailed RemoveParent DestroyParent
      Z_Order Prio Hs.
    destruct (decide (Num (ActiveRequests m) < MaxConcurrentLoads m)) as [|Hge]; [done|].
    exfalso. apply Hs. unfold LoadWidgetAsync.
    destruct (IsNull SoftClass).
    + unfold M_bind. rewrite ExecuteFailedDelegate_run. by destruct OnFailed.
    + unfold_M. simpl. rewrite (proj2 (Z.ltb_ge _ _)) by lia. done.
  - intros w Hs.
    destruct (decide (Num (ActiveRequests m) < MaxConcurrentLoads m)) as [|Hge]; [done|].
    exfalso. apply Hs.
    pose proof (ProcessNextRequest_Serves w m) as HA.
    destruct (ProcessNextRequest w m) as [[[] m'] t']. simpl in *.
    destruct HA as [m Hp'|m Hf|m r rest0 m' t Hp' Hlt _ HA
                    |m r rest0 m1 t1 m' t Hp' Hlt _ Hb HA|m r rest0 m1 t1 Hp' Hlt _ Hb];
      try done; apply Z.ltb_lt in Hlt; lia.
Qed.

Lemma active_within_limit_witness :
  ReachableBy LimitKept Busy
  ∧ Num (ActiveRequests Busy) ≤ MaxConcurrentLoads Busy.
Proof.
  assert (ReachableBy LimitKept Busy) as Hr.
  { apply ReachableBy_PerformAll;
      [|apply (bool_decide_unpack (AllowedAll LimitKept _ _)); by vm_compute].
    apply ReachableBy_PerformAll;
      [constructor | apply (bool_decide_unpack (AllowedAll LimitKept _ _)); by vm_compute]. }
  split; [exact Hr|].
  destruct (active_within_limit Busy Hr) as (Hle & _). exact Hle.
Defined.

(** C2, as stated, fails: [SetMaxConcurrentLoads] does not stop loads that
    are running, so after it two requests are active under a limit of one. *)
Lemma limit_lowered_below_active :
  Reachable Lowered
  ∧ MaxConcurrentLoads Lowered = 1
  ∧ Num (ActiveRequests Lowered) = 2
  ∧ ¬ (Num (ActiveRequests Lowered) ≤ MaxConcurrentLoads Lowered).
Proof.
  split; [|by vm_compute].
  apply ReachableBy_PerformAll; [constructor|].
  apply (bool_decide_unpack (AllowedAll GuidsFresh _ _)). by vm_compute.
Qed.





Example the_sort_of_short_arrays_is_not_stable :
  Request_lt RequestEarly RequestLate = false
  ∧ Request_lt RequestLate RequestEarly = false
  ∧ Sort GameWorld [RequestEarly; RequestLate] = [RequestLate; RequestEarly].
Proof. repeat split; by vm_compute. Qed.


Example requests_stored_at_different_times_keep_their_order :
  IdsOf (PendingRequests Apart) = [2%N; 3%N]
  ∧ StartedIds (trace (Perform GameWorld (CallSetMaxConcurrentLoads 3) Apart))
    = [2%N; 3%N].
Proof. split; by vm_compute. Qed.

(** C5.  When [OnWidgetClassLoaded] runs for a request whose id is in
    [CancelledRequestIds], or whose [bCancelled] is set, nothing is done for
    the request: no delegate of it is executed, no widget is created for it,
    the class is not put in the cache and no counter moves.  The request is
    taken out of [ActiveRequests] and [ProcessNextRequest] runs.  (A
    cancelled flag without the id in the set is taken together with the
    uniqueness of ids: no request of that id waits in the queue.) *)
Theorem cancelled_completion_is_discarded w Request m :
  RequestId Request ∈ CancelledRequestIds m
  ∨ (bCancelled Request = true ∧ RequestId Request ∉ IdsOf (PendingRequests m)) →
  let r := OnWidgetClassLoaded w Request m in
  let m1 := AfterDiscard Request m in
  (∀ e, e ∈ trace r → EventFor e ≠ Some (RequestId Request))
  ∧ CallbacksOf (RequestId Request) (trace r) = []
  ∧ state r = state (ProcessNextRequest w m1)
  ∧ ActiveRequests m1 = RemoveFirstById (RequestId Request) (ActiveRequests m)
  ∧ PendingRequests m1 = PendingRequests m
  ∧ WidgetClassCache m1 = WidgetClassCache m
  ∧ CompletedRequestCount m1 = CompletedRequestCount m
  ∧ FailedRequestCount m1 = FailedRequestCount m
  ∧ CancelledRequestCount m1 = CancelledRequestCount m.
Proof.
  intros Hrec. simpl.
  assert (IsCancelled m Request = true) as Hc.
  { unfold IsCancelled. destruct Hrec as [Hin|[-> _]]; [|done].
    rewrite (bool_decide_eq_true_2 _ Hin). apply orb_true_r. }
  rewrite (OnWidgetClassLoaded_cancelled_run _ _ _ Hc).
  assert (CancelledRequestIds (AfterDiscard Request m) = CancelledRequestIds m) as Hids.
  { unfold AfterDiscard. simpl. by case_match. }
  assert (PendingRequests (AfterDiscard Request m) = PendingRequests m) as Hp.
  { unfold AfterDiscard. simpl. by case_match. }
  name_run. simpl.
  assert (∀ e, e ∈ t' → EventFor e ≠ Some (RequestId Request)) as Hsilent.
  { eapply Serves_silent; [done|]. rewrite Hids, Hp. tauto. }
  assert (∀ e, e ∈ (if bool_decide (RequestId Request ∈ TimeoutHandles m)
                        && WorldContextIsValid w
                     then [EvClearTimer (RequestId Request)] else []) ++ t' →
               EventFor e ≠ Some (RequestId Request)) as Hall.
  { intros e [He|He]%elem_of_app; [|by apply Hsilent].
    destruct (_ && _); [|by apply elem_of_nil in He].
    by apply list_elem_of_singleton in He as ->. }
  split; [done|]. split; [by apply CallbacksOf_none|].
  unfold AfterDiscard. simpl.
  repeat split; by destruct (bool_decide (RequestId Request ∈ TimeoutHandles m)).
Qed.

Lemma cancelled_completion_is_discarded_witness :
  (1%N ∈ CancelledRequestIds CancelledA
   ∨ (bCancelled RequestA = true ∧ 1%N ∉ IdsOf (PendingRequests CancelledA)))
  ∧ CallbacksOf 1%N (trace (OnWidgetClassLoaded GameWorld RequestA CancelledA)) = [].
Proof.
  assert (1%N ∈ CancelledRequestIds CancelledA
          ∨ (bCancelled RequestA = true ∧ 1%N ∉ IdsOf (PendingRequests CancelledA)))
    as H by (left; by vm_compute).
  split; [exact H|].
  destruct (cancelled_completion_is_discarded GameWorld RequestA CancelledA H)
    as (_ & Hcb & _).
  exact Hcb.
Defined.

(** C6.  A call of [LoadWidgetAsync] with a null soft class executes the
    failure delegate (when one is bound) with the message "Invalid widget
    class provided", returns the all-zero, invalid GUID, and leaves every
    field of the manager as it was: the arrays, the cache and the four
    counters, [TotalRequestCount] included. *)
Theorem null_class_is_rejected w NewGuid Now SoftClass OnCompleted OnFailed
    RemoveParent DestroyParent Z_Order Prio m :
  IsNull SoftClass = true →
  LoadWidgetAsync w NewGuid Now SoftClass OnCompleted OnFailed
    RemoveParent DestroyParent Z_Order Prio m
  = (FGuid_Default, m,
     FailedEvents OnFailed FGuid_Default "Invalid widget class provided")
  ∧ FGuid_IsValid FGuid_Default = false.
Proof.
  intros Hnull. unfold LoadWidgetAsync. rewrite Hnull.
  unfold M_bind. rewrite ExecuteFailedDelegate_run. simpl.
  by rewrite app_nil_r.
Qed.

Lemma null_class_is_rejected_witness :
  IsNull EmptyString = true
  ∧ LoadWidgetAsync QuietWorld 1%N (Seconds 0) EmptyString (LoadedUser 0) (FailedUser 0)
      false false 0 0 NewManager
    = (FGuid_Default, NewManager,
       [EvLoadFailed FGuid_Default "Invalid widget class provided"]).
Proof.
  split; [reflexivity|].
  apply (null_class_is_rejected QuietWorld 1%N 0 EmptyString (LoadedUser 0) (FailedUser 0)
           false false 0 0 NewManager).
  reflexivity.
Defined.

(** C7.  Every way in which a request leaves [ActiveRequests] is followed,
    in the same call, by [ProcessNextRequest] run on the state without the
    request: the completion of a load, whatever it brings (a widget, a class
    that did not load, a widget that could not be made, a request found
    cancelled); the time-out; [CancelLoadRequest] of an active request; and
    [StartLoadingWidget] when it finishes the request itself, from the cache
    or because the load could not be requested.  Such a run, started with at
    most one free slot, leaves no free slot next to a waiting request; so no
    call breaks that. *)
Theorem removal_is_followed_by_admission w m :
  (∀ Request,
     ∃ m1, state (OnWidgetClassLoaded w Request m) = state (ProcessNextRequest w m1)
           ∧ ActiveRequests m1 = RemoveFirstById (RequestId Request) (ActiveRequests m)
           ∧ PendingRequests m1 = PendingRequests m)
  ∧ (∀ id i Request,
       FindRequest id (ActiveRequests m) = Some (i, Request) →
       state (HandleLoadTimeout w id m) = state (ProcessNextRequest w (AfterTimeout id i m))
       ∧ ActiveRequests (AfterTimeout id i m) = delete i (ActiveRequests m)
       ∧ PendingRequests (AfterTimeout id i m) = PendingRequests m)
  ∧ (∀ id i Request,
       FGuid_IsValid id = true →
       FindRequest id (ActiveRequests m) = Some (i, Request) →
       ∃ m1, state (CancelLoadRequest w id m) = state (ProcessNextRequest w m1)
             ∧ ActiveRequests m1 = delete i (ActiveRequests m)
             ∧ PendingRequests m1 = PendingRequests m)
  ∧ (∀ Request,
       let m1 := state (StartLoadingWidget_body w Request m) in
       (ActiveRequests m1 = ActiveRequests m
        ∧ state (StartLoadingWidget w Request m) = m1)
       ∨ (ActiveRequests m1 = RemoveFirstById (RequestId Request) (ActiveRequests m)
          ∧ state (StartLoadingWidget w Request m) = state (ProcessNextRequest w m1)))
  ∧ (PendingRequests m = [] ∨ MaxConcurrentLoads m - 1 ≤ Num (ActiveRequests m) →
     NoStall (state (ProcessNextRequest w m)))
  ∧ (NoStall m → ∀ c, NoStall (state (Perform w c m))).
Proof.
  split; [|split; [|split; [|split; [|split]]]].
  - intros Request. apply OnWidgetClassLoaded_ends_in_run.
  - intros id i Request Hf.
    destruct (timeout_facts w id m i Request Hf) as (H1 & H2 & H3). done.
  - intros id i Request Hv Hf.
    destruct (CancelLoadRequest_ends_in_run w id m i Request Hv Hf)
      as (m1 & t & -> & Ha & Hp).
    by exists m1.
  - intros Request. apply StartLoadingWidget_ends_in_run.
  - intros Hpre. eapply Serves_NoStall; [apply ProcessNextRequest_Serves | done].
  - intros HN c. by apply Perform_NoStall.
Qed.

Lemma removal_is_followed_by_admission_witness :
  NoStall Queued
  ∧ NoStall (state (Perform GameWorld (CallOnWidgetClassLoaded RequestA) Queued)).
Proof.
  assert (NoStall Queued) as HN by (right; by vm_compute).
  split; [exact HN|].
  destruct (removal_is_followed_by_admission GameWorld Queued) as (_ & _ & _ & _ & _ & H).
  exact (H HN (CallOnWidgetClassLoaded RequestA)).
Defined.

(** C8 (as amended).  When [CleanupCompletedRequests] runs and
    [CancelledRequestIds] holds more than 100 ids, 50 of them are left, all
    of them ids that were in the set; when it holds 100 or fewer the set is
    unchanged.  No other field is touched. *)
Theorem cleanup_prunes_to_half_the_cap m :
  let m' := state (CleanupCompletedRequests m) in
  CancelledRequestIds m' ⊆ CancelledRequestIds m
  ∧ (MaxCancelledIds < Z.of_nat (size (CancelledRequestIds m)) →
     Z.of_nat (size (CancelledRequestIds m')) = MaxCancelledIds `quot` 2)
  ∧ (Z.of_nat (size (CancelledRequestIds m)) ≤ MaxCancelledIds →
     CancelledRequestIds m' = CancelledRequestIds m)
  ∧ m' = with_CancelledRequestIds (λ _, CancelledRequestIds m') m.
Proof.
  simpl. repeat split.
  - apply PruneCancelled_subseteq.
  - intros H. by rewrite PruneCancelled_large.
  - apply PruneCancelled_small.
Qed.

Lemma cleanup_prunes_to_half_the_cap_witness :
  MaxCancelledIds < Z.of_nat (size (CancelledRequestIds ManyCancelled))
  ∧ Z.of_nat (size (CancelledRequestIds (state (CleanupCompletedRequests ManyCancelled))))
    = 50.
Proof.
  assert (MaxCancelledIds < Z.of_nat (size (CancelledRequestIds ManyCancelled))) as H
    by (by vm_compute).
  split; [exact H|].
  destruct (cleanup_prunes_to_half_the_cap ManyCancelled) as (_ & Hlarge & _).
  exact (Hlarge H).
Defined.

(** C8, as stated, fails: with 101 ids the clean-up leaves 50, not the cap
    of 100, and the id recorded first is among those it keeps while the one
    recorded last is removed. *)
Lemma cleanup_counterexample :
  let before := CancelledRequestIds ManyCancelled in
  let after := CancelledRequestIds (state (CleanupCompletedRequests ManyCancelled)) in
  size before = 101%nat
  ∧ size after = 50%nat
  ∧ Z.of_nat (size after) ≠ MaxCancelledIds
  ∧ 101%N ∈ after ∧ 1%N ∉ after.
Proof.
  simpl. repeat split; by vm_compute.
Qed.

(** C9 (as amended).  [PreloadWidgetClass] returns the all-zero GUID and
    does nothing when the soft class is null, and when it is cached.  For a
    soft class that resolves and is not cached it does what [LoadWidgetAsync]
    does for a request of that class with no parent handling, z-order 0 and
    the two preload delegates: the request counter goes up by one, the
    request is started at once when a slot is free and is put in the queue,
    which is sorted again, when none is.  The completion delegate puts the
    class of the widget it is given in the cache (if the soft class
    resolves when it runs) and takes the widget off its parent; the failure
    delegate changes nothing. *)
Theorem preload_goes_the_way_of_load w NewGuid Now SoftClass Prio m :
  IsNull SoftClass = true ∨ IsValid w SoftClass = true →
  let r := PreloadWidgetClass w NewGuid Now SoftClass Prio m in
  let PreloadRequest :=
    {| RequestId := NewGuid; WidgetClass := SoftClass;
       bRemoveParent := false; bDestroyParent := false; ZOrder := 0;
       OnLoadCompleted := LoadedPreload SoftClass;
       OnLoadFailed := FailedPreload SoftClass;
       RequestTime := FloatOfDouble Now; bCancelled := false; Priority := Prio |} in
  (IsNull SoftClass = true ∨ is_Some (WidgetClassCache m !! SoftClass) →
     r = (FGuid_Default, m, []))
  ∧ (IsNull SoftClass = false → WidgetClassCache m !! SoftClass = None →
     r = LoadWidgetAsync w NewGuid Now SoftClass
           (LoadedPreload SoftClass) (FailedPreload SoftClass) false false 0 Prio m
     ∧ result r = NewGuid
     ∧ TotalRequestCount (state r) = Int32Add (TotalRequestCount m) 1
     ∧ (Num (ActiveRequests m) < MaxConcurrentLoads m →
        ∃ rest, StartedIds (trace r) = NewGuid :: rest)
     ∧ (MaxConcurrentLoads m ≤ Num (ActiveRequests m) →
        PendingRequests (state r) = Sort w (PendingRequests m ++ [PreloadRequest])
        ∧ ActiveRequests (state r) = ActiveRequests m
        ∧ trace r = []))
  ∧ (∀ w' Widget m0,
       ExecuteLoadCompleted w' PreloadRequest Widget m0
       = ((),
          (if IsValid w' SoftClass
           then with_WidgetClassCache (<[SoftClass := GetClass Widget]>) m0
           else m0),
          [EvLoadCompleted NewGuid Widget; EvRemoveFromParent Widget]))
  ∧ (∀ Message m0, state (ExecuteLoadFailed PreloadRequest Message m0) = m0).
Proof.
  intros Hok. simpl. split; [|split; [|split]].
  - intros Hnil. unfold PreloadWidgetClass, IsWidgetClassCached, IsValid, SoftGet in *.
    destruct (IsNull SoftClass); simpl; [done|].
    destruct Hok as [|Hok]; [done|]. destruct Hnil as [|Hc]; [done|].
    destruct (ResolveObject w SoftClass); simpl; [|done].
    unfold M_bind, get. by rewrite bool_decide_eq_true_2.
  - intros Hnull Hc. destruct Hok as [|Hok]; [congruence|].
    rewrite PreloadWidgetClass_accepted by done. split; [done|].
    by apply LoadWidgetAsync_accepted.
  - intros w' Widget m0. unfold ExecuteLoadCompleted, AddToWidgetClassCache. simpl.
    unfold_M. by destruct (IsValid w' SoftClass).
  - done.
Qed.

Lemma preload_goes_the_way_of_load_witness :
  (IsNull "A" = true ∨ IsValid GameWorld "A" = true)
  ∧ result (PreloadWidgetClass GameWorld 5%N (Seconds 0) "A" 0 NewManager) = 5%N.
Proof.
  assert (IsNull "A" = true ∨ IsValid GameWorld "A" = true) as Hok
    by (right; reflexivity).
  split; [exact Hok|].
  destruct (preload_goes_the_way_of_load GameWorld 5%N 0 "A" 0 NewManager Hok)
    as (_ & Hsubmit & _).
  apply Hsubmit; reflexivity.
Defined.

(** C9, as stated, fails: for the null soft class nothing is cached, and
    [PreloadWidgetClass] returns the all-zero GUID all the same. *)
Lemma preload_null_class_counterexample :
  ¬ (result (PreloadWidgetClass GameWorld 5%N (Seconds 0) EmptyString 0 NewManager) = FGuid_Default
     ↔ is_Some (WidgetClassCache NewManager !! EmptyString)).
Proof.
  intros [Hnil _]. destruct (Hnil eq_refl) as [cls Hcls].
  simpl in Hcls. by rewrite lookup_empty in Hcls.
Qed.

(** C10.  In [HandleLoadTimeout] the request's [bCancelled] is set and its
    id is put in [CancelledRequestIds] before the request is taken out of
    the array; when the call returns the id is still in the set, so
    [GetRequestStatus] answers "cancelled" (and neither active nor pending)
    for it.  The counters tell otherwise: [FailedRequestCount] was
    incremented for the request, [CancelledRequestCount] is as before. *)
Theorem timed_out_request_reads_cancelled w id m i Request :
  FindRequest id (ActiveRequests m) = Some (i, Request) →
  let m' := state (HandleLoadTimeout w id m) in
  bCancelled <$> ActiveRequests (TimeoutMarked id i m) !! i = Some true
  ∧ id ∈ CancelledRequestIds (TimeoutMarked id i m)
  ∧ m' = state (ProcessNextRequest w (AfterTimeout id i m))
  ∧ id ∈ CancelledRequestIds m'
  ∧ GetRequestStatus m' id
    = {| Found := true; bIsActive := false; bIsPending := false; bIsCancelled := true |}
  ∧ FailedRequestCount (AfterTimeout id i m) = Int32Add (FailedRequestCount m) 1
  ∧ CancelledRequestCount m' = CancelledRequestCount m.
Proof.
  intros Hf. simpl. rewrite (HandleLoadTimeout_run _ _ _ _ _ Hf).
  apply FindRequest_Some in Hf as (_ & Hl & Hid).
  assert (id ∈ CancelledRequestIds (AfterTimeout id i m)) as Hin.
  { unfold AfterTimeout, TimeoutMarked. simpl. set_solver. }
  assert (CancelledRequestCount (AfterTimeout id i m) = CancelledRequestCount m) as Hn.
  { unfold AfterTimeout, TimeoutMarked. simpl. by case_match. }
  pose proof (ProcessNextRequest_frame w (AfterTimeout id i m)) as (_ & Hc & Hcc & _).
  rewrite Hn in Hcc.
  destruct (ProcessNextRequest w (AfterTimeout id i m)) as [[[] m'] t'].
  change (CancelledRequestIds m' = CancelledRequestIds (AfterTimeout id i m)) in Hc.
  change (CancelledRequestCount m' = CancelledRequestCount m) in Hcc.
  simpl. rewrite <- Hc in Hin.
  repeat split; try done.
  - unfold TimeoutMarked. simpl.
    assert (ActiveRequests (if bool_decide (id ∈ ActiveHandles m)
              then with_ActiveHandles (λ s, s ∖ {[id]}) m else m) = ActiveRequests m)
      as -> by (by case_match).
    rewrite list_lookup_alter_eq, Hl. done.
  - unfold TimeoutMarked. simpl. set_solver.
  - unfold GetRequestStatus. by rewrite bool_decide_eq_true_2.
  - unfold AfterTimeout, TimeoutMarked. simpl. by case_match.
Qed.

Lemma timed_out_request_reads_cancelled_witness :
  FindRequest 1%N (ActiveRequests OneLoading) = Some (O, RequestA)
  ∧ bIsCancelled (GetRequestStatus (state (HandleLoadTimeout GameWorld 1%N OneLoading)) 1%N)
    = true.
Proof.
  assert (FindRequest 1%N (ActiveRequests OneLoading) = Some (O, RequestA)) as Hf
    by reflexivity.
  split; [exact Hf|].
  destruct (timed_out_request_reads_cancelled GameWorld 1%N OneLoading O RequestA Hf)
    as (_ & _ & _ & _ & Hstatus & _).
  by rewrite Hstatus.
Defined.

(** * Further properties of the code *)

(** ** Deciding the notions *)

#[global] Instance Orderly_dec c m : Decision (Orderly c m).
Proof. destruct c; simpl; apply _. Defined.

Lemma Queued_Reachable : Reachable Queued.
Proof.
  apply ReachableBy_PerformAll; [constructor|].
  apply (bool_decide_unpack (AllowedAll GuidsFresh _ _)). by vm_compute.
Qed.

Lemma Eventful_Orderly : ReachableBy Orderly Eventful.
Proof.
  apply ReachableBy_PerformAll; [constructor|].
  apply (bool_decide_unpack (AllowedAll Orderly _ _)). by vm_compute.
Qed.

Example eventful_run_is_accounted_for :
  GetAsyncLoadStatistics Eventful = (4, 0, 0, 2, 1, 1).
Proof. by vm_compute. Qed.

(** ** No request that is kept is cancelled *)

Lemma RemoveFirstById_app_fresh id l r :
  id ∉ IdsOf l → RequestId r = id → RemoveFirstById id (l ++ [r]) = l.
Proof.
  intros Hn <-. unfold RemoveFirstById, IdsOf in *.
  induction l as [|a l IH]; simpl in *.
  - by rewrite bool_decide_eq_true_2.
  - apply not_elem_of_cons in Hn as [Hne Hn].
    rewrite bool_decide_eq_false_2 by done.
    specialize (IH Hn).
    destruct (IndexOfRequest (RequestId r) (l ++ [r])) as [i|]; simpl in *; by f_equal.
Qed.

Lemma StartLoadingWidget_body_Live w Request m b m' t :
  StartLoadingWidget_body w Request m = (b, m', t) → Live m → Live m'.
Proof.
  intros Hb HL r Hr. body_facts Hb.
  rewrite (IsCancelled_ext m) by done. apply HL.
  rewrite Hpend, Hact in Hr.
  apply elem_of_app in Hr as [Hr|Hr]; apply elem_of_app; [left | by right].
  destruct b; [|done]. eapply elem_of_sublist; [done | apply RemoveFirstById_sublist].
Qed.

Lemma Live_moved m r rest :
  PendingRequests m = r :: rest → Live m →
  Live (with_ActiveRequests (λ l, l ++ [r]) (with_PendingRequests (λ _, rest) m)).
Proof.
  intros Hp HL x Hx. simpl in Hx.
  change (IsCancelled m x = false). apply HL. rewrite Hp.
  rewrite <- app_assoc in Hx. exact Hx.
Qed.

Lemma Serves_Live w m m' t : Serves w m m' t → Live m → Live m'.
Proof.
  induction 1 as [m Hp|m Hf|m r rest m' t Hp Hlt Hc _ IH
                  |m r rest m1 t1 m' t Hp Hlt Hc Hb HA IH|m r rest m1 t1 Hp Hlt Hc Hb];
    intros HL; try done.
  - apply IH. intros x Hx. simpl in Hx. change (IsCancelled m x = false).
    apply HL. rewrite Hp. rewrite elem_of_app in *. destruct Hx; [by left|].
    right. by right.
  - apply IH. eapply StartLoadingWidget_body_Live; [done|]. by apply Live_moved.
  - eapply StartLoadingWidget_body_Live; [done|]. by apply Live_moved.
Qed.
Lemma Live_shrink m m1 :
  Live m →
  (∀ r, r ∈ ActiveRequests m1 ++ PendingRequests m1 →
        r ∈ ActiveRequests m ++ PendingRequests m
        ∧ (RequestId r ∈ CancelledRequestIds m1 → RequestId r ∈ CancelledRequestIds m)) →
  Live m1.
Proof.
  intros HL H r Hr. destruct (H r Hr) as (Hin & Hc).
  specialize (HL r Hin). unfold IsCancelled in *.
  apply orb_false_iff in HL as [-> Hn]. simpl.
  apply bool_decide_eq_false. apply bool_decide_eq_false in Hn. tauto.
Qed.

Lemma Live_cancel_active m m1 id i r :
  QueueOK m → Live m →
  ActiveRequests m !! i = Some r → RequestId r = id →
  PendingRequests m1 = PendingRequests m →
  ActiveRequests m1 = delete i (ActiveRequests m) →
  CancelledRequestIds m1 = {[id]} ∪ CancelledRequestIds m →
  Live m1.
Proof.
  intros (_ & Hd & _) HL Hl Hid Hp Ha Hc. apply (Live_shrink m); [done|].
  intros x Hx. rewrite Hp, Ha, Hc in *.
  apply NoDup_app in Hd as (Hda & Hdap & _).
  apply elem_of_app in Hx as [Hx|Hx].
  - split; [apply elem_of_app; left; eapply elem_of_sublist; [done | apply sublist_delete]|].
    intros [Hin|Hin]%elem_of_union; [|done].
    apply elem_of_singleton in Hin. exfalso.
    eapply delete_other_id; [done..|]. congruence.
  - split; [apply elem_of_app; by right|].
    intros [Hin|Hin]%elem_of_union; [|done].
    apply elem_of_singleton in Hin. exfalso.
    apply (Hdap id); [rewrite <- Hid; by eapply lookup_IdsOf|].
    rewrite <- Hin. by apply elem_of_IdsOf.
Qed.

Lemma Live_cancel_pending m m1 id i r :
  QueueOK m → Live m →
  PendingRequests m !! i = Some r → RequestId r = id →
  PendingRequests m1 = delete i (PendingRequests m) →
  ActiveRequests m1 = ActiveRequests m →
  CancelledRequestIds m1 = {[id]} ∪ CancelledRequestIds m →
  Live m1.
Proof.
  intros (_ & Hd & _) HL Hl Hid Hp Ha Hc. apply (Live_shrink m); [done|].
  intros x Hx. rewrite Hp, Ha, Hc in *.
  apply NoDup_app in Hd as (_ & Hdap & Hdp).
  apply elem_of_app in Hx as [Hx|Hx].
  - split; [apply elem_of_app; by left|].
    intros [Hin|Hin]%elem_of_union; [|done].
    apply elem_of_singleton in Hin. exfalso.
    apply (Hdap id); [rewrite <- Hin; by apply elem_of_IdsOf|].
    rewrite <- Hid. by eapply lookup_IdsOf.
  - split; [apply elem_of_app; right; eapply elem_of_sublist; [done | apply sublist_delete]|].
    intros [Hin|Hin]%elem_of_union; [|done].
    apply elem_of_singleton in Hin. exfalso.
    eapply delete_other_id; [done..|]. congruence.
Qed.

Lemma StartLoadingWidget_Live w Request m :
  Live m → Live (state (StartLoadingWidget w Request m)).
Proof.
  intros HL. rewrite StartLoadingWidget_run. unfold M_bind.
  destruct (StartLoadingWidget_body w Request m) as [[b m1] t1] eqn:Hb.
  apply StartLoadingWidget_body_Live in Hb; [|done]. destruct b.
  - name_run. simpl. by eapply Serves_Live.
  - unfold_M. simpl. done.
Qed.

Lemma ProcessWhilePossible_Live w rounds m :
  Live m → Live (state (ProcessWhilePossible w rounds m)).
Proof.
  revert m. induction rounds as [|rounds IH]; intros m HL; [done|].
  rewrite ProcessWhilePossible_S. destruct (_ && _); [|done].
  name_run. specialize (IH m').
  destruct (ProcessWhilePossible w rounds m') as [[[] m2] t2].
  apply IH. by eapply Serves_Live.
Qed.

Lemma StartOrQueue_Live w Request m m1 :
  Live m → FreshGuid (RequestId Request) m → bCancelled Request = false →
  PendingRequests m1 = PendingRequests m →
  ActiveRequests m1 = ActiveRequests m →
  CancelledRequestIds m1 = CancelledRequestIds m →
  Live (state (StartLoadingWidget w Request
    (with_ActiveRequests (λ l, l ++ [Request]) m1))).
Proof.
  intros HL (Hv & Hfa & Hfp & Hfc) Hb Hp Ha Hc.
  apply StartLoadingWidget_Live. intros r Hr. simpl in Hr.
  rewrite Hp, Ha in Hr. unfold IsCancelled. simpl. rewrite Hc.
  rewrite <- app_assoc in Hr.
  apply elem_of_app in Hr as [Hr|Hr]; [apply HL, elem_of_app; by left|].
  apply elem_of_cons in Hr as [->|Hr]; [|apply HL, elem_of_app; by right].
  rewrite Hb. simpl. by apply bool_decide_eq_false.
Qed.

Lemma Queue_Live w Request m m1 :
  Live m → FreshGuid (RequestId Request) m → bCancelled Request = false →
  PendingRequests m1 = PendingRequests m →
  ActiveRequests m1 = ActiveRequests m →
  CancelledRequestIds m1 = CancelledRequestIds m →
  Live (with_PendingRequests (Sort w) (with_PendingRequests (λ l, l ++ [Request]) m1)).
Proof.
  intros HL (Hv & Hfa & Hfp & Hfc) Hb Hp Ha Hc r Hr. simpl in Hr.
  rewrite Sort_Permutation, Hp, Ha in Hr. unfold IsCancelled. simpl. rewrite Hc.
  rewrite app_assoc in Hr.
  apply elem_of_app in Hr as [Hr|Hr]; [by apply HL|].
  apply list_elem_of_singleton in Hr as ->.
  rewrite Hb. simpl. by apply bool_decide_eq_false.
Qed.

Ltac settle_live :=
  match goal with
  | H : Serves _ ?m1 ?m' _ |- Live ?m' => apply (Serves_Live _ m1 m' _ H)
  end.

Lemma Perform_Live w c m :
  GuidsFresh c m → QueueOK m → Live m → Live (state (Perform w c m)).
Proof.
  intros HF HQ HL. destruct c; unfold Perform; simpl in HF.
  - unfold_calls. unfold_M. destruct (IsNull SoftClass); simpl.
    { by destruct OnFailed. }
    destruct (Num (ActiveRequests m) <? MaxConcurrentLoads m) eqn:Hlt.
    + match goal with |- context [StartLoadingWidget w ?r ?x] =>
        pose proof (StartOrQueue_Live w r m
          (with_TotalRequestCount (λ n, Int32Add n 1) m) HL HF eq_refl eq_refl eq_refl eq_refl)
          as X;
        destruct (StartLoadingWidget w r x) as [[[] ?] ?] end.
      done.
    + simpl. by apply (Queue_Live _ _ m).
  - unfold_calls. unfold_M. destruct (negb (IsValid w SoftClass)); simpl; [done|].
    destruct (IsWidgetClassCached w m SoftClass); simpl; [done|].
    destruct (Num (ActiveRequests m) <? MaxConcurrentLoads m) eqn:Hlt.
    + match goal with |- context [StartLoadingWidget w ?r ?x] =>
        pose proof (StartOrQueue_Live w r m
          (with_TotalRequestCount (λ n, Int32Add n 1) m) HL HF eq_refl eq_refl eq_refl eq_refl)
          as X;
        destruct (StartLoadingWidget w r x) as [[[] ?] ?] end.
      done.
    + simpl. by apply (Queue_Live _ _ m).
  - split_call; try done.
    all: try settle_live.
    all: match goal with H : FindRequest _ _ = Some _ |- _ =>
        apply FindRequest_Some in H as (_ & Hl & Hid) end.
    all: subst.
    all: first [ eapply Live_cancel_active; [done..| | |]; simpl;
                 rewrite ?delete_alter; reflexivity
               | eapply Live_cancel_pending; [done..| | |]; simpl;
                 rewrite ?delete_alter; reflexivity ].
  - destruct (CancelAllLoadRequests_state w m) as (m2 & -> & Hm).
    intros r Hr. simpl in Hr. by apply elem_of_nil in Hr.
  - unfold_calls. unfold M_bind, modify.
    match goal with |- context [ProcessWhilePossible w ?n ?x] =>
      pose proof (ProcessWhilePossible_Live w n x) as X;
      destruct (ProcessWhilePossible w n x) as [[[] ?] ?] end.
    apply X. done.
  - done.
  - split_call.
    all: settle_live.
    all: apply (Live_shrink m); [done|]; simpl; intros x Hx; split; [|done].
    all: apply elem_of_app in Hx as [Hx|Hx]; apply elem_of_app; [left | by right].
    all: eapply elem_of_sublist; [done | apply RemoveFirstById_sublist].
  - split_call; try done.
    all: settle_live.
    all: match goal with H : FindRequest _ _ = Some _ |- _ =>
        apply FindRequest_Some in H as (_ & Hl & Hid) end.
    all: subst.
    all: eapply Live_cancel_active; [done..| | |]; simpl;
         rewrite ?delete_alter; reflexivity.
  - simpl. apply (Live_shrink m); [done|]. simpl. intros x Hx. split; [done|].
    apply PruneCancelled_subseteq.
Qed.
(** ** The streamable handles that are kept *)

Lemma StartLoadingWidget_body_handles w Request m b m' t :
  StartLoadingWidget_body w Request m = (b, m', t) →
  ActiveHandles m'
  = (if b then ActiveHandles m else {[RequestId Request]} ∪ ActiveHandles m).
Proof.
  unfold StartLoadingWidget_body, GetFromWidgetClassCache,
    ExecuteLoadCompleted, ExecuteLoadFailed, ExecuteFailedDelegate, RemoveFromActive,
    AddToWidgetClassCache.
  unfold_M. simpl. intros H.
  repeat (case_match; simpl in *; simplify_eq); reflexivity.
Qed.

Lemma IdsOf_app l r : IdsOf (l ++ [r]) = IdsOf l ++ [RequestId r].
Proof. unfold IdsOf. by rewrite fmap_app. Qed.

Lemma StartLoadingWidget_body_HandlesMatch w r m b m1 t :
  StartLoadingWidget_body w r (with_ActiveRequests (λ l, l ++ [r]) m) = (b, m1, t) →
  RequestId r ∉ IdsOf (ActiveRequests m) →
  HandlesMatch m → HandlesMatch m1.
Proof.
  intros Hb Hn HH id. pose proof (StartLoadingWidget_body_handles _ _ _ _ _ _ Hb) as Hh.
  body_facts Hb. rewrite Hh, Hact. simpl. destruct b.
  - rewrite RemoveFirstById_app_fresh by done. apply HH.
  - rewrite IdsOf_app, elem_of_union, elem_of_app, elem_of_singleton,
      list_elem_of_singleton, (HH id). tauto.
Qed.

Lemma Serves_HandlesMatch w m m' t :
  Serves w m m' t →
  NoDup (IdsOf (ActiveRequests m) ++ IdsOf (PendingRequests m)) →
  HandlesMatch m → HandlesMatch m'.
Proof.
  induction 1 as [m Hp|m Hf|m r rest m' t Hp Hlt Hc _ IH
                  |m r rest m1 t1 m' t Hp Hlt Hc Hb HA IH|m r rest m1 t1 Hp Hlt Hc Hb];
    intros Hd HH; try done.
  - apply IH; [|done]. simpl. rewrite Hp in Hd. simpl in Hd.
    eapply submseteq_NoDup_inv; [|exact Hd].
    apply submseteq_app; [done|]. by apply submseteq_cons.
  - rewrite Hp in Hd. simpl in Hd.
    assert (RequestId r ∉ IdsOf (ActiveRequests m)) as Hn.
    { apply NoDup_app in Hd as (_ & Hd & _). intros Hin. apply (Hd _ Hin). by left. }
    apply IH.
    + eapply submseteq_NoDup_inv; [|exact Hd]. body_facts Hb.
      rewrite Hact, Hpend, RemoveFirstById_app_fresh by done.
      apply submseteq_app; [done|]. by apply submseteq_cons.
    + by eapply (StartLoadingWidget_body_HandlesMatch w r
        (with_PendingRequests (λ _, rest) m)).
  - rewrite Hp in Hd. simpl in Hd.
    assert (RequestId r ∉ IdsOf (ActiveRequests m)) as Hn.
    { apply NoDup_app in Hd as (_ & Hd & _). intros Hin. apply (Hd _ Hin). by left. }
    by eapply (StartLoadingWidget_body_HandlesMatch w r
        (with_PendingRequests (λ _, rest) m)).
Qed.

Lemma IdsOf_delete_NoDup i r l :
  NoDup (IdsOf l) → l !! i = Some r →
  ∀ x, x ∈ IdsOf (delete i l) ↔ x ∈ IdsOf l ∧ x ≠ RequestId r.
Proof.
  intros Hd Hl x. split.
  - intros Hx. split; [by eapply elem_of_submseteq; [|apply IdsOf_delete_submseteq]|].
    unfold IdsOf in Hx. apply list_elem_of_fmap in Hx as (y & -> & Hy).
    by eapply delete_other_id.
  - intros [Hx Hne]. unfold IdsOf in *. apply list_elem_of_fmap in Hx as (y & -> & Hy).
    apply list_elem_of_fmap_2.
    apply list_elem_of_lookup in Hy as (j & Hj).
    destruct (decide (j = i)) as [->|Hji]; [congruence|].
    apply list_elem_of_lookup.
    destruct (decide (j < i)%nat).
    + exists j. by rewrite list_lookup_delete_lt.
    + exists (pred j). rewrite list_lookup_delete_ge by lia.
      replace (S (pred j)) with j by lia. done.
Qed.

Lemma IdsOf_RemoveFirstById_NoDup id l :
  NoDup (IdsOf l) →
  ∀ x, x ∈ IdsOf (RemoveFirstById id l) ↔ x ∈ IdsOf l ∧ x ≠ id.
Proof.
  intros Hd x. unfold RemoveFirstById.
  destruct (IndexOfRequest id l) as [i|] eqn:E.
  - apply IndexOfRequest_Some in E as (r & Hr & <-). by apply IdsOf_delete_NoDup.
  - apply IndexOfRequest_None in E. split; [|tauto].
    intros Hx. split; [done|]. congruence.
Qed.
Lemma HandlesMatch_delete m m1 id i r :
  NoDup (IdsOf (ActiveRequests m)) → HandlesMatch m →
  ActiveRequests m !! i = Some r → RequestId r = id →
  ActiveRequests m1 = delete i (ActiveRequests m) →
  ActiveHandles m1 = ActiveHandles m ∖ {[id]} →
  HandlesMatch m1.
Proof.
  intros Hd HH Hl Hid Ha Hh x.
  rewrite Ha, Hh, (IdsOf_delete_NoDup i r) by done.
  rewrite elem_of_difference, elem_of_singleton, (HH x), Hid. done.
Qed.

Lemma HandlesMatch_RemoveFirstById m m1 id :
  NoDup (IdsOf (ActiveRequests m)) → HandlesMatch m →
  ActiveRequests m1 = RemoveFirstById id (ActiveRequests m) →
  ActiveHandles m1 = ActiveHandles m ∖ {[id]} →
  HandlesMatch m1.
Proof.
  intros Hd HH Ha Hh x.
  rewrite Ha, Hh, (IdsOf_RemoveFirstById_NoDup id) by done.
  rewrite elem_of_difference, elem_of_singleton, (HH x). done.
Qed.

Lemma difference_absent (s : gset N) (id : N) : id ∉ s → s = s ∖ {[id]}.
Proof. set_solver. Qed.

Lemma StartLoadingWidget_HandlesMatch w Request m :
  NoDup (IdsOf (ActiveRequests m) ++ RequestId Request :: IdsOf (PendingRequests m)) →
  HandlesMatch m →
  HandlesMatch (state (StartLoadingWidget w Request
    (with_ActiveRequests (λ l, l ++ [Request]) m))).
Proof.
  intros Hd HH. rewrite StartLoadingWidget_run. unfold M_bind.
  destruct (StartLoadingWidget_body w Request _) as [[b m1] t1] eqn:Hb.
  assert (RequestId Request ∉ IdsOf (ActiveRequests m)) as Hn.
  { apply NoDup_app in Hd as (_ & Hd & _). intros Hin. apply (Hd _ Hin). by left. }
  pose proof (StartLoadingWidget_body_HandlesMatch _ _ _ _ _ _ Hb Hn HH) as HH1.
  body_facts Hb. destruct b.
  - name_run. simpl. eapply Serves_HandlesMatch; [done| |done].
    rewrite Hact, Hpend, RemoveFirstById_app_fresh by done.
    eapply submseteq_NoDup_inv; [|exact Hd].
    apply submseteq_app; [done|]. by apply submseteq_cons.
  - unfold_M. simpl. done.
Qed.

Lemma StartOrQueue_HandlesMatch w Request m m1 :
  QueueOK m → FreshGuid (RequestId Request) m → HandlesMatch m →
  PendingRequests m1 = PendingRequests m →
  ActiveRequests m1 = ActiveRequests m →
  ActiveHandles m1 = ActiveHandles m →
  HandlesMatch (state (StartLoadingWidget w Request
    (with_ActiveRequests (λ l, l ++ [Request]) m1))).
Proof.
  intros (_ & Hd & _) (Hv & Hfa & Hfp & Hfc) HH Hp Ha Hh.
  apply StartLoadingWidget_HandlesMatch.
  - rewrite Hp, Ha. rewrite <- Permutation_middle. apply NoDup_cons. split; [|done].
    rewrite elem_of_app. tauto.
  - intros x. rewrite Ha, Hh. apply HH.
Qed.

Lemma ProcessWhilePossible_HandlesMatch w rounds m :
  NoDup (IdsOf (ActiveRequests m) ++ IdsOf (PendingRequests m)) →
  HandlesMatch m → HandlesMatch (state (ProcessWhilePossible w rounds m)).
Proof.
  revert m. induction rounds as [|rounds IH]; intros m Hd HH; [done|].
  rewrite ProcessWhilePossible_S. destruct (_ && _); [|done].
  name_run. specialize (IH m').
  destruct (ProcessWhilePossible w rounds m') as [[[] m2] t2].
  apply IH.
  - eapply submseteq_NoDup_inv; [by eapply Serves_ids | done].
  - by eapply Serves_HandlesMatch.
Qed.

Ltac settle_handles :=
  match goal with
  | H : Serves _ ?m1 ?m' _ |- HandlesMatch ?m' =>
      apply (Serves_HandlesMatch _ m1 m' _ H)
  end.

Ltac absent_handle :=
  repeat match goal with
  | H : bool_decide (_ ∈ ActiveHandles _) = false |- _ => apply bool_decide_eq_false in H
  end.

Lemma Perform_HandlesMatch w c m :
  GuidsFresh c m → QueueOK m → HandlesMatch m → HandlesMatch (state (Perform w c m)).
Proof.
  intros HF HQ HH. pose proof HQ as (_ & Hd & _).
  pose proof Hd as (Hda & _ & _)%NoDup_app.
  destruct c; unfold Perform; simpl in HF.
  - unfold_calls. unfold_M. destruct (IsNull SoftClass); simpl.
    { by destruct OnFailed. }
    destruct (Num (ActiveRequests m) <? MaxConcurrentLoads m) eqn:Hlt.
    + match goal with |- context [StartLoadingWidget w ?r ?x] =>
        pose proof (StartOrQueue_HandlesMatch w r m
          (with_TotalRequestCount (λ n, Int32Add n 1) m) HQ HF HH eq_refl eq_refl eq_refl)
          as X;
        destruct (StartLoadingWidget w r x) as [[[] ?] ?] end.
      done.
    + done.
  - unfold_calls. unfold_M. destruct (negb (IsValid w SoftClass)); simpl; [done|].
    destruct (IsWidgetClassCached w m SoftClass); simpl; [done|].
    destruct (Num (ActiveRequests m) <? MaxConcurrentLoads m) eqn:Hlt.
    + match goal with |- context [StartLoadingWidget w ?r ?x] =>
        pose proof (StartOrQueue_HandlesMatch w r m
          (with_TotalRequestCount (λ n, Int32Add n 1) m) HQ HF HH eq_refl eq_refl eq_refl)
          as X;
        destruct (StartLoadingWidget w r x) as [[[] ?] ?] end.
      done.
    + done.
  - split_call; try done.
    all: absent_handle.
    all: settle_handles; simpl; rewrite ?delete_alter.
    all: match goal with H : FindRequest _ _ = Some _ |- _ =>
        apply FindRequest_Some in H as (_ & Hl & Hid) end.
    all: try (eapply submseteq_NoDup_inv; [|exact Hd];
              apply submseteq_app; [apply IdsOf_delete_submseteq | done]).
    all: eapply HandlesMatch_delete; [exact Hda | exact HH | exact Hl | exact Hid | |];
         simpl; rewrite ?delete_alter;
         [reflexivity|]; first [reflexivity | by apply difference_absent].
  - destruct (CancelAllLoadRequests_state w m) as (m2 & -> & Hm).
    intros id. simpl. set_solver.
  - unfold_calls. unfold M_bind, modify.
    match goal with |- context [ProcessWhilePossible w ?n ?x] =>
      pose proof (ProcessWhilePossible_HandlesMatch w n x) as X;
      destruct (ProcessWhilePossible w n x) as [[[] ?] ?] end.
    apply X; done.
  - done.
  - split_call.
    all: settle_handles; simpl.
    all: try (eapply submseteq_NoDup_inv; [|exact Hd];
              apply submseteq_app; [apply IdsOf_RemoveFirstById_submseteq | done]).
    all: eapply HandlesMatch_RemoveFirstById; [exact Hda | exact HH | |]; simpl; reflexivity.
  - split_call; try done.
    all: absent_handle.
    all: settle_handles; simpl; rewrite ?delete_alter.
    all: match goal with H : FindRequest _ _ = Some _ |- _ =>
        apply FindRequest_Some in H as (_ & Hl & Hid) end.
    all: try (eapply submseteq_NoDup_inv; [|exact Hd];
              apply submseteq_app; [apply IdsOf_delete_submseteq | done]).
    all: eapply HandlesMatch_delete; [exact Hda | exact HH | exact Hl | exact Hid | |];
         simpl; rewrite ?delete_alter;
         [reflexivity|]; first [reflexivity | by apply difference_absent].
  - done.
Qed.
(** ** The counters *)

Ltac int32 :=
  simpl in *; unfold Balanced, Accounted, Cong32, Int32Add, Int32Wrap in *;
  change (2 ^ 32) with 4294967296 in *; change (2 ^ 31) with 2147483648 in *;
  Z.div_mod_to_equations; lia.

Lemma Cong32_refl a : Cong32 a a.
Proof. int32. Qed.

Lemma Cong32_trans a b c : Cong32 a b → Cong32 b c → Cong32 a c.
Proof. intros. int32. Qed.

Lemma StartLoadingWidget_body_counts w Request m b m' t :
  StartLoadingWidget_body w Request m = (b, m', t) →
  Cong32 (CompletedRequestCount m' + FailedRequestCount m')
         (CompletedRequestCount m + FailedRequestCount m + (if b then 1 else 0)).
Proof.
  unfold StartLoadingWidget_body, GetFromWidgetClassCache,
    ExecuteLoadCompleted, ExecuteLoadFailed, ExecuteFailedDelegate, RemoveFromActive,
    AddToWidgetClassCache.
  unfold_M. simpl. intros H.
  repeat (case_match; simpl in *; simplify_eq); int32.
Qed.

Lemma Serves_counts w m m' t :
  Serves w m m' t →
  (∀ r, r ∈ PendingRequests m → IsCancelled m r = false) →
  Cong32 (CompletedRequestCount m' + FailedRequestCount m'
          + Num (ActiveRequests m') + Num (PendingRequests m'))
         (CompletedRequestCount m + FailedRequestCount m
          + Num (ActiveRequests m) + Num (PendingRequests m)).
Proof.
  induction 1 as [m Hp|m Hf|m r rest m' t Hp Hlt Hc _ IH
                  |m r rest m1 t1 m' t Hp Hlt Hc Hb HA IH|m r rest m1 t1 Hp Hlt Hc Hb];
    intros HL.
  - apply Cong32_refl.
  - apply Cong32_refl.
  - rewrite HL in Hc; [done|]. rewrite Hp. by left.
  - pose proof (StartLoadingWidget_body_counts _ _ _ _ _ _ Hb) as Hn. body_facts Hb.
    simpl in Hn.
    assert (Cong32 (CompletedRequestCount m' + FailedRequestCount m'
                    + Num (ActiveRequests m') + Num (PendingRequests m'))
                   (CompletedRequestCount m1 + FailedRequestCount m1
                    + Num (ActiveRequests m1) + Num (PendingRequests m1))) as IH'.
    { apply IH. intros x Hx. rewrite (IsCancelled_ext m) by done.
      apply HL. rewrite Hp. right. by rewrite <- Hpend. }
    eapply Cong32_trans; [exact IH'|].
    rewrite Hact, Hpend, Hp. unfold Num in *.
    rewrite RemoveFirstById_app_new_length by done. simpl length.
    int32.
  - pose proof (StartLoadingWidget_body_counts _ _ _ _ _ _ Hb) as Hn. body_facts Hb.
    simpl in Hn. rewrite Hact, Hpend, Hp. unfold Num in *. rewrite length_app.
    simpl length. int32.
Qed.
Lemma Serves_Balanced w m m' t :
  Serves w m m' t → Live m → Balanced m → Balanced m'.
Proof.
  intros HA HL HB.
  destruct (Serves_frame _ _ _ _ HA) as (_ & _ & Hcc & Ht).
  pose proof (Serves_counts _ _ _ _ HA) as Hn.
  assert (∀ r, r ∈ PendingRequests m → IsCancelled m r = false) as HLp.
  { intros r Hr. apply HL, elem_of_app. by right. }
  specialize (Hn HLp).
  unfold Balanced, Accounted in *. rewrite Ht, Hcc, HB. int32.
Qed.

Lemma StartLoadingWidget_Balanced w Request m :
  Live m → Balanced m → RequestId Request ∈ IdsOf (ActiveRequests m) →
  Balanced (state (StartLoadingWidget w Request m)).
Proof.
  intros HL HB Hin. rewrite StartLoadingWidget_run. unfold M_bind.
  destruct (StartLoadingWidget_body w Request m) as [[b m1] t1] eqn:Hb.
  pose proof (StartLoadingWidget_body_counts _ _ _ _ _ _ Hb) as Hn.
  pose proof (StartLoadingWidget_body_Live _ _ _ _ _ _ Hb HL) as HL1.
  body_facts Hb.
  assert (Balanced m1) as HB1.
  { unfold Balanced, Accounted in *. rewrite Htotal, Hccount, Hpend, Hact, HB.
    destruct b; [|int32].
    apply RemoveFirstById_length in Hin. unfold Num in *. int32. }
  destruct b.
  - name_run. simpl. by eapply Serves_Balanced.
  - unfold_M. simpl. done.
Qed.

Lemma ProcessWhilePossible_Balanced w rounds m :
  Live m → Balanced m → Balanced (state (ProcessWhilePossible w rounds m)).
Proof.
  revert m. induction rounds as [|rounds IH]; intros m HL HB; [done|].
  rewrite ProcessWhilePossible_S. destruct (_ && _); [|done].
  name_run. specialize (IH m').
  destruct (ProcessWhilePossible w rounds m') as [[[] m2] t2].
  apply IH; [by eapply Serves_Live | by eapply Serves_Balanced].
Qed.

Lemma Orderly_GuidsFresh c m : Orderly c m → GuidsFresh c m.
Proof. by destruct c. Qed.

Lemma StartOrQueue_Balanced w Request m :
  Live m → Balanced m → FreshGuid (RequestId Request) m → bCancelled Request = false →
  Balanced (state (StartLoadingWidget w Request
    (with_ActiveRequests (λ l, l ++ [Request])
       (with_TotalRequestCount (λ n, Int32Add n 1) m)))).
Proof.
  intros HL HB HF Hb. apply StartLoadingWidget_Balanced.
  - destruct HF as (Hv & Hfa & Hfp & Hfc).
    intros r Hr. simpl in Hr. unfold IsCancelled. simpl.
    rewrite <- app_assoc in Hr.
    apply elem_of_app in Hr as [Hr|Hr]; [apply HL, elem_of_app; by left|].
    apply elem_of_cons in Hr as [->|Hr]; [|apply HL, elem_of_app; by right].
    rewrite Hb. simpl. by apply bool_decide_eq_false.
  - unfold Balanced, Accounted in *. simpl. rewrite Num_app, HB. int32.
  - simpl. rewrite IdsOf_app. apply elem_of_app. right. by left.
Qed.
(** ** The run of [CancelAllLoadRequests] *)

Lemma Forall2_lookup_seq_from {A} (pre l : list A) :
  Forall2 (λ i x, (pre ++ l) !! i = Some x) (seq (length pre) (length l)) l.
Proof.
  revert pre. induction l as [|x l IH]; intros pre; simpl; [constructor|].
  constructor.
  - by rewrite list_lookup_middle.
  - specialize (IH (pre ++ [x])). rewrite length_app, <- app_assoc in IH. simpl in IH.
    by rewrite Nat.add_1_r in IH.
Qed.

Lemma Forall2_lookup_seq {A} (l : list A) :
  Forall2 (λ i x, l !! i = Some x) (seq 0 (length l)) l.
Proof. apply (Forall2_lookup_seq_from [] l). Qed.

Lemma ForEach_cons {A} (body : A → M unit) x l m :
  ForEach body (x :: l) m
  = (let '(_, m1, t1) := body x m in
     let '(u, m2, t2) := ForEach body l m1 in (u, m2, t1 ++ t2)).
Proof.
  simpl. unfold M_bind. destruct (body x m) as [[[] m1] t1].
  by destruct (ForEach body l m1) as [[[] m2] t2].
Qed.

Lemma with_CancelledRequestIds_twice f g m :
  with_CancelledRequestIds f (with_CancelledRequestIds g m)
  = with_CancelledRequestIds (λ s, f (g s)) m.
Proof. done. Qed.

(** The first loop of [CancelAllLoadRequests]. *)
Lemma CancelAll_active_loop w m l reqs m0 :
  Forall2 (λ i r, ActiveRequests m !! i = Some r) l reqs →
  ∃ acts,
    ForEach (λ i,
      match ActiveRequests m !! i with
      | Some Request =>
          modify (with_ActiveRequests (alter MarkCancelled i)) ;;;
          modify (with_CancelledRequestIds (λ s, {[RequestId Request]} ∪ s)) ;;;
          when (bool_decide (RequestId Request ∈ ActiveHandles m))
            (emit (EvCancelHandle (RequestId Request))) ;;;
          when (bool_decide (RequestId Request ∈ TimeoutHandles m))
            (when (WorldContextIsValid w) (emit (EvClearTimer (RequestId Request))))
      | None => skip
      end) l m0
    = ((),
       with_CancelledRequestIds (λ s, list_to_set (IdsOf reqs) ∪ s)
         (with_ActiveRequests (λ _, acts) m0),
       (IdsOf reqs ≫= CancelEvents w m)).
Proof.
  intros H. revert m0. induction H as [|i r l reqs Hi _ IH]; intros m0.
  - exists (ActiveRequests m0). simpl. unfold skip, M_ret. f_equal. f_equal.
    destruct m0. unfold with_CancelledRequestIds, with_ActiveRequests. simpl.
    f_equal. set_solver.
  - rewrite ForEach_cons. rewrite Hi.
    assert ((modify (with_ActiveRequests (alter MarkCancelled i)) ;;;
             modify (with_CancelledRequestIds (λ s, {[RequestId r]} ∪ s)) ;;;
             when (bool_decide (RequestId r ∈ ActiveHandles m))
               (emit (EvCancelHandle (RequestId r))) ;;;
             when (bool_decide (RequestId r ∈ TimeoutHandles m))
               (when (WorldContextIsValid w) (emit (EvClearTimer (RequestId r))))) m0
            = ((), with_CancelledRequestIds (λ s, {[RequestId r]} ∪ s)
                     (with_ActiveRequests (alter MarkCancelled i) m0),
               CancelEvents w m (RequestId r))) as ->.
    { unfold CancelEvents. unfold_M.
      by destruct (bool_decide (RequestId r ∈ ActiveHandles m)),
        (bool_decide (RequestId r ∈ TimeoutHandles m)), (WorldContextIsValid w). }
    destruct (IH (with_CancelledRequestIds (λ s, {[RequestId r]} ∪ s)
                   (with_ActiveRequests (alter MarkCancelled i) m0))) as (acts & ->).
    exists acts. simpl. f_equal. f_equal.
    unfold with_CancelledRequestIds, with_ActiveRequests; simpl.
    f_equal. set_solver.
Qed.

(** The second loop. *)
Lemma CancelAll_pending_loop m l reqs m0 :
  Forall2 (λ i r, PendingRequests m !! i = Some r) l reqs →
  ∃ pends,
    ForEach (λ i,
      match PendingRequests m !! i with
      | Some Request =>
          modify (with_PendingRequests (alter MarkCancelled i)) ;;;
          modify (with_CancelledRequestIds (λ s, {[RequestId Request]} ∪ s))
      | None => skip
      end) l m0
    = ((),
       with_CancelledRequestIds (λ s, list_to_set (IdsOf reqs) ∪ s)
         (with_PendingRequests (λ _, pends) m0),
       []).
Proof.
  intros H. revert m0. induction H as [|i r l reqs Hi _ IH]; intros m0.
  - exists (PendingRequests m0). simpl. unfold skip, M_ret. f_equal. f_equal.
    destruct m0. unfold with_CancelledRequestIds, with_PendingRequests. simpl.
    f_equal. set_solver.
  - rewrite ForEach_cons. rewrite Hi.
    assert ((modify (with_PendingRequests (alter MarkCancelled i)) ;;;
             modify (with_CancelledRequestIds (λ s, {[RequestId r]} ∪ s))) m0
            = ((), with_CancelledRequestIds (λ s, {[RequestId r]} ∪ s)
                     (with_PendingRequests (alter MarkCancelled i) m0), [])) as ->
      by done.
    destruct (IH (with_CancelledRequestIds (λ s, {[RequestId r]} ∪ s)
                   (with_PendingRequests (alter MarkCancelled i) m0))) as (pends & ->).
    exists pends. simpl. f_equal. f_equal.
    unfold with_CancelledRequestIds, with_PendingRequests; simpl.
    f_equal. set_solver.
Qed.

Lemma Manager_eq m1 m2 :
  ActiveRequests m1 = ActiveRequests m2 →
  PendingRequests m1 = PendingRequests m2 →
  CancelledRequestIds m1 = CancelledRequestIds m2 →
  ActiveHandles m1 = ActiveHandles m2 →
  TimeoutHandles m1 = TimeoutHandles m2 →
  MaxConcurrentLoads m1 = MaxConcurrentLoads m2 →
  TotalRequestCount m1 = TotalRequestCount m2 →
  CompletedRequestCount m1 = CompletedRequestCount m2 →
  FailedRequestCount m1 = FailedRequestCount m2 →
  CancelledRequestCount m1 = CancelledRequestCount m2 →
  WidgetClassCache m1 = WidgetClassCache m2 →
  m1 = m2.
Proof. destruct m1, m2. simpl. congruence. Qed.

Lemma CancelAllLoadRequests_run w m :
  CancelAllLoadRequests w m
  = ((), AfterCancelAll m, (IdsOf (ActiveRequests m) ≫= CancelEvents w m)).
Proof.
  unfold CancelAllLoadRequests. unfold M_bind at 1, get at 1.
  unfold M_bind at 1.
  destruct (CancelAll_active_loop w m _ _ m (Forall2_lookup_seq (ActiveRequests m)))
    as (acts & ->).
  unfold M_bind at 1.
  match goal with |- context [ForEach _ _ ?m0] =>
    destruct (CancelAll_pending_loop m _ _ m0 (Forall2_lookup_seq (PendingRequests m)))
      as (pends & ->) end.
  unfold_M. simpl. rewrite !app_nil_r. f_equal. f_equal.
  apply Manager_eq; [reflexivity | reflexivity | | reflexivity..].
  simpl. unfold IdsOf. rewrite fmap_app, list_to_set_app_L. set_solver.
Qed.
(** ** The counters add up *)

Ltac settle_balance :=
  match goal with
  | H : Serves _ ?m1 ?m' _ |- Balanced ?m' => apply (Serves_Balanced _ m1 m' _ H)
  end.

Lemma Perform_Balanced w c m :
  Orderly c m → QueueOK m → Live m → Balanced m → Balanced (state (Perform w c m)).
Proof.
  intros HO HQ HL HB. pose proof (Orderly_GuidsFresh _ _ HO) as HF.
  destruct c; unfold Perform; simpl in HF, HO.
  - unfold_calls. unfold_M. destruct (IsNull SoftClass); simpl.
    { by destruct OnFailed. }
    destruct (Num (ActiveRequests m) <? MaxConcurrentLoads m) eqn:Hlt.
    + match goal with |- context [StartLoadingWidget w ?r ?x] =>
        pose proof (StartOrQueue_Balanced w r m HL HB HF eq_refl) as X;
        destruct (StartLoadingWidget w r x) as [[[] ?] ?] end.
      done.
    + simpl. unfold Balanced, Accounted in *. simpl.
      unfold Num in *. rewrite Sort_Permutation, length_app. simpl length. rewrite HB. int32.
  - unfold_calls. unfold_M. destruct (negb (IsValid w SoftClass)); simpl; [done|].
    destruct (IsWidgetClassCached w m SoftClass); simpl; [done|].
    destruct (Num (ActiveRequests m) <? MaxConcurrentLoads m) eqn:Hlt.
    + match goal with |- context [StartLoadingWidget w ?r ?x] =>
        pose proof (StartOrQueue_Balanced w r m HL HB HF eq_refl) as X;
        destruct (StartLoadingWidget w r x) as [[[] ?] ?] end.
      done.
    + simpl. unfold Balanced, Accounted in *. simpl.
      unfold Num in *. rewrite Sort_Permutation, length_app. simpl length. rewrite HB. int32.
  - split_call; try done.
    all: try settle_balance.
    all: match goal with H : FindRequest _ _ = Some _ |- _ =>
        apply FindRequest_Some in H as (_ & Hl & Hid) end.
    all: subst.
    all: try (first [ eapply Live_cancel_active; [done..| | |]; simpl;
                      rewrite ?delete_alter; reflexivity
                    | eapply Live_cancel_pending; [done..| | |]; simpl;
                      rewrite ?delete_alter; reflexivity ]).
    all: unfold Balanced, Accounted in *; simpl; rewrite ?delete_alter;
         rewrite (Num_delete _ _ _ Hl), HB; int32.
  - rewrite CancelAllLoadRequests_run. unfold Balanced, Accounted in *. simpl.
    rewrite HB. change (Num []) with 0. int32.
  - unfold_calls. unfold M_bind, modify.
    match goal with |- context [ProcessWhilePossible w ?n ?x] =>
      pose proof (ProcessWhilePossible_Balanced w n x) as X;
      destruct (ProcessWhilePossible w n x) as [[[] ?] ?] end.
    apply X; done.
  - done.
  - assert (IsCancelled m Request = false ∧ RequestId Request ∈ IdsOf (ActiveRequests m)
            ∨ IsCancelled m Request = true
              ∧ RequestId Request ∉ IdsOf (ActiveRequests m)) as Hcase.
    { destruct HO as [Hin|Hin].
      - left. split; [apply HL, elem_of_app; by left | by apply elem_of_IdsOf].
      - right. split; [unfold IsCancelled; rewrite (bool_decide_eq_true_2 _ Hin);
                        apply orb_true_r|].
        intros Hx. unfold IdsOf in Hx. apply list_elem_of_fmap in Hx as (y & Hy & Hya).
        assert (IsCancelled m y = false) as Hc by (apply HL, elem_of_app; by left).
        unfold IsCancelled in Hc. apply orb_false_iff in Hc as [_ Hc].
        apply bool_decide_eq_false in Hc. congruence. }
    unfold IsCancelled in Hcase.
    split_call.
    all: settle_balance.
    all: try (apply (Live_shrink m); [done|]; simpl; intros x Hx; split; [|done];
              apply elem_of_app in Hx as [Hx|Hx]; apply elem_of_app; [left | by right];
              eapply elem_of_sublist; [done | apply RemoveFirstById_sublist]).
    all: destruct Hcase as [[Hc Hin]|[Hc Hin]]; try congruence.
    all: unfold Balanced, Accounted in *; simpl.
    all: try (apply RemoveFirstById_length in Hin; unfold Num in *; rewrite HB; int32).
    all: rewrite RemoveFirstById_absent by done; rewrite HB; int32.
  - split_call; try done.
    all: settle_balance.
    all: match goal with H : FindRequest _ _ = Some _ |- _ =>
        apply FindRequest_Some in H as (_ & Hl & Hid) end.
    all: subst.
    all: try (eapply Live_cancel_active; [done..| | |]; simpl;
              rewrite ?delete_alter; reflexivity).
    all: unfold Balanced, Accounted in *; simpl; rewrite ?delete_alter;
         rewrite (Num_delete _ _ _ Hl), HB; int32.
  - done.
Qed.
(** ** The runs of [CancelLoadRequest] *)

Lemma with_ActiveHandles_absent id m :
  id ∉ ActiveHandles m → with_ActiveHandles (λ s, s ∖ {[id]}) m = m.
Proof.
  intros H. destruct m. unfold with_ActiveHandles. simpl in *. f_equal.
  symmetry. by apply difference_absent.
Qed.

Lemma with_TimeoutHandles_absent id m :
  id ∉ TimeoutHandles m → with_TimeoutHandles (λ s, s ∖ {[id]}) m = m.
Proof.
  intros H. destruct m. unfold with_TimeoutHandles. simpl in *. f_equal.
  symmetry. by apply difference_absent.
Qed.

Lemma AfterCancel_eq id i m mh :
  mh = with_TimeoutHandles (λ s, s ∖ {[id]}) (with_ActiveHandles (λ s, s ∖ {[id]}) m) →
  with_CancelledRequestCount (λ n, Int32Add n 1)
    (with_ActiveRequests (delete i)
       (with_CancelledRequestIds (λ s, {[id]} ∪ s)
          (with_ActiveRequests (alter MarkCancelled i) mh)))
  = AfterCancel id i m.
Proof.
  intros ->. unfold AfterCancel, with_CancelledRequestCount, with_ActiveRequests,
    with_CancelledRequestIds. simpl. f_equal. apply delete_alter.
Qed.

Lemma CancelLoadRequest_active_run w id m i Request :
  FGuid_IsValid id = true →
  FindRequest id (ActiveRequests m) = Some (i, Request) →
  CancelLoadRequest w id m =
  let '(_, m', t') := ProcessNextRequest w (AfterCancel id i m) in
  (true, m', CancelEvents w m id ++ t').
Proof.
  intros Hv Hf. unfold CancelLoadRequest. rewrite Hv. simpl.
  unfold M_bind at 1, get at 1. rewrite Hf. unfold CancelEvents.
  case_bool_decide as Ha; case_bool_decide as Ht; unfold_M; simpl;
    destruct (WorldContextIsValid w); simpl.
  all: match goal with
       | |- context [ProcessNextRequest _ ?x] =>
           lazymatch x with AfterCancel _ _ _ => fail | _ => idtac end;
           replace x with (AfterCancel id i m);
           [|symmetry; apply AfterCancel_eq;
             rewrite ?with_ActiveHandles_absent, ?with_TimeoutHandles_absent by done;
             done]
       end.
  all: destruct (ProcessNextRequest w (AfterCancel id i m)) as [[[] m'] t'];
       simpl; by rewrite ?app_nil_r.
Qed.

Lemma CancelLoadRequest_pending_run w id m i Request :
  FGuid_IsValid id = true →
  id ∉ IdsOf (ActiveRequests m) →
  FindRequest id (PendingRequests m) = Some (i, Request) →
  CancelLoadRequest w id m = (true, AfterCancelPending id i m, []).
Proof.
  intros Hv Hn Hf. unfold CancelLoadRequest. rewrite Hv. simpl.
  unfold M_bind at 1, get at 1.
  apply FindRequest_None in Hn. rewrite Hn, Hf.
  unfold_M. simpl. f_equal. f_equal.
  unfold AfterCancelPending, with_CancelledRequestCount, with_PendingRequests,
    with_CancelledRequestIds. simpl. f_equal. apply delete_alter.
Qed.

Lemma CancelLoadRequest_unknown w id m :
  FGuid_IsValid id = false
  ∨ ((id ∉ IdsOf (ActiveRequests m)) ∧ (id ∉ IdsOf (PendingRequests m))) →
  CancelLoadRequest w id m = (false, m, []).
Proof.
  intros H. unfold CancelLoadRequest.
  destruct (FGuid_IsValid id); simpl; [|done].
  destruct H as [|[Ha Hp]]; [done|].
  unfold M_bind at 1, get at 1.
  apply FindRequest_None in Ha. apply FindRequest_None in Hp. by rewrite Ha, Hp.
Qed.

Lemma CancelLoadRequest_found id m :
  FGuid_IsValid id = true →
  id ∈ IdsOf (ActiveRequests m) ∨ id ∈ IdsOf (PendingRequests m) →
  (∃ i Request, FindRequest id (ActiveRequests m) = Some (i, Request))
  ∨ ((id ∉ IdsOf (ActiveRequests m))
     ∧ ∃ i Request, FindRequest id (PendingRequests m) = Some (i, Request)).
Proof.
  intros Hv Hin.
  destruct (FindRequest id (ActiveRequests m)) as [[i r]|] eqn:Ea; [left; eauto|].
  right. apply FindRequest_None in Ea. split; [done|].
  destruct Hin as [|Hin]; [done|].
  destruct (FindRequest id (PendingRequests m)) as [[i r]|] eqn:Ep; [eauto|].
  by apply FindRequest_None in Ep.
Qed.

Lemma CancelLoadRequest_result w id m :
  result (CancelLoadRequest w id m) = true
  ↔ FGuid_IsValid id = true
    ∧ (id ∈ IdsOf (ActiveRequests m) ∨ id ∈ IdsOf (PendingRequests m)).
Proof.
  split.
  - intros Hr. destruct (FGuid_IsValid id) eqn:Hv.
    2: { rewrite CancelLoadRequest_unknown in Hr by (by left). done. }
    split; [done|].
    destruct (decide (id ∈ IdsOf (ActiveRequests m))) as [|Ha]; [by left|].
    destruct (decide (id ∈ IdsOf (PendingRequests m))) as [|Hp]; [by right|].
    rewrite CancelLoadRequest_unknown in Hr by (by right). done.
  - intros [Hv Hin].
    destruct (CancelLoadRequest_found id m Hv Hin)
      as [(i & r & Hf)|(Hn & i & r & Hf)].
    + rewrite (CancelLoadRequest_active_run _ _ _ _ _ Hv Hf).
      by destruct (ProcessNextRequest w (AfterCancel id i m)) as [[[] ?] ?].
    + by rewrite (CancelLoadRequest_pending_run _ _ _ _ _ Hv Hn Hf).
Qed.

Lemma CancelLoadRequest_gone w id m :
  NoDup (IdsOf (ActiveRequests m) ++ IdsOf (PendingRequests m)) →
  result (CancelLoadRequest w id m) = true →
  id ∈ CancelledRequestIds (state (CancelLoadRequest w id m))
  ∧ (id ∉ IdsOf (ActiveRequests (state (CancelLoadRequest w id m))))
  ∧ (id ∉ IdsOf (PendingRequests (state (CancelLoadRequest w id m)))).
Proof.
  intros Hd Hr. apply CancelLoadRequest_result in Hr as [Hv Hin].
  pose proof Hd as (Hda & Hdap & Hdp)%NoDup_app.
  destruct (CancelLoadRequest_found id m Hv Hin)
    as [(i & r & Hf)|(Hn & i & r & Hf)].
  - rewrite (CancelLoadRequest_active_run _ _ _ _ _ Hv Hf).
    apply FindRequest_Some in Hf as (_ & Hl & Hid).
    name_run. simpl.
    destruct (Serves_frame _ _ _ _ Erun) as (_ & -> & _).
    split; [simpl; set_solver|].
    assert (id ∉ IdsOf (ActiveRequests m') ++ IdsOf (PendingRequests m')) as Hgone.
    { eapply not_elem_of_submseteq; [by eapply Serves_ids|]. simpl.
      apply not_elem_of_app. split.
      - rewrite (IdsOf_delete_NoDup i r) by done. intros [_ Hne]. congruence.
      - apply Hdap. rewrite <- Hid. by eapply lookup_IdsOf. }
    by apply not_elem_of_app in Hgone.
  - rewrite (CancelLoadRequest_pending_run _ _ _ _ _ Hv Hn Hf).
    apply FindRequest_Some in Hf as (_ & Hl & Hid). simpl.
    split; [set_solver|]. split; [done|].
    rewrite (IdsOf_delete_NoDup i r) by done. intros [_ Hne]. congruence.
Qed.

Lemma GetRequestStatus_cancelled m id :
  id ∈ CancelledRequestIds m →
  GetRequestStatus m id
  = {| Found := true; bIsActive := false; bIsPending := false; bIsCancelled := true |}.
Proof. intros H. unfold GetRequestStatus. by rewrite bool_decide_eq_true_2. Qed.

(** X9. [CancelLoadRequest] answers true exactly when the id is valid and a
    request with that id is running or waiting; when it answers false it
    has changed nothing and called nothing. *)
Theorem cancel_answers_whether_the_request_was_found w id m :
  (result (CancelLoadRequest w id m) = true
   ↔ FGuid_IsValid id = true
     ∧ (id ∈ IdsOf (ActiveRequests m) ∨ id ∈ IdsOf (PendingRequests m)))
  ∧ (result (CancelLoadRequest w id m) = false →
     CancelLoadRequest w id m = (false, m, [])).
Proof.
  split; [apply CancelLoadRequest_result|].
  intros Hr. apply CancelLoadRequest_unknown.
  destruct (FGuid_IsValid id) eqn:Hv; [right | by left].
  split; intros Hin.
  - assert (result (CancelLoadRequest w id m) = true) as Ht
      by (apply CancelLoadRequest_result; auto).
    congruence.
  - assert (result (CancelLoadRequest w id m) = true) as Ht
      by (apply CancelLoadRequest_result; auto).
    congruence.
Qed.

(** X10. Cancelling a request that waits in the queue takes it out of the
    queue, whose order is kept, records its id as cancelled and counts it;
    no delegate is executed, nothing is started, and the running requests
    are left alone. *)
Theorem cancelling_a_waiting_request_is_silent w id m i Request :
  FGuid_IsValid id = true →
  id ∉ IdsOf (ActiveRequests m) →
  FindRequest id (PendingRequests m) = Some (i, Request) →
  let r := CancelLoadRequest w id m in
  result r = true
  ∧ trace r = []
  ∧ state r = AfterCancelPending id i m
  ∧ PendingRequests (state r) = delete i (PendingRequests m)
  ∧ PendingRequests (state r) `sublist_of` PendingRequests m
  ∧ ActiveRequests (state r) = ActiveRequests m
  ∧ CancelledRequestCount (state r) = Int32Add (CancelledRequestCount m) 1
  ∧ GetRequestStatus (state r) id
    = {| Found := true; bIsActive := false; bIsPending := false; bIsCancelled := true |}
  ∧ (NoDup (IdsOf (PendingRequests m)) → id ∉ IdsOf (PendingRequests (state r))).
Proof.
  intros Hv Hn Hf. simpl.
  rewrite (CancelLoadRequest_pending_run _ _ _ _ _ Hv Hn Hf). simpl.
  apply FindRequest_Some in Hf as (_ & Hl & Hid).
  repeat split; try done.
  - apply sublist_delete.
  - apply GetRequestStatus_cancelled. simpl. set_solver.
  - intros Hd. rewrite (IdsOf_delete_NoDup i Request) by done. intros [_ Hne]. congruence.
Qed.

Lemma cancelling_a_waiting_request_is_silent_witness :
  (FGuid_IsValid 3%N = true
   ∧ (3%N ∉ IdsOf (ActiveRequests Queued))
   ∧ FindRequest 3%N (PendingRequests Queued) = Some (O, RequestHigh))
  ∧ trace (CancelLoadRequest GameWorld 3%N Queued) = [].
Proof.
  assert (FGuid_IsValid 3%N = true) as H1 by reflexivity.
  assert (3%N ∉ IdsOf (ActiveRequests Queued)) as H2
    by (apply (bool_decide_unpack _); by vm_compute).
  assert (FindRequest 3%N (PendingRequests Queued) = Some (O, RequestHigh)) as H3
    by (by vm_compute).
  split; [repeat (split; [assumption|]); assumption|].
  destruct (cancelling_a_waiting_request_is_silent GameWorld 3%N Queued O RequestHigh
              H1 H2 H3) as (_ & Ht & _).
  exact Ht.
Defined.

(** X11. Cancelling a running request executes neither of its delegates: the
    call cancels the streamable handle and clears the timer, where the
    request has them, and hands the slot to the queue; afterwards the id
    reads as cancelled and no request of that id is kept. *)
Theorem cancelling_a_running_request_calls_nothing_back w id m i Request :
  FGuid_IsValid id = true →
  FindRequest id (ActiveRequests m) = Some (i, Request) →
  let r := CancelLoadRequest w id m in
  result r = true
  ∧ (∃ t', trace r = CancelEvents w m id ++ t'
           ∧ ∀ e, e ∈ t' → EventFor e ≠ Some id)
  ∧ CallbacksOf id (trace r) = []
  ∧ state r = state (ProcessNextRequest w (AfterCancel id i m))
  ∧ CancelledRequestCount (state r) = Int32Add (CancelledRequestCount m) 1
  ∧ GetRequestStatus (state r) id
    = {| Found := true; bIsActive := false; bIsPending := false; bIsCancelled := true |}
  ∧ (NoDup (IdsOf (ActiveRequests m) ++ IdsOf (PendingRequests m)) →
     (id ∉ IdsOf (ActiveRequests (state r)))
     ∧ (id ∉ IdsOf (PendingRequests (state r)))).
Proof.
  intros Hv Hf. simpl.
  assert (result (CancelLoadRequest w id m) = true) as Hr.
  { apply CancelLoadRequest_result. split; [done|]. left.
    apply FindRequest_Some in Hf as (_ & Hl & <-). by eapply lookup_IdsOf. }
  pose proof (CancelLoadRequest_gone w id m) as Hgone.
  rewrite (CancelLoadRequest_active_run _ _ _ _ _ Hv Hf) in *.
  name_run. simpl in *.
  destruct (Serves_frame _ _ _ _ Erun) as (_ & Hids & Hcc & _).
  assert (∀ e, e ∈ t' → EventFor e ≠ Some id) as Hsilent.
  { eapply Serves_silent; [done|]. left. simpl. set_solver. }
  assert (∀ e, e ∈ CancelEvents w m id → EventFor e ≠ Some id) as Hsilent0.
  { unfold CancelEvents. intros e He.
    repeat case_match; set_unfold; naive_solver. }
  repeat split; try done.
  - eauto.
  - apply CallbacksOf_none. intros e [He|He]%elem_of_app; auto.
  - apply GetRequestStatus_cancelled. rewrite Hids. simpl. set_solver.
  - apply Hgone; done.
  - apply Hgone; done.
Qed.

Lemma cancelling_a_running_request_calls_nothing_back_witness :
  (FGuid_IsValid 1%N = true
   ∧ FindRequest 1%N (ActiveRequests Queued) = Some (O, RequestA))
  ∧ CallbacksOf 1%N (trace (CancelLoadRequest GameWorld 1%N Queued)) = [].
Proof.
  assert (FGuid_IsValid 1%N = true) as H1 by reflexivity.
  assert (FindRequest 1%N (ActiveRequests Queued) = Some (O, RequestA)) as H2
    by (by vm_compute).
  split; [repeat (split; [assumption|]); assumption|].
  destruct (cancelling_a_running_request_calls_nothing_back GameWorld 1%N Queued O
              RequestA H1 H2) as (_ & _ & Hc & _).
  exact Hc.
Defined.

(** X12. A request is cancelled once: after a call of [CancelLoadRequest]
    that answered true, another call for the same id answers false and
    changes nothing. *)
Theorem cancelling_twice_finds_nothing w w' id m :
  NoDup (IdsOf (ActiveRequests m) ++ IdsOf (PendingRequests m)) →
  result (CancelLoadRequest w id m) = true →
  CancelLoadRequest w' id (state (CancelLoadRequest w id m))
  = (false, state (CancelLoadRequest w id m), []).
Proof.
  intros Hd Hr. apply CancelLoadRequest_unknown. right.
  by destruct (CancelLoadRequest_gone w id m Hd Hr) as (_ & ? & ?).
Qed.

Lemma cancelling_twice_finds_nothing_witness :
  (NoDup (IdsOf (ActiveRequests Queued) ++ IdsOf (PendingRequests Queued))
   ∧ result (CancelLoadRequest GameWorld 1%N Queued) = true)
  ∧ result (CancelLoadRequest GameWorld 1%N
              (state (CancelLoadRequest GameWorld 1%N Queued))) = false.
Proof.
  assert (NoDup (IdsOf (ActiveRequests Queued) ++ IdsOf (PendingRequests Queued))) as H1
    by (apply (bool_decide_unpack _); by vm_compute).
  assert (result (CancelLoadRequest GameWorld 1%N Queued) = true) as H2 by (by vm_compute).
  split; [repeat (split; [assumption|]); assumption|].
  by rewrite (cancelling_twice_finds_nothing GameWorld GameWorld 1%N Queued H1 H2).
Defined.

(** ** [CancelAllLoadRequests] and [SetMaxConcurrentLoads] *)

Lemma CancelEvents_silent w m id e : e ∈ CancelEvents w m id → EventFor e = None.
Proof.
  unfold CancelEvents. intros He.
  repeat case_match; set_unfold; naive_solver.
Qed.

Lemma IsWidgetLoading_empty m SoftClass :
  ActiveRequests m = [] → PendingRequests m = [] → IsWidgetLoading m SoftClass = false.
Proof. unfold IsWidgetLoading. by intros -> ->. Qed.

(** X13. [CancelAllLoadRequests] empties both arrays and both handle maps,
    records every id it found as cancelled and adds their number to
    [CancelledRequestCount].  It cancels the handle and clears the timer of
    each running request, in the order of the array, and executes no
    delegate.  Afterwards each of those ids reads as cancelled, no class is
    loading, and [ProcessNextRequest] finds nothing to do. *)
Theorem cancel_all_drops_every_request w m :
  let r := CancelAllLoadRequests w m in
  state r = AfterCancelAll m
  ∧ trace r = (IdsOf (ActiveRequests m) ≫= CancelEvents w m)
  ∧ (∀ e, e ∈ trace r → EventFor e = None)
  ∧ GetActiveLoadRequestCount (state r) = 0
  ∧ GetPendingLoadRequestCount (state r) = 0
  ∧ CancelledRequestCount (state r)
    = Int32Add (CancelledRequestCount m)
        (Int32Add (Num (ActiveRequests m)) (Num (PendingRequests m)))
  ∧ (∀ id, id ∈ IdsOf (ActiveRequests m ++ PendingRequests m) →
       GetRequestStatus (state r) id
       = {| Found := true; bIsActive := false; bIsPending := false;
            bIsCancelled := true |})
  ∧ (∀ SoftClass, IsWidgetLoading (state r) SoftClass = false)
  ∧ (∀ w', ProcessNextRequest w' (state r) = ((), state r, [])).
Proof.
  simpl. rewrite CancelAllLoadRequests_run. simpl.
  repeat split; try done.
  - intros e He. apply list_elem_of_bind in He as (id & He & _).
    by eapply CancelEvents_silent.
  - intros id Hid. apply GetRequestStatus_cancelled. simpl.
    apply elem_of_union. left. by apply elem_of_list_to_set.
Qed.

Lemma ProcessWhilePossible_active_length w rounds m :
  (length (ActiveRequests m)
   ≤ length (ActiveRequests (state (ProcessWhilePossible w rounds m))))%nat.
Proof.
  revert m. induction rounds as [|rounds IH]; intros m; [done|].
  rewrite ProcessWhilePossible_S. destruct (_ && _); [|done].
  name_run. specialize (IH m').
  destruct (ProcessWhilePossible w rounds m') as [[[] m2] t2]. simpl in *.
  destruct (Serves_active_length _ _ _ _ Erun) as (Hle & _). lia.
Qed.

Lemma ProcessWhilePossible_full w rounds m :
  MaxConcurrentLoads m ≤ Num (ActiveRequests m) →
  ProcessWhilePossible w rounds m = ((), m, []).
Proof.
  intros Hfull. destruct rounds as [|rounds]; [done|].
  rewrite ProcessWhilePossible_S.
  by rewrite (proj2 (Z.ltb_ge _ _)) by done.
Qed.

(** X14. [SetMaxConcurrentLoads] stores the new limit, but never less than
    one, and at once starts waiting requests until the slots are taken or
    the queue is empty.  It stops no running load: when the new limit is
    not above the number of running loads, nothing but the limit changes.
    It marks no request as cancelled. *)
Theorem new_limit_is_at_least_one_and_is_filled w n m :
  let r := SetMaxConcurrentLoads w n m in
  MaxConcurrentLoads (state r) = Z.max 1 n
  ∧ 1 ≤ MaxConcurrentLoads (state r)
  ∧ NoStall (state r)
  ∧ (length (ActiveRequests m) ≤ length (ActiveRequests (state r)))%nat
  ∧ (∃ k, PendingRequests (state r) = drop k (PendingRequests m))
  ∧ CancelledRequestIds (state r) = CancelledRequestIds m
  ∧ (Z.max 1 n ≤ Num (ActiveRequests m) →
     r = ((), with_MaxConcurrentLoads (λ _, Z.max 1 n) m, [])).
Proof.
  simpl. unfold SetMaxConcurrentLoads. unfold M_bind, modify.
  set (m0 := with_MaxConcurrentLoads (λ _, Z.max 1 n) m).
  pose proof (ProcessWhilePossible_Settles w (length (PendingRequests m0)) m0)
    as (Hmax & Hids & Hk & _).
  pose proof (ProcessWhilePossible_NoStall w (length (PendingRequests m0)) m0
                (reflexivity _)) as HN.
  pose proof (ProcessWhilePossible_active_length w (length (PendingRequests m0)) m0) as Hlen.
  pose proof (ProcessWhilePossible_full w (length (PendingRequests m0)) m0) as Hfull.
  destruct (ProcessWhilePossible w (length (PendingRequests m0)) m0) as [[[] m'] t'].
  simpl in *. repeat split; try done.
  rewrite Hmax. lia.
Qed.

(** ** A load that completes *)

Lemma StartLoadingWidget_body_cache w Request m b m' t :
  StartLoadingWidget_body w Request m = (b, m', t) →
  ∀ p, is_Some (WidgetClassCache m !! p) → is_Some (WidgetClassCache m' !! p).
Proof.
  unfold StartLoadingWidget_body, GetFromWidgetClassCache,
    ExecuteLoadCompleted, ExecuteLoadFailed, ExecuteFailedDelegate, RemoveFromActive,
    AddToWidgetClassCache.
  unfold_M. simpl. intros H p Hp.
  repeat (case_match; simpl in *; simplify_eq); try done.
  all: apply lookup_insert_is_Some'; by right.
Qed.

Lemma Serves_cache w m m' t :
  Serves w m m' t →
  ∀ p, is_Some (WidgetClassCache m !! p) → is_Some (WidgetClassCache m' !! p).
Proof.
  induction 1 as [m Hp|m Hf|m r rest m' t Hp Hlt Hc _ IH
                  |m r rest m1 t1 m' t Hp Hlt Hc Hb HA IH|m r rest m1 t1 Hp Hlt Hc Hb];
    intros p Hin; try done.
  - by apply IH.
  - apply IH. by eapply StartLoadingWidget_body_cache.
  - by eapply StartLoadingWidget_body_cache.
Qed.

Lemma Serves_timeouts w m m' t :
  Serves w m m' t → TimeoutHandles m ⊆ TimeoutHandles m'.
Proof.
  assert (∀ Request m b m' t,
    StartLoadingWidget_body w Request m = (b, m', t) →
    TimeoutHandles m ⊆ TimeoutHandles m') as Hbody.
  { unfold StartLoadingWidget_body, GetFromWidgetClassCache,
      ExecuteLoadCompleted, ExecuteLoadFailed, ExecuteFailedDelegate, RemoveFromActive,
      AddToWidgetClassCache.
    unfold_M. simpl. intros Request m0 b m0' t0 H.
    repeat (case_match; simpl in *; simplify_eq); set_solver. }
  induction 1 as [m Hp|m Hf|m r rest m' t Hp Hlt Hc _ IH
                  |m r rest m1 t1 m' t Hp Hlt Hc Hb HA IH|m r rest m1 t1 Hp Hlt Hc Hb];
    try done.
  - apply Hbody in Hb. simpl in Hb. set_solver.
  - apply Hbody in Hb. simpl in Hb. set_solver.
Qed.

Lemma CacheWith_lookup p cls cache : is_Some (CacheWith p cls cache !! p).
Proof.
  unfold CacheWith. destruct (cache !! p) eqn:E; [by rewrite E|].
  rewrite lookup_insert_eq. eauto.
Qed.

Lemma CacheWith_keeps p cls cache q :
  is_Some (cache !! q) → CacheWith p cls cache !! q = cache !! q.
Proof.
  unfold CacheWith. intros Hq. destruct (cache !! p) eqn:E; [done|].
  apply lookup_insert_ne. intros ->. rewrite E in Hq. by destruct Hq.
Qed.

(** [OnWidgetClassLoaded] for a request that is not cancelled. *)
Lemma OnWidgetClassLoaded_live_run w Request m :
  IsCancelled m Request = false →
  ∃ m1,
    OnWidgetClassLoaded w Request m
    = (let '(_, m', t') := ProcessNextRequest w m1 in
       ((), m',
        ClearTimerEvents w m (RequestId Request) ++ CompletionEvents w Request ++ t'))
    ∧ ActiveRequests m1 = RemoveFirstById (RequestId Request) (ActiveRequests m)
    ∧ PendingRequests m1 = PendingRequests m
    ∧ CancelledRequestIds m1 = CancelledRequestIds m
    ∧ CancelledRequestCount m1 = CancelledRequestCount m
    ∧ TotalRequestCount m1 = TotalRequestCount m
    ∧ MaxConcurrentLoads m1 = MaxConcurrentLoads m
    ∧ match SoftGet w (WidgetClass Request) with
      | None =>
          FailedRequestCount m1 = Int32Add (FailedRequestCount m) 1
          ∧ CompletedRequestCount m1 = CompletedRequestCount m
          ∧ WidgetClassCache m1 = WidgetClassCache m
      | Some cls =>
          let cache := CacheWith (WidgetClass Request) cls (WidgetClassCache m) in
          match CreateAndSetupWidget w (Some cls) Request with
          | Some Widget =>
              CompletedRequestCount m1 = Int32Add (CompletedRequestCount m) 1
              ∧ FailedRequestCount m1 = FailedRequestCount m
              ∧ WidgetClassCache m1
                = match OnLoadCompleted Request with
                  | LoadedPreload p =>
                      if IsValid w p then <[p := GetClass Widget]> cache else cache
                  | _ => cache
                  end
          | None =>
              FailedRequestCount m1 = Int32Add (FailedRequestCount m) 1
              ∧ CompletedRequestCount m1 = CompletedRequestCount m
              ∧ WidgetClassCache m1 = cache
          end
      end.
Proof.
  unfold IsCancelled. intros Hc.
  destruct (OnWidgetClassLoaded w Request m) as [[[] mf] tf] eqn:E. revert E.
  unfold OnWidgetClassLoaded, ClearTimerEvents, CompletionEvents, RemoveFromActive,
    IsWidgetClassCached, IsValid, CacheWith, ExecuteLoadCompleted, ExecuteLoadFailed,
    ExecuteFailedDelegate, AddToWidgetClassCache, IsValid.
  unfold_M. simpl. rewrite Hc. intros E.
  repeat (case_match; simpl in *; simplify_eq).
  all: match goal with H : ProcessNextRequest _ ?x = _ |- _ =>
         exists x; rewrite H; simpl; rewrite ?app_nil_r;
         repeat split; try done end.
Qed.

Lemma ClearTimerEvents_silent w m id e : e ∈ ClearTimerEvents w m id → EventFor e = None.
Proof.
  unfold ClearTimerEvents. intros He. case_match; set_unfold; naive_solver.
Qed.

Lemma CallbacksOf_silent id t :
  (∀ e, e ∈ t → EventFor e = None) → CallbacksOf id t = [].
Proof. intros H. apply CallbacksOf_none. intros e He. by rewrite (H e He). Qed.

Lemma CallbacksOf_CompletedEvents d id Widget :
  CallbacksOf id (CompletedEvents d id Widget)
  = match d with LoadedUnbound => [] | _ => [EvLoadCompleted id Widget] end.
Proof.
  destruct d; simpl; try done; unfold CallbacksOf.
  - rewrite filter_cons_True by (simpl; by rewrite bool_decide_eq_true_2). done.
  - rewrite filter_cons_True by (simpl; by rewrite bool_decide_eq_true_2).
    by rewrite filter_cons_False.
Qed.

(** X5. A load completes for a request that is not cancelled, the class is
    in memory and the widget is created: the widget is asked for with the
    loaded class and the request's placement; the completion delegate is
    executed with it, once, and the failure delegate is not;
    [CompletedRequestCount] goes up by one; the class is in the cache
    afterwards and no entry has left the cache; the request leaves
    [ActiveRequests] and [ProcessNextRequest] runs. *)
Theorem completed_load_creates_the_widget_and_caches_the_class w Request m cls Widget :
  IsCancelled m Request = false →
  SoftGet w (WidgetClass Request) = Some cls →
  CreateAndSetupWidget w (Some cls) Request = Some Widget →
  let r := OnWidgetClassLoaded w Request m in
  let id := RequestId Request in
  ∃ m1,
    state r = state (ProcessNextRequest w m1)
    ∧ trace r
      = ClearTimerEvents w m id
        ++ EvCreateWidget id cls (bRemoveParent Request) (bDestroyParent Request)
             (ZOrder Request)
           :: CompletedEvents (OnLoadCompleted Request) id Widget
        ++ trace (ProcessNextRequest w m1)
    ∧ (id ∉ IdsOf (PendingRequests m) →
       CallbacksOf id (trace r)
       = match OnLoadCompleted Request with
         | LoadedUnbound => []
         | _ => [EvLoadCompleted id Widget]
         end)
    ∧ ActiveRequests m1 = RemoveFirstById id (ActiveRequests m)
    ∧ PendingRequests m1 = PendingRequests m
    ∧ CompletedRequestCount m1 = Int32Add (CompletedRequestCount m) 1
    ∧ FailedRequestCount m1 = FailedRequestCount m
    ∧ is_Some (WidgetClassCache (state r) !! WidgetClass Request)
    ∧ (∀ p, is_Some (WidgetClassCache m !! p) → is_Some (WidgetClassCache (state r) !! p)).
Proof.
  intros Hc Hget Hmake. simpl.
  destruct (OnWidgetClassLoaded_live_run w Request m Hc)
    as (m1 & -> & Ha & Hp & Hids & _ & _ & _ & Hout).
  unfold CompletionEvents. rewrite Hget in *. cbv zeta in Hout. rewrite Hmake in *.
  destruct Hout as (Hcc & Hfc & Hcache).
  exists m1. name_run. simpl.
  assert (∀ p, is_Some (WidgetClassCache m !! p) → is_Some (WidgetClassCache m1 !! p))
    as Hkeep.
  { intros p Hin. rewrite Hcache.
    assert (is_Some (CacheWith (WidgetClass Request) cls (WidgetClassCache m) !! p)) as H0
      by (by rewrite CacheWith_keeps).
    destruct (OnLoadCompleted Request) as [| |q]; try done.
    destruct (IsValid w q); [|done].
    apply lookup_insert_is_Some'. by right. }
  assert (is_Some (WidgetClassCache m1 !! WidgetClass Request)) as Hhas.
  { rewrite Hcache.
    pose proof (CacheWith_lookup (WidgetClass Request) cls (WidgetClassCache m)) as H0.
    destruct (OnLoadCompleted Request) as [| |q]; try done.
    destruct (IsValid w q); [|done].
    apply lookup_insert_is_Some'. by right. }
  repeat split; try done.
  - intros Hn. rewrite !CallbacksOf_app.
    rewrite (CallbacksOf_silent _ (ClearTimerEvents _ _ _))
      by (intros e; apply ClearTimerEvents_silent).
    change (EvCreateWidget ?a ?b ?c ?d ?e :: ?l) with ([EvCreateWidget a b c d e] ++ l).
    rewrite !CallbacksOf_app, CallbacksOf_CompletedEvents.
    rewrite (CallbacksOf_none _ t').
    2: { eapply Serves_silent; [done|]. right. by rewrite Hp. }
    rewrite app_nil_r. done.
  - by eapply Serves_cache.
  - intros p Hin. eapply Serves_cache; [done|]. by apply Hkeep.
Qed.

Lemma completed_load_creates_the_widget_and_caches_the_class_witness :
  (IsCancelled OneLoading RequestA = false
   ∧ SoftGet GameWorld (WidgetClass RequestA) = Some 1%nat
   ∧ CreateAndSetupWidget GameWorld (Some 1%nat) RequestA
     = Some {| GetClass := 1%nat; WidgetObject := 0%nat |})
  ∧ is_Some (WidgetClassCache (state (OnWidgetClassLoaded GameWorld RequestA OneLoading))
               !! WidgetClass RequestA).
Proof.
  assert (IsCancelled OneLoading RequestA = false) as H1 by (by vm_compute).
  assert (SoftGet GameWorld (WidgetClass RequestA) = Some 1%nat) as H2 by reflexivity.
  assert (CreateAndSetupWidget GameWorld (Some 1%nat) RequestA
          = Some {| GetClass := 1%nat; WidgetObject := 0%nat |}) as H3 by reflexivity.
  split; [repeat (split; [assumption|]); assumption|].
  destruct (completed_load_creates_the_widget_and_caches_the_class GameWorld RequestA
              OneLoading 1%nat _ H1 H2 H3) as (m1 & _ & _ & _ & _ & _ & _ & _ & Hc & _).
  exact Hc.
Defined.

(** X6. A load completes for a request that is not cancelled, but the class
    is not in memory: the failure delegate is executed with "Failed to load
    widget class", and that is all that is done for the request: no widget
    is asked for and the completion delegate is not executed;
    [FailedRequestCount] goes up by one, the cache is left as it was, the
    request leaves [ActiveRequests] and [ProcessNextRequest] runs. *)
Theorem load_without_class_fails_the_request w Request m :
  IsCancelled m Request = false →
  SoftGet w (WidgetClass Request) = None →
  let r := OnWidgetClassLoaded w Request m in
  let id := RequestId Request in
  ∃ m1,
    state r = state (ProcessNextRequest w m1)
    ∧ trace r
      = ClearTimerEvents w m id
        ++ FailedEvents (OnLoadFailed Request) id "Failed to load widget class"
        ++ trace (ProcessNextRequest w m1)
    ∧ (id ∉ IdsOf (PendingRequests m) →
       ∀ e, e ∈ trace r → EventFor e = Some id →
            e = EvLoadFailed id "Failed to load widget class")
    ∧ ActiveRequests m1 = RemoveFirstById id (ActiveRequests m)
    ∧ PendingRequests m1 = PendingRequests m
    ∧ FailedRequestCount m1 = Int32Add (FailedRequestCount m) 1
    ∧ CompletedRequestCount m1 = CompletedRequestCount m
    ∧ WidgetClassCache m1 = WidgetClassCache m.
Proof.
  intros Hc Hget. simpl.
  destruct (OnWidgetClassLoaded_live_run w Request m Hc)
    as (m1 & -> & Ha & Hp & Hids & _ & _ & _ & Hout).
  unfold CompletionEvents. rewrite Hget in *.
  destruct Hout as (Hfc & Hcc & Hcache).
  exists m1. name_run. simpl.
  repeat split; try done.
  intros Hn e He Hev.
  apply elem_of_app in He as [He|He];
    [apply ClearTimerEvents_silent in He; congruence|].
  apply elem_of_app in He as [He|He].
  - destruct (OnLoadFailed Request); simpl in He; set_unfold; naive_solver.
  - exfalso. eapply Serves_silent; [done| |done..]. right. by rewrite Hp.
Qed.

Lemma load_without_class_fails_the_request_witness :
  (IsCancelled OneLoading RequestA = false
   ∧ SoftGet QuietWorld (WidgetClass RequestA) = None)
  ∧ ∃ m1, FailedRequestCount m1 = Int32Add (FailedRequestCount OneLoading) 1
          ∧ WidgetClassCache m1 = WidgetClassCache OneLoading.
Proof.
  assert (IsCancelled OneLoading RequestA = false) as H1 by (by vm_compute).
  assert (SoftGet QuietWorld (WidgetClass RequestA) = None) as H2 by reflexivity.
  split; [repeat (split; [assumption|]); assumption|].
  destruct (load_without_class_fails_the_request QuietWorld RequestA OneLoading H1 H2)
    as (m1 & _ & _ & _ & _ & _ & Hf & _ & Hc).
  exists m1. split; [exact Hf | exact Hc].
Defined.

(** X7. A load completes for a request that is not cancelled and the class
    is in memory, but no widget can be created: the failure delegate is
    executed with "Failed to create widget instance" and
    [FailedRequestCount] goes up by one.  The class has been put in the
    cache all the same, so a later request for it is served from the
    cache. *)
Theorem load_without_widget_fails_the_request_and_caches_the_class w Request m cls :
  IsCancelled m Request = false →
  SoftGet w (WidgetClass Request) = Some cls →
  CreateAndSetupWidget w (Some cls) Request = None →
  let r := OnWidgetClassLoaded w Request m in
  let id := RequestId Request in
  ∃ m1,
    state r = state (ProcessNextRequest w m1)
    ∧ trace r
      = ClearTimerEvents w m id
        ++ EvCreateWidget id cls (bRemoveParent Request) (bDestroyParent Request)
             (ZOrder Request)
           :: FailedEvents (OnLoadFailed Request) id "Failed to create widget instance"
        ++ trace (ProcessNextRequest w m1)
    ∧ (id ∉ IdsOf (PendingRequests m) →
       CallbacksOf id (trace r)
       = FailedEvents (OnLoadFailed Request) id "Failed to create widget instance")
    ∧ ActiveRequests m1 = RemoveFirstById id (ActiveRequests m)
    ∧ PendingRequests m1 = PendingRequests m
    ∧ FailedRequestCount m1 = Int32Add (FailedRequestCount m) 1
    ∧ CompletedRequestCount m1 = CompletedRequestCount m
    ∧ WidgetClassCache m1 = CacheWith (WidgetClass Request) cls (WidgetClassCache m)
    ∧ is_Some (WidgetClassCache (state r) !! WidgetClass Request).
Proof.
  intros Hc Hget Hmake. simpl.
  destruct (OnWidgetClassLoaded_live_run w Request m Hc)
    as (m1 & -> & Ha & Hp & Hids & _ & _ & _ & Hout).
  unfold CompletionEvents. rewrite Hget in *. cbv zeta in Hout. rewrite Hmake in *.
  destruct Hout as (Hfc & Hcc & Hcache).
  exists m1. name_run. simpl.
  repeat split; try done.
  - intros Hn. rewrite !CallbacksOf_app.
    rewrite (CallbacksOf_silent _ (ClearTimerEvents _ _ _))
      by (intros e; apply ClearTimerEvents_silent).
    change (EvCreateWidget ?a ?b ?c ?d ?e :: ?l) with ([EvCreateWidget a b c d e] ++ l).
    rewrite !CallbacksOf_app, CallbacksOf_FailedEvents.
    rewrite (CallbacksOf_none _ t').
    2: { eapply Serves_silent; [done|]. right. by rewrite Hp. }
    rewrite app_nil_r. done.
  - eapply Serves_cache; [done|]. rewrite Hcache. apply CacheWith_lookup.
Qed.

Lemma load_without_widget_fails_the_request_and_caches_the_class_witness :
  (IsCancelled OneLoading RequestA = false
   ∧ SoftGet HeadlessWorld (WidgetClass RequestA) = Some 1%nat
   ∧ CreateAndSetupWidget HeadlessWorld (Some 1%nat) RequestA = None)
  ∧ is_Some (WidgetClassCache
               (state (OnWidgetClassLoaded HeadlessWorld RequestA OneLoading))
               !! WidgetClass RequestA).
Proof.
  assert (IsCancelled OneLoading RequestA = false) as H1 by (by vm_compute).
  assert (SoftGet HeadlessWorld (WidgetClass RequestA) = Some 1%nat) as H2 by reflexivity.
  assert (CreateAndSetupWidget HeadlessWorld (Some 1%nat) RequestA = None) as H3
    by reflexivity.
  split; [repeat (split; [assumption|]); assumption|].
  destruct (load_without_widget_fails_the_request_and_caches_the_class HeadlessWorld
              RequestA OneLoading 1%nat H1 H2 H3)
    as (m1 & _ & _ & _ & _ & _ & _ & _ & _ & Hc).
  exact Hc.
Defined.

(** ** A time-out that comes late *)

Lemma HandleLoadTimeout_absent w id m :
  id ∉ IdsOf (ActiveRequests m) → HandleLoadTimeout w id m = ((), m, []).
Proof.
  intros Hn. apply FindRequest_None in Hn. unfold HandleLoadTimeout.
  unfold M_bind, get. by rewrite Hn.
Qed.

Lemma OnWidgetClassLoaded_gone w Request m :
  NoDup (IdsOf (ActiveRequests m) ++ IdsOf (PendingRequests m)) →
  RequestId Request ∉ IdsOf (PendingRequests m) →
  (RequestId Request ∉ IdsOf (ActiveRequests (state (OnWidgetClassLoaded w Request m))))
  ∧ (RequestId Request ∉ IdsOf (PendingRequests (state (OnWidgetClassLoaded w Request m)))).
Proof.
  intros Hd Hn. pose proof Hd as (Hda & _ & _)%NoDup_app.
  destruct (OnWidgetClassLoaded_ends_in_run w Request m) as (m1 & -> & Ha & Hp).
  pose proof (ProcessNextRequest_Serves w m1) as HS.
  apply Serves_ids in HS.
  assert (RequestId Request
          ∉ IdsOf (ActiveRequests (state (ProcessNextRequest w m1)))
            ++ IdsOf (PendingRequests (state (ProcessNextRequest w m1)))) as Hgone.
  { eapply not_elem_of_submseteq; [exact HS|]. rewrite Ha, Hp.
    apply not_elem_of_app. split; [by apply RemoveFirstById_not_elem_of | done]. }
  by apply not_elem_of_app in Hgone.
Qed.

(** X15. The time-out of a request that is not running does nothing at all.
    So a request whose load has completed, or that has been cancelled,
    cannot time out afterwards, and a timed-out request cannot time out
    again. *)
Theorem timeout_of_a_finished_request_does_nothing w m :
  NoDup (IdsOf (ActiveRequests m) ++ IdsOf (PendingRequests m)) →
  (∀ id, id ∉ IdsOf (ActiveRequests m) → HandleLoadTimeout w id m = ((), m, []))
  ∧ (∀ w' Request,
       RequestId Request ∉ IdsOf (PendingRequests m) →
       let m' := state (OnWidgetClassLoaded w' Request m) in
       HandleLoadTimeout w (RequestId Request) m' = ((), m', []))
  ∧ (∀ w' id,
       result (CancelLoadRequest w' id m) = true →
       let m' := state (CancelLoadRequest w' id m) in
       HandleLoadTimeout w id m' = ((), m', []))
  ∧ (∀ w' id,
       id ∈ IdsOf (ActiveRequests m) →
       let m' := state (HandleLoadTimeout w' id m) in
       HandleLoadTimeout w id m' = ((), m', [])).
Proof.
  intros Hd. pose proof Hd as (Hda & Hdap & _)%NoDup_app.
  split; [|split; [|split]].
  - intros id. apply HandleLoadTimeout_absent.
  - intros w' Request Hn. simpl. apply HandleLoadTimeout_absent.
    by apply OnWidgetClassLoaded_gone.
  - intros w' id Hr. simpl. apply HandleLoadTimeout_absent.
    by apply CancelLoadRequest_gone.
  - intros w' id Hin. simpl. apply HandleLoadTimeout_absent.
    destruct (FindRequest id (ActiveRequests m)) as [[i r]|] eqn:Hf.
    2: { by apply FindRequest_None in Hf. }
    destruct (timeout_facts w' id m i r Hf) as (-> & Ha & Hp).
    apply FindRequest_Some in Hf as (_ & Hl & Hid).
    pose proof (ProcessNextRequest_Serves w' (AfterTimeout id i m)) as HS.
    apply Serves_ids in HS. rewrite Ha, Hp in HS.
    assert (id ∉ IdsOf (ActiveRequests (state (ProcessNextRequest w' (AfterTimeout id i m))))
              ++ IdsOf (PendingRequests
                          (state (ProcessNextRequest w' (AfterTimeout id i m))))) as Hgone.
    { eapply not_elem_of_submseteq; [exact HS|].
      apply not_elem_of_app. split.
      - rewrite (IdsOf_delete_NoDup i r) by done. intros [_ Hne]. congruence.
      - apply Hdap. done. }
    by apply not_elem_of_app in Hgone as [? ?].
Qed.

Lemma timeout_of_a_finished_request_does_nothing_witness :
  NoDup (IdsOf (ActiveRequests Queued) ++ IdsOf (PendingRequests Queued))
  ∧ HandleLoadTimeout GameWorld 1%N (state (OnWidgetClassLoaded GameWorld RequestA Queued))
    = ((), state (OnWidgetClassLoaded GameWorld RequestA Queued), []).
Proof.
  assert (NoDup (IdsOf (ActiveRequests Queued) ++ IdsOf (PendingRequests Queued))) as H1
    by (apply (bool_decide_unpack _); by vm_compute).
  split; [repeat (split; [assumption|]); assumption|].
  destruct (timeout_of_a_finished_request_does_nothing GameWorld Queued H1)
    as (_ & Hdone & _).
  apply (Hdone GameWorld RequestA).
  apply (bool_decide_unpack _). by vm_compute.
Defined.

(** ** A submission that misses the cache *)

Lemma StartLoadingWidget_body_miss w Request m :
  WidgetClassCache m !! WidgetClass Request = None →
  ∃ m1,
    StartLoadingWidget_body w Request m
    = (negb (RequestAsyncLoad w (WidgetClass Request)), m1,
       EvStartLoading (RequestId Request)
       :: SetTimerEvents w (RequestId Request)
       ++ EvRequestAsyncLoad (RequestId Request) (WidgetClass Request)
          :: (if RequestAsyncLoad w (WidgetClass Request) then []
              else FailedEvents (OnLoadFailed Request) (RequestId Request)
                     "Failed to create streamable handle"))
    ∧ TimeoutHandles m1
      = (if WorldContextIsValid w then {[RequestId Request]} ∪ TimeoutHandles m
         else TimeoutHandles m)
    ∧ ActiveHandles m1
      = (if RequestAsyncLoad w (WidgetClass Request)
         then {[RequestId Request]} ∪ ActiveHandles m else ActiveHandles m)
    ∧ FailedRequestCount m1
      = (if RequestAsyncLoad w (WidgetClass Request) then FailedRequestCount m
         else Int32Add (FailedRequestCount m) 1)
    ∧ CompletedRequestCount m1 = CompletedRequestCount m
    ∧ WidgetClassCache m1 = WidgetClassCache m.
Proof.
  intros Hc.
  destruct (StartLoadingWidget_body w Request m) as [[b m1] t1] eqn:E. revert E.
  unfold StartLoadingWidget_body, GetFromWidgetClassCache, SetTimerEvents,
    ExecuteLoadFailed, ExecuteFailedDelegate, RemoveFromActive.
  unfold_M. simpl. rewrite Hc. intros E.
  repeat (case_match; simpl in *; simplify_eq); eexists; repeat split; done.
Qed.

Lemma StartLoadingWidget_body_events w Request m b m' t :
  StartLoadingWidget_body w Request m = (b, m', t) → Forall IsSchedulerEvent t.
Proof.
  unfold StartLoadingWidget_body, GetFromWidgetClassCache,
    ExecuteLoadCompleted, ExecuteLoadFailed, ExecuteFailedDelegate, RemoveFromActive,
    AddToWidgetClassCache.
  unfold_M. simpl. intros H.
  repeat (case_match; simpl in *; simplify_eq); repeat constructor.
Qed.

Lemma Serves_scheduler_events w m m' t : Serves w m m' t → Forall IsSchedulerEvent t.
Proof.
  induction 1 as [m Hp|m Hf|m r rest m' t Hp Hlt Hc _ IH
                  |m r rest m1 t1 m' t Hp Hlt Hc Hb HA IH|m r rest m1 t1 Hp Hlt Hc Hb];
    try done.
  - apply Forall_app. split; [by eapply StartLoadingWidget_body_events | done].
  - by eapply StartLoadingWidget_body_events.
Qed.

Lemma GetRequestStatus_active m id :
  id ∉ CancelledRequestIds m → id ∈ IdsOf (ActiveRequests m) →
  GetRequestStatus m id
  = {| Found := true; bIsActive := true; bIsPending := false; bIsCancelled := false |}.
Proof.
  intros Hc Ha. unfold GetRequestStatus.
  rewrite bool_decide_eq_false_2 by done. by rewrite bool_decide_eq_true_2.
Qed.

Lemma GetRequestStatus_pending m id :
  id ∉ CancelledRequestIds m → id ∉ IdsOf (ActiveRequests m) →
  id ∈ IdsOf (PendingRequests m) →
  GetRequestStatus m id
  = {| Found := true; bIsActive := false; bIsPending := true; bIsCancelled := false |}.
Proof.
  intros Hc Ha Hp. unfold GetRequestStatus.
  rewrite !bool_decide_eq_false_2 by done. by rewrite bool_decide_eq_true_2.
Qed.

Lemma GetRequestStatus_unknown m id :
  id ∉ CancelledRequestIds m → id ∉ IdsOf (ActiveRequests m) →
  id ∉ IdsOf (PendingRequests m) →
  GetRequestStatus m id
  = {| Found := false; bIsActive := false; bIsPending := false; bIsCancelled := false |}.
Proof.
  intros Hc Ha Hp. unfold GetRequestStatus.
  by rewrite !bool_decide_eq_false_2 by done.
Qed.

(** X2. A request made while no slot is free is put in the queue and
    nothing else happens: no event, not even when its class is cached.  The
    queue holds what it held and the new request, in the order of
    [operator<]; the request is counted in [TotalRequestCount] and, its
    GUID being new, reads as pending. *)
Theorem request_without_a_free_slot_is_queued w NewGuid Now SoftClass OnCompleted OnFailed
    RemoveParent DestroyParent Z_Order Prio m :
  IsNull SoftClass = false →
  MaxConcurrentLoads m ≤ Num (ActiveRequests m) →
  let r := LoadWidgetAsync w NewGuid Now SoftClass OnCompleted OnFailed
             RemoveParent DestroyParent Z_Order Prio m in
  let NewRequest :=
    {| RequestId := NewGuid; WidgetClass := SoftClass;
       bRemoveParent := RemoveParent; bDestroyParent := DestroyParent;
       ZOrder := Z_Order; OnLoadCompleted := OnCompleted;
       OnLoadFailed := OnFailed; RequestTime := FloatOfDouble Now;
       bCancelled := false; Priority := Prio |} in
  result r = NewGuid
  ∧ trace r = []
  ∧ PendingRequests (state r) ≡ₚ PendingRequests m ++ [NewRequest]
  ∧ StronglySorted Request_le (PendingRequests (state r))
  ∧ state r
    = with_PendingRequests (λ _, PendingRequests (state r))
        (with_TotalRequestCount (λ n, Int32Add n 1) m)
  ∧ GetPendingLoadRequestCount (state r) = GetPendingLoadRequestCount m + 1
  ∧ IsWidgetLoading (state r) SoftClass = true
  ∧ (NewGuid ∉ CancelledRequestIds m → NewGuid ∉ IdsOf (ActiveRequests m) →
     GetRequestStatus (state r) NewGuid
     = {| Found := true; bIsActive := false; bIsPending := true;
          bIsCancelled := false |}).
Proof.
  intros Hnull Hfull. simpl. unfold LoadWidgetAsync. rewrite Hnull.
  unfold_M. simpl. rewrite (proj2 (Z.ltb_ge _ _) Hfull). simpl.
  repeat split.
  - apply Sort_Permutation.
  - apply Sort_sorted.
  - unfold GetPendingLoadRequestCount, Num. simpl.
    rewrite Sort_Permutation, length_app. simpl. lia.
  - unfold IsWidgetLoading. simpl. apply orb_true_iff. right.
    apply existsb_exists. eexists. split.
    + apply list_elem_of_In. rewrite Sort_Permutation. apply elem_of_app. right. by left.
    + simpl. by rewrite bool_decide_eq_true_2.
  - intros Hc Ha. apply GetRequestStatus_pending; simpl; [done..|].
    unfold IdsOf. rewrite Sort_Permutation, fmap_app. apply elem_of_app. right. by left.
Qed.

Lemma request_without_a_free_slot_is_queued_witness :
  (IsNull "A" = false ∧ MaxConcurrentLoads Busy ≤ Num (ActiveRequests Busy))
  ∧ trace (LoadWidgetAsync GameWorld 3%N (Seconds 30) "A" (LoadedUser 1) (FailedUser 1)
             false false 0 0 Busy) = [].
Proof.
  assert (IsNull "A" = false) as H1 by reflexivity.
  assert (MaxConcurrentLoads Busy ≤ Num (ActiveRequests Busy)) as H2 by (by vm_compute).
  split; [repeat (split; [assumption|]); assumption|].
  destruct (request_without_a_free_slot_is_queued GameWorld 3%N 30 "A" (LoadedUser 1)
              (FailedUser 1) false false 0 0 Busy H1 H2) as (_ & Ht & _).
  exact Ht.
Defined.

Lemma LoadWidgetAsync_miss_run w NewGuid Now SoftClass OnCompleted OnFailed
    RemoveParent DestroyParent Z_Order Prio m :
  IsNull SoftClass = false →
  Num (ActiveRequests m) < MaxConcurrentLoads m →
  WidgetClassCache m !! SoftClass = None →
  let NewRequest :=
    {| RequestId := NewGuid; WidgetClass := SoftClass;
       bRemoveParent := RemoveParent; bDestroyParent := DestroyParent;
       ZOrder := Z_Order; OnLoadCompleted := OnCompleted;
       OnLoadFailed := OnFailed; RequestTime := FloatOfDouble Now;
       bCancelled := false; Priority := Prio |} in
  ∃ m1,
    LoadWidgetAsync w NewGuid Now SoftClass OnCompleted OnFailed
      RemoveParent DestroyParent Z_Order Prio m
    = (let '(_, m', t') :=
         if RequestAsyncLoad w SoftClass then ((), m1, [])
         else ProcessNextRequest w m1 in
       (NewGuid, m',
        (EvStartLoading NewGuid
         :: SetTimerEvents w NewGuid
         ++ EvRequestAsyncLoad NewGuid SoftClass
            :: (if RequestAsyncLoad w SoftClass then []
                else FailedEvents OnFailed NewGuid "Failed to create streamable handle"))
        ++ t'))
    ∧ ActiveRequests m1
      = (if RequestAsyncLoad w SoftClass then ActiveRequests m ++ [NewRequest]
         else RemoveFirstById NewGuid (ActiveRequests m ++ [NewRequest]))
    ∧ PendingRequests m1 = PendingRequests m
    ∧ CancelledRequestIds m1 = CancelledRequestIds m
    ∧ MaxConcurrentLoads m1 = MaxConcurrentLoads m
    ∧ TimeoutHandles m1
      = (if WorldContextIsValid w then {[NewGuid]} ∪ TimeoutHandles m
         else TimeoutHandles m)
    ∧ ActiveHandles m1
      = (if RequestAsyncLoad w SoftClass then {[NewGuid]} ∪ ActiveHandles m
         else ActiveHandles m)
    ∧ TotalRequestCount m1 = Int32Add (TotalRequestCount m) 1
    ∧ CompletedRequestCount m1 = CompletedRequestCount m
    ∧ FailedRequestCount m1
      = (if RequestAsyncLoad w SoftClass then FailedRequestCount m
         else Int32Add (FailedRequestCount m) 1)
    ∧ CancelledRequestCount m1 = CancelledRequestCount m
    ∧ WidgetClassCache m1 = WidgetClassCache m.
Proof.
  intros Hnull Hlt Hmiss. simpl. unfold LoadWidgetAsync. rewrite Hnull.
  unfold M_bind at 1, modify at 1.
  unfold M_bind at 1, get at 1. simpl.
  rewrite (proj2 (Z.ltb_lt _ _) Hlt).
  unfold M_bind at 1. unfold M_bind at 1, modify at 1.
  rewrite StartLoadingWidget_run. unfold M_bind at 1.
  match goal with |- context [StartLoadingWidget_body w ?r ?x] =>
    destruct (StartLoadingWidget_body_miss w r x Hmiss)
      as (m1 & Hb & Hth & Hah & Hfc & Hcc & Hcache);
    rewrite Hb; body_facts Hb end.
  simpl in *. exists m1.
  destruct (RequestAsyncLoad w SoftClass); simpl in *.
  - unfold_M. simpl. rewrite ?app_nil_r. repeat split; done.
  - destruct (ProcessNextRequest w m1) as [[[] m'] t']. unfold_M. simpl.
    rewrite ?app_nil_r. repeat split; done.
Qed.

(** X3. A request made while a slot is free, for a class that is not in the
    cache: when the streamable manager hands out a handle, the request is
    running when [LoadWidgetAsync] returns.  Its timer is armed (if the
    world is there), the load is requested, and no delegate is executed and
    no widget created yet.  The request has a handle, is counted in
    [TotalRequestCount], and reads as active. *)
Theorem request_that_misses_the_cache_starts_a_load w NewGuid Now SoftClass OnCompleted
    OnFailed RemoveParent DestroyParent Z_Order Prio m :
  IsNull SoftClass = false →
  Num (ActiveRequests m) < MaxConcurrentLoads m →
  WidgetClassCache m !! SoftClass = None →
  RequestAsyncLoad w SoftClass = true →
  let r := LoadWidgetAsync w NewGuid Now SoftClass OnCompleted OnFailed
             RemoveParent DestroyParent Z_Order Prio m in
  let NewRequest :=
    {| RequestId := NewGuid; WidgetClass := SoftClass;
       bRemoveParent := RemoveParent; bDestroyParent := DestroyParent;
       ZOrder := Z_Order; OnLoadCompleted := OnCompleted;
       OnLoadFailed := OnFailed; RequestTime := FloatOfDouble Now;
       bCancelled := false; Priority := Prio |} in
  result r = NewGuid
  ∧ trace r
    = EvStartLoading NewGuid
      :: SetTimerEvents w NewGuid ++ [EvRequestAsyncLoad NewGuid SoftClass]
  ∧ ActiveRequests (state r) = ActiveRequests m ++ [NewRequest]
  ∧ PendingRequests (state r) = PendingRequests m
  ∧ ActiveHandles (state r) = {[NewGuid]} ∪ ActiveHandles m
  ∧ TimeoutHandles (state r)
    = (if WorldContextIsValid w then {[NewGuid]} ∪ TimeoutHandles m else TimeoutHandles m)
  ∧ GetLoadStatistics (state r)
    = (Int32Add (TotalRequestCount m) 1, CompletedRequestCount m,
       FailedRequestCount m, CancelledRequestCount m)
  ∧ WidgetClassCache (state r) = WidgetClassCache m
  ∧ IsWidgetLoading (state r) SoftClass = true
  ∧ (NewGuid ∉ CancelledRequestIds m →
     GetRequestStatus (state r) NewGuid
     = {| Found := true; bIsActive := true; bIsPending := false;
          bIsCancelled := false |}).
Proof.
  intros Hnull Hlt Hmiss Hload. simpl.
  destruct (LoadWidgetAsync_miss_run w NewGuid Now SoftClass OnCompleted OnFailed
              RemoveParent DestroyParent Z_Order Prio m Hnull Hlt Hmiss)
    as (m1 & -> & Ha & Hp & Hids & Hmax & Hth & Hah & Ht & Hc & Hf & Hcc & Hcache).
  rewrite Hload in *. simpl. rewrite app_nil_r.
  unfold GetLoadStatistics. rewrite Ht, Hc, Hf, Hcc.
  repeat split; try done.
  - unfold IsWidgetLoading. rewrite Ha. apply orb_true_iff. left.
    apply existsb_exists. eexists. split.
    + apply list_elem_of_In. apply elem_of_app. right. by left.
    + simpl. by rewrite bool_decide_eq_true_2.
  - intros Hn. apply GetRequestStatus_active; [by rewrite Hids|].
    rewrite Ha, IdsOf_app. apply elem_of_app. right. by left.
Qed.

Lemma request_that_misses_the_cache_starts_a_load_witness :
  (IsNull "A" = false
   ∧ Num (ActiveRequests NewManager) < MaxConcurrentLoads NewManager
   ∧ WidgetClassCache NewManager !! "A"%string = None
   ∧ RequestAsyncLoad GameWorld "A" = true)
  ∧ trace (LoadWidgetAsync GameWorld 1%N (Seconds 10) "A" (LoadedUser 0) (FailedUser 0)
             false false 0 0 NewManager)
    = EvStartLoading 1%N :: SetTimerEvents GameWorld 1%N ++ [EvRequestAsyncLoad 1%N "A"].
Proof.
  assert (IsNull "A" = false) as H1 by reflexivity.
  assert (Num (ActiveRequests NewManager) < MaxConcurrentLoads NewManager) as H2
    by (by vm_compute).
  assert (WidgetClassCache NewManager !! "A"%string = None) as H3 by (by vm_compute).
  assert (RequestAsyncLoad GameWorld "A" = true) as H4 by reflexivity.
  split; [repeat (split; [assumption|]); assumption|].
  destruct (request_that_misses_the_cache_starts_a_load GameWorld 1%N 10 "A"
              (LoadedUser 0) (FailedUser 0) false false 0 0 NewManager H1 H2 H3 H4)
    as (_ & Ht & _).
  exact Ht.
Defined.

(** X4. A request made while a slot is free, for a class that is not in the
    cache, when the streamable manager hands out no handle: the failure
    delegate is executed before [LoadWidgetAsync] returns, with "Failed to
    create streamable handle", [FailedRequestCount] goes up by one, the
    request is not kept and [ProcessNextRequest] runs.  The timer that was
    armed for the request is not cleared and its handle stays in
    [TimeoutHandles].  The GUID that is returned is unknown to
    [GetRequestStatus]. *)
Theorem refused_load_fails_the_request_and_leaves_its_timer w NewGuid Now SoftClass
    OnCompleted OnFailed RemoveParent DestroyParent Z_Order Prio m :
  IsNull SoftClass = false →
  Num (ActiveRequests m) < MaxConcurrentLoads m →
  WidgetClassCache m !! SoftClass = None →
  RequestAsyncLoad w SoftClass = false →
  let r := LoadWidgetAsync w NewGuid Now SoftClass OnCompleted OnFailed
             RemoveParent DestroyParent Z_Order Prio m in
  ∃ m1,
    result r = NewGuid
    ∧ state r = state (ProcessNextRequest w m1)
    ∧ trace r
      = EvStartLoading NewGuid
        :: SetTimerEvents w NewGuid
        ++ EvRequestAsyncLoad NewGuid SoftClass
           :: FailedEvents OnFailed NewGuid "Failed to create streamable handle"
        ++ trace (ProcessNextRequest w m1)
    ∧ FailedRequestCount m1 = Int32Add (FailedRequestCount m) 1
    ∧ TotalRequestCount m1 = Int32Add (TotalRequestCount m) 1
    ∧ PendingRequests m1 = PendingRequests m
    ∧ (NewGuid ∉ IdsOf (ActiveRequests m) → ActiveRequests m1 = ActiveRequests m)
    ∧ (∀ e, e ∈ trace r → e ≠ EvClearTimer NewGuid)
    ∧ (WorldContextIsValid w = true → NewGuid ∈ TimeoutHandles (state r))
    ∧ (FreshGuid NewGuid m →
       CallbacksOf NewGuid (trace r)
       = FailedEvents OnFailed NewGuid "Failed to create streamable handle"
       ∧ GetRequestStatus (state r) NewGuid
         = {| Found := false; bIsActive := false; bIsPending := false;
              bIsCancelled := false |}).
Proof.
  intros Hnull Hlt Hmiss Hload. simpl.
  destruct (LoadWidgetAsync_miss_run w NewGuid Now SoftClass OnCompleted OnFailed
              RemoveParent DestroyParent Z_Order Prio m Hnull Hlt Hmiss)
    as (m1 & -> & Ha & Hp & Hids & Hmax & Hth & Hah & Ht & Hc & Hf & Hcc & Hcache).
  rewrite Hload in *. exists m1. name_run. simpl.
  pose proof (Serves_scheduler_events _ _ _ _ Erun) as Hkinds.
  pose proof (Serves_timeouts _ _ _ _ Erun) as Hsub.
  pose proof (Serves_ids _ _ _ _ Erun) as Hsubids.
  destruct (Serves_frame _ _ _ _ Erun) as (_ & Hids' & _).
  split; [done|]. split; [done|]. split; [by rewrite <- app_assoc|].
  split; [done|]. split; [done|]. split; [done|].
  split; [intros Hn; rewrite Ha; by apply RemoveFirstById_app_fresh|].
  split; [|split].
  - intros e He ->.
    apply elem_of_cons in He as [He|He]; [done|].
    rewrite <- app_assoc in He.
    apply elem_of_app in He as [He|He].
    { unfold SetTimerEvents in He. case_match; set_unfold; naive_solver. }
    apply elem_of_cons in He as [He|He]; [done|].
    apply elem_of_app in He as [He|He].
    { destruct OnFailed; simpl in He; set_unfold; naive_solver. }
    rewrite Forall_forall in Hkinds. by apply Hkinds in He.
  - intros Hw. apply Hsub. rewrite Hth, Hw. set_solver.
  - intros (Hv & Hfa & Hfp & Hfc). split.
    + change (EvStartLoading ?a :: ?l) with ([EvStartLoading a] ++ l).
      rewrite <- !app_assoc, !CallbacksOf_app.
      change (EvRequestAsyncLoad ?a ?b :: ?l) with ([EvRequestAsyncLoad a b] ++ l).
      rewrite !CallbacksOf_app, CallbacksOf_FailedEvents.
      rewrite (CallbacksOf_none _ t').
      2: { eapply Serves_silent; [done|]. right. by rewrite Hp. }
      rewrite app_nil_r.
      assert (CallbacksOf NewGuid (SetTimerEvents w NewGuid) = []) as ->.
      { unfold SetTimerEvents. by case_match. }
      done.
    + assert (NewGuid ∉ IdsOf (ActiveRequests m') ++ IdsOf (PendingRequests m')) as Hgone.
      { eapply not_elem_of_submseteq; [exact Hsubids|].
        rewrite Ha, Hp, RemoveFirstById_app_fresh by done.
        apply not_elem_of_app. done. }
      apply not_elem_of_app in Hgone as [? ?].
      apply GetRequestStatus_unknown; try done. by rewrite Hids', Hids.
Qed.

Lemma refused_load_fails_the_request_and_leaves_its_timer_witness :
  (IsNull "A" = false
   ∧ Num (ActiveRequests NewManager) < MaxConcurrentLoads NewManager
   ∧ WidgetClassCache NewManager !! "A"%string = None
   ∧ RequestAsyncLoad OfflineWorld "A" = false)
  ∧ ∃ m1,
      result (LoadWidgetAsync OfflineWorld 1%N (Seconds 10) "A" (LoadedUser 0) (FailedUser 0)
                false false 0 0 NewManager) = 1%N
      ∧ FailedRequestCount m1 = Int32Add (FailedRequestCount NewManager) 1.
Proof.
  assert (IsNull "A" = false) as H1 by reflexivity.
  assert (Num (ActiveRequests NewManager) < MaxConcurrentLoads NewManager) as H2
    by (by vm_compute).
  assert (WidgetClassCache NewManager !! "A"%string = None) as H3 by (by vm_compute).
  assert (RequestAsyncLoad OfflineWorld "A" = false) as H4 by reflexivity.
  split; [repeat (split; [assumption|]); assumption|].
  destruct (refused_load_fails_the_request_and_leaves_its_timer OfflineWorld 1%N 10 "A"
              (LoadedUser 0) (FailedUser 0) false false 0 0 NewManager H1 H2 H3 H4)
    as (m1 & Hr & _ & _ & Hf & _).
  exists m1. split; [exact Hr | exact Hf].
Defined.

(** ** What holds of every state the manager reaches *)

Lemma NewManager_Live : Live NewManager.
Proof. intros r Hr. simpl in Hr. by apply elem_of_nil in Hr. Qed.

Lemma Reachable_Live m : Reachable m → Live m.
Proof.
  intros Hr. cut (QueueOK m ∧ Live m); [tauto|].
  revert m Hr. apply ReachableBy_invariant.
  - split; [apply NewManager_QueueOK | apply NewManager_Live].
  - intros w c m HF [HQ HL]. split; [by apply Perform_QueueOK | by apply Perform_Live].
Qed.

Lemma Reachable_HandlesMatch m : Reachable m → HandlesMatch m.
Proof.
  intros Hr. cut (QueueOK m ∧ HandlesMatch m); [tauto|].
  revert m Hr. apply ReachableBy_invariant.
  - split; [apply NewManager_QueueOK|]. intros id. simpl. set_solver.
  - intros w c m HF [HQ HH].
    split; [by apply Perform_QueueOK | by apply Perform_HandlesMatch].
Qed.

Lemma ReachableBy_weaken (P Q : Call → Manager → Prop) m :
  (∀ c m, P c m → Q c m) → ReachableBy P m → ReachableBy Q m.
Proof. intros HPQ. induction 1; constructor; auto. Qed.

Lemma Orderly_Reachable m : ReachableBy Orderly m → Reachable m.
Proof. apply ReachableBy_weaken, Orderly_GuidsFresh. Qed.

Lemma Orderly_Balanced m : ReachableBy Orderly m → Balanced m.
Proof.
  intros Hr. cut (QueueOK m ∧ Live m ∧ Balanced m); [tauto|].
  revert m Hr. apply ReachableBy_invariant.
  - split; [apply NewManager_QueueOK|]. split; [apply NewManager_Live | done].
  - intros w c m HO (HQ & HL & HB). pose proof (Orderly_GuidsFresh _ _ HO) as HF.
    split; [by apply Perform_QueueOK|].
    split; [by apply Perform_Live | by apply Perform_Balanced].
Qed.

(** X16. In every state the manager reaches, no request that is kept in
    [ActiveRequests] or [PendingRequests] is cancelled: its flag is clear
    and its id is not in [CancelledRequestIds].  So an id is in at most one
    of the three places, and [GetRequestStatus], which looks at the ids
    first, tells where it is. *)
Theorem status_tells_where_a_request_is m :
  Reachable m →
  (∀ r, r ∈ ActiveRequests m ++ PendingRequests m →
        bCancelled r = false ∧ RequestId r ∉ CancelledRequestIds m)
  ∧ ∀ id,
      (bIsActive (GetRequestStatus m id) = true ↔ id ∈ IdsOf (ActiveRequests m))
      ∧ (bIsPending (GetRequestStatus m id) = true ↔ id ∈ IdsOf (PendingRequests m))
      ∧ (bIsCancelled (GetRequestStatus m id) = true ↔ id ∈ CancelledRequestIds m)
      ∧ (Found (GetRequestStatus m id) = true
         ↔ id ∈ IdsOf (ActiveRequests m) ∨ id ∈ IdsOf (PendingRequests m)
           ∨ id ∈ CancelledRequestIds m)
      ∧ ¬ (id ∈ IdsOf (ActiveRequests m) ∧ id ∈ IdsOf (PendingRequests m))
      ∧ ¬ (id ∈ IdsOf (ActiveRequests m) ∧ id ∈ CancelledRequestIds m)
      ∧ ¬ (id ∈ IdsOf (PendingRequests m) ∧ id ∈ CancelledRequestIds m).
Proof.
  intros Hr. pose proof (Reachable_Live m Hr) as HL.
  pose proof (Reachable_QueueOK m Hr) as (_ & Hd & _).
  apply NoDup_app in Hd as (_ & Hdap & _).
  assert (∀ r, r ∈ ActiveRequests m ++ PendingRequests m →
               bCancelled r = false ∧ RequestId r ∉ CancelledRequestIds m) as Hlive.
  { intros r Hin. specialize (HL r Hin). unfold IsCancelled in HL.
    apply orb_false_iff in HL as [? HL]. by apply bool_decide_eq_false in HL. }
  assert (∀ id l, id ∈ IdsOf l → l `sublist_of` ActiveRequests m ++ PendingRequests m →
                  id ∉ CancelledRequestIds m) as Hids.
  { intros id l Hin Hsub. unfold IdsOf in Hin.
    apply list_elem_of_fmap in Hin as (r & -> & Hin).
    apply Hlive. by eapply elem_of_sublist. }
  assert (∀ id, id ∈ IdsOf (ActiveRequests m) → id ∉ CancelledRequestIds m) as Ha.
  { intros id Hin. eapply Hids; [done|]. by apply sublist_inserts_r. }
  assert (∀ id, id ∈ IdsOf (PendingRequests m) → id ∉ CancelledRequestIds m) as Hp.
  { intros id Hin. eapply Hids; [done|]. by apply sublist_inserts_l. }
  split; [done|]. intros id. unfold GetRequestStatus.
  specialize (Ha id). specialize (Hp id). specialize (Hdap id).
  repeat case_bool_decide; simpl; naive_solver.
Qed.

Lemma status_tells_where_a_request_is_witness :
  Reachable Queued
  ∧ (bIsPending (GetRequestStatus Queued 3%N) = true ↔ 3%N ∈ IdsOf (PendingRequests Queued)).
Proof.
  split; [exact Queued_Reachable|].
  destruct (status_tells_where_a_request_is Queued Queued_Reachable) as (_ & Hs).
  destruct (Hs 3%N) as (_ & Hp & _). exact Hp.
Defined.

(** X17. In every state the manager reaches, [ActiveHandles] holds a handle
    for each running request and for nothing else. *)
Theorem a_handle_is_kept_for_each_running_request m :
  Reachable m →
  (∀ id, id ∈ ActiveHandles m ↔ id ∈ IdsOf (ActiveRequests m))
  ∧ Z.of_nat (size (ActiveHandles m)) = GetActiveLoadRequestCount m.
Proof.
  intros Hr. pose proof (Reachable_HandlesMatch m Hr) as HH.
  pose proof (Reachable_QueueOK m Hr) as (_ & Hd & _).
  apply NoDup_app in Hd as (Hda & _ & _).
  split; [done|].
  assert (ActiveHandles m = list_to_set (IdsOf (ActiveRequests m))) as ->.
  { apply set_eq. intros id. rewrite elem_of_list_to_set. apply HH. }
  rewrite size_list_to_set by done.
  unfold GetActiveLoadRequestCount, Num, IdsOf. by rewrite length_fmap.
Qed.

Lemma a_handle_is_kept_for_each_running_request_witness :
  Reachable Queued
  ∧ Z.of_nat (size (ActiveHandles Queued)) = GetActiveLoadRequestCount Queued.
Proof.
  split; [exact Queued_Reachable|].
  destruct (a_handle_is_kept_for_each_running_request Queued Queued_Reachable) as (_ & Hn).
  exact Hn.
Defined.

(** X19. When new requests get fresh GUIDs and a load completes only for a
    request that is running or has been cancelled, the counters add up in
    every state the manager reaches: each request that was counted in the
    total is running, waiting, completed, failed or cancelled, and is
    counted once.  This is what [GetAsyncLoadStatistics] reports. *)
Theorem statistics_add_up m :
  ReachableBy Orderly m →
  let '(TotalRequests, Active, Pending, CompletedRequests, FailedRequests,
        CancelledRequests) := GetAsyncLoadStatistics m in
  TotalRequests
  = Int32Wrap (Active + Pending + CompletedRequests + FailedRequests + CancelledRequests)
  ∧ (- 2 ^ 31 ≤ Active + Pending + CompletedRequests + FailedRequests + CancelledRequests
       < 2 ^ 31 →
     TotalRequests
     = Active + Pending + CompletedRequests + FailedRequests + CancelledRequests).
Proof.
  intros Hr. apply Orderly_Balanced in Hr.
  unfold GetAsyncLoadStatistics, GetLoadStatistics, GetActiveLoadRequestCount,
    GetPendingLoadRequestCount.
  split; int32.
Qed.

Lemma statistics_add_up_witness :
  ReachableBy Orderly Eventful
  ∧ (let '(TotalRequests, Active, Pending, CompletedRequests, FailedRequests,
           CancelledRequests) := GetAsyncLoadStatistics Eventful in
     TotalRequests
     = Int32Wrap (Active + Pending + CompletedRequests + FailedRequests
                  + CancelledRequests)
     ∧ (- 2 ^ 31 ≤ Active + Pending + CompletedRequests + FailedRequests
                   + CancelledRequests < 2 ^ 31 →
        TotalRequests
        = Active + Pending + CompletedRequests + FailedRequests + CancelledRequests)).
Proof.
  split; [exact Eventful_Orderly|].
  exact (statistics_add_up Eventful Eventful_Orderly).
Defined.

(** X18. In every state the manager reaches, [IsWidgetLoading] holds of a
    soft class exactly when a request for that class is running or
    waiting. *)
Theorem class_is_loading_iff_a_request_for_it_is_kept m SoftClass :
  Reachable m →
  IsWidgetLoading m SoftClass = true
  ↔ ∃ r, r ∈ ActiveRequests m ++ PendingRequests m ∧ WidgetClass r = SoftClass.
Proof.
  intros Hr. pose proof (Reachable_Live m Hr) as HL.
  unfold IsWidgetLoading. rewrite orb_true_iff, !existsb_exists. split.
  - intros [(r & Hin & Hr')|(r & Hin & Hr')]; apply andb_true_iff in Hr' as [Hc _];
      apply bool_decide_eq_true in Hc; exists r; (split; [|done]);
      apply list_elem_of_In in Hin; apply elem_of_app; auto.
  - intros (r & Hin & Hc).
    assert (bCancelled r = false) as Hb.
    { specialize (HL r Hin). unfold IsCancelled in HL. by apply orb_false_iff in HL as [? _]. }
    apply elem_of_app in Hin as [Hin|Hin]; [left | right]; exists r;
      (split; [by apply list_elem_of_In|]);
      rewrite Hb, bool_decide_eq_true_2 by done; done.
Qed.

Lemma class_is_loading_iff_a_request_for_it_is_kept_witness :
  Reachable Queued
  ∧ (IsWidgetLoading Queued "B" = true
     ↔ ∃ r, r ∈ ActiveRequests Queued ++ PendingRequests Queued ∧ WidgetClass r = "B"%string).
Proof.
  split; [exact Queued_Reachable|].
  exact (class_is_loading_iff_a_request_for_it_is_kept Queued "B" Queued_Reachable).
Defined.

(** ** The cache *)

Lemma StartLoadingWidget_cache w Request m p :
  is_Some (WidgetClassCache m !! p) →
  is_Some (WidgetClassCache (state (StartLoadingWidget w Request m)) !! p).
Proof.
  intros Hin. rewrite StartLoadingWidget_run. unfold M_bind.
  destruct (StartLoadingWidget_body w Request m) as [[b m1] t1] eqn:Hb.
  pose proof (StartLoadingWidget_body_cache _ _ _ _ _ _ Hb p Hin) as H1.
  destruct b.
  - name_run. simpl. by eapply Serves_cache.
  - unfold_M. simpl. done.
Qed.

Lemma ProcessWhilePossible_cache w rounds m p :
  is_Some (WidgetClassCache m !! p) →
  is_Some (WidgetClassCache (state (ProcessWhilePossible w rounds m)) !! p).
Proof.
  revert m. induction rounds as [|rounds IH]; intros m Hin; [done|].
  rewrite ProcessWhilePossible_S. destruct (_ && _); [|done].
  name_run. specialize (IH m').
  destruct (ProcessWhilePossible w rounds m') as [[[] m2] t2].
  apply IH. by eapply Serves_cache.
Qed.

Ltac settle_cache :=
  match goal with
  | H : Serves _ ?m1 ?m' _ |- is_Some (WidgetClassCache ?m' !! ?p) =>
      apply (Serves_cache _ m1 m' _ H p)
  end.

Lemma Perform_cache w c m p :
  c ≠ CallClearCache →
  is_Some (WidgetClassCache m !! p) →
  is_Some (WidgetClassCache (state (Perform w c m)) !! p).
Proof.
  intros Hc Hin. destruct c; unfold Perform; try done.
  - unfold_calls. unfold_M. destruct (IsNull SoftClass); simpl.
    { by destruct OnFailed. }
    destruct (Num (ActiveRequests m) <? MaxConcurrentLoads m) eqn:Hlt; [|done].
    match goal with |- context [StartLoadingWidget w ?r ?x] =>
      pose proof (StartLoadingWidget_cache w r x p Hin) as X;
      destruct (StartLoadingWidget w r x) as [[[] ?] ?] end.
    done.
  - unfold_calls. unfold_M. destruct (negb (IsValid w SoftClass)); simpl; [done|].
    destruct (IsWidgetClassCached w m SoftClass); simpl; [done|].
    destruct (Num (ActiveRequests m) <? MaxConcurrentLoads m) eqn:Hlt; [|done].
    match goal with |- context [StartLoadingWidget w ?r ?x] =>
      pose proof (StartLoadingWidget_cache w r x p Hin) as X;
      destruct (StartLoadingWidget w r x) as [[[] ?] ?] end.
    done.
  - split_call; try done. all: settle_cache; done.
  - by rewrite CancelAllLoadRequests_run.
  - unfold_calls. unfold M_bind, modify.
    match goal with |- context [ProcessWhilePossible w ?n ?x] =>
      pose proof (ProcessWhilePossible_cache w n x p Hin) as X;
      destruct (ProcessWhilePossible w n x) as [[[] ?] ?] end.
    done.
  - split_call. all: settle_cache; simpl; try done.
    all: repeat (apply lookup_insert_is_Some'; right); done.
  - split_call; try done. all: settle_cache; done.
Qed.

(** X20. A class that is in the cache stays there through every call but
    [ClearCache], which empties the cache and changes nothing else. *)
Theorem cache_is_emptied_by_ClearCache_only w c m :
  (c ≠ CallClearCache →
   ∀ p, is_Some (WidgetClassCache m !! p) →
        is_Some (WidgetClassCache (state (Perform w c m)) !! p))
  ∧ ClearCache m = ((), with_WidgetClassCache (λ _, ∅) m, [])
  ∧ (∀ w' p, IsWidgetClassCached w' (state (ClearCache m)) p = false
             ∧ GetFromWidgetClassCache (state (ClearCache m)) p = None).
Proof.
  split; [intros Hc p; by apply Perform_cache|]. split; [done|].
  intros w' p. unfold IsWidgetClassCached, GetFromWidgetClassCache. simpl.
  rewrite lookup_empty. split; [|done].
  destruct (negb (IsValid w' p)); [done|].
  apply bool_decide_eq_false. by intros [? ?].
Qed.

(** ** The order of the requests *)

(** X1. [operator<] of [FAsyncWidgetLoadRequest] is a strict weak ordering,
    which is what [TArray::Sort] asks of it: it is irreflexive and
    transitive, and so is "neither is less than the other".  A request of
    higher priority is less than one of lower priority, whatever their
    request times. *)
Theorem operator_lt_is_a_strict_weak_ordering :
  (∀ a, Request_lt a a = false)
  ∧ (∀ a b, Request_lt a b = true → Request_lt b a = false)
  ∧ (∀ a b c, Request_lt a b = true → Request_lt b c = true → Request_lt a c = true)
  ∧ (∀ a b c, Request_lt a b = false → Request_lt b c = false → Request_lt a c = false)
  ∧ (∀ a b, Priority b < Priority a → Request_lt a b = true)
  ∧ (∀ a b, Request_lt a b = false → Request_lt b a = false →
            Priority a = Priority b ∧ RequestTime a = RequestTime b).
Proof.
  unfold Request_lt. split; [|split; [|split; [|split; [|split]]]].
  - intros a. rewrite Z.eqb_refl. simpl. apply Z.ltb_irrefl.
  - intros a b.
    destruct (Priority a =? Priority b) eqn:E1, (Priority b =? Priority a) eqn:E2; simpl;
      rewrite ?Z.ltb_lt, ?Z.ltb_ge, ?Z.eqb_eq, ?Z.eqb_neq in *; lia.
  - intros a b c.
    destruct (Priority a =? Priority b) eqn:E1, (Priority b =? Priority c) eqn:E2,
      (Priority a =? Priority c) eqn:E3; simpl;
      rewrite ?Z.ltb_lt, ?Z.ltb_ge, ?Z.eqb_eq, ?Z.eqb_neq in *; lia.
  - intros a b c.
    destruct (Priority a =? Priority b) eqn:E1, (Priority b =? Priority c) eqn:E2,
      (Priority a =? Priority c) eqn:E3; simpl;
      rewrite ?Z.ltb_lt, ?Z.ltb_ge, ?Z.eqb_eq, ?Z.eqb_neq in *; lia.
  - intros a b Hp. rewrite (proj2 (Z.eqb_neq _ _)) by lia. simpl. by apply Z.ltb_lt.
  - intros a b.
    destruct (Priority a =? Priority b) eqn:E1, (Priority b =? Priority a) eqn:E2; simpl;
      rewrite ?Z.ltb_lt, ?Z.ltb_ge, ?Z.eqb_eq, ?Z.eqb_neq in *; lia.
Qed.

(** ** The order of the GUIDs *)

Lemma HexDigit_order x y :
  (x < 16)%N → (y < 16)%N →
  (ToLower (HexDigit x) <? ToLower (HexDigit y))%N = (x <? y)%N.
Proof.
  intros Hx Hy.
  assert (x ∈ N.of_nat <$> seq 0 16) as Hx'.
  { apply list_elem_of_fmap. exists (N.to_nat x). split; [lia|].
    apply elem_of_seq. lia. }
  assert (y ∈ N.of_nat <$> seq 0 16) as Hy'.
  { apply list_elem_of_fmap. exists (N.to_nat y). split; [lia|].
    apply elem_of_seq. lia. }
  clear Hx Hy. simpl in Hx', Hy'.
  repeat (apply elem_of_cons in Hx' as [->|Hx']);
    [..|by apply elem_of_nil in Hx'];
    repeat (apply elem_of_cons in Hy' as [->|Hy']);
    first [reflexivity | by apply elem_of_nil in Hy'].
Qed.

Lemma HexDigits_S k n acc :
  HexDigits (S k) n acc = HexDigits k (n `div` 16)%N (String (HexDigit (n `mod` 16)%N) acc).
Proof. done. Qed.

(** The text of two numbers, written with the same number of hexadecimal
    digits, compares as the numbers do. *)
Lemma HexDigits_lt k a b s s' :
  FString_lt (HexDigits k a s) (HexDigits k b s')
  = (if (a `mod` 16 ^ N.of_nat k <? b `mod` 16 ^ N.of_nat k)%N then true
     else if (b `mod` 16 ^ N.of_nat k <? a `mod` 16 ^ N.of_nat k)%N then false
     else FString_lt s s').
Proof.
  revert a b s s'. induction k as [|k IH]; intros a b s s'.
  - simpl. rewrite !N.mod_1_r. done.
  - rewrite !HexDigits_S, IH.
    replace (16 ^ N.of_nat (S k))%N with (16 * 16 ^ N.of_nat k)%N
      by (rewrite Nat2N.inj_succ, N.pow_succ_r'; done).
    assert (16 ^ N.of_nat k ≠ 0)%N as Hnz by (apply N.pow_nonzero; lia).
    rewrite !(N.Div0.mod_mul_r _ 16).
    pose proof (N.mod_upper_bound a 16 ltac:(lia)) as Ha.
    pose proof (N.mod_upper_bound b 16 ltac:(lia)) as Hb.
    set (qa := ((a `div` 16) `mod` 16 ^ N.of_nat k)%N) in *.
    set (qb := ((b `div` 16) `mod` 16 ^ N.of_nat k)%N) in *.
    set (ra := (a `mod` 16)%N) in *. set (rb := (b `mod` 16)%N) in *.
    simpl FString_lt.
    rewrite !HexDigit_order by done.
    destruct (qa <? qb)%N eqn:E1; [rewrite (proj2 (N.ltb_lt _ _)) by (apply N.ltb_lt in E1; lia); done|].
    destruct (qb <? qa)%N eqn:E2.
    { apply N.ltb_lt in E2. apply N.ltb_ge in E1.
      rewrite (proj2 (N.ltb_ge _ _)) by lia. rewrite (proj2 (N.ltb_lt _ _)) by lia. done. }
    apply N.ltb_ge in E1. apply N.ltb_ge in E2. assert (qa = qb) as -> by lia.
    destruct (ra <? rb)%N eqn:E3; [rewrite (proj2 (N.ltb_lt _ _)) by (apply N.ltb_lt in E3; lia); done|].
    destruct (rb <? ra)%N eqn:E4.
    { apply N.ltb_lt in E4. apply N.ltb_ge in E3.
      rewrite (proj2 (N.ltb_ge _ _)) by lia. rewrite (proj2 (N.ltb_lt _ _)) by lia. done. }
    apply N.ltb_ge in E3. apply N.ltb_ge in E4. assert (ra = rb) as -> by lia.
    by rewrite !N.ltb_irrefl.
Qed.

Lemma FGuid_ToString_lt a b :
  FString_lt (FGuid_ToString a) (FGuid_ToString b)
  = (a `mod` 2 ^ 128 <? b `mod` 2 ^ 128)%N.
Proof.
  unfold FGuid_ToString. rewrite HexDigits_lt.
  change (16 ^ N.of_nat 32)%N with (2 ^ 128)%N.
  destruct (a `mod` 2 ^ 128 <? b `mod` 2 ^ 128)%N; [done|].
  by destruct (b `mod` 2 ^ 128 <? a `mod` 2 ^ 128)%N.
Qed.

Lemma GuidString_le_mod a b :
  GuidString_le a b ↔ (a `mod` 2 ^ 128 ≤ b `mod` 2 ^ 128)%N.
Proof. unfold GuidString_le. rewrite FGuid_ToString_lt. apply N.ltb_ge. Qed.

#[global] Instance GuidString_le_total : Total GuidString_le.
Proof. intros a b. rewrite !GuidString_le_mod. lia. Qed.

#[global] Instance GuidString_le_trans : Transitive GuidString_le.
Proof. intros a b c. rewrite !GuidString_le_mod. lia. Qed.

Lemma PruneCancelled_order ids x y :
  x ∈ ids → x ∉ PruneCancelled ids → y ∈ PruneCancelled ids → GuidString_le x y.
Proof.
  unfold PruneCancelled. case_match; [|done].
  rewrite foldl_remove.
  set (sorted := merge_sort GuidString_le (elements ids)).
  set (n := Z.to_nat (Z.of_nat (size ids) - MaxCancelledIds `quot` 2)).
  intros Hx Hnx Hy.
  assert (sorted ≡ₚ elements ids) as Hperm by apply merge_sort_Permutation.
  assert (StronglySorted GuidString_le sorted) as Hs
    by (apply StronglySorted_merge_sort; apply _).
  assert (x ∈ take n sorted) as Hxt.
  { destruct (decide (x ∈ take n sorted)) as [|Hn]; [done|].
    exfalso. apply Hnx. apply elem_of_difference. split; [done|].
    by rewrite elem_of_list_to_set. }
  apply elem_of_difference in Hy as [Hy Hyn]. rewrite elem_of_list_to_set in Hyn.
  assert (y ∈ drop n sorted) as Hyd.
  { apply elem_of_elements in Hy. rewrite <- Hperm in Hy.
    rewrite <- (take_drop n sorted) in Hy. apply elem_of_app in Hy as [|]; done. }
  rewrite <- (take_drop n sorted) in Hs.
  by eapply StronglySorted_app_1_elem_of.
Qed.

Lemma PruneCancelled_idempotent ids :
  PruneCancelled (PruneCancelled ids) = PruneCancelled ids.
Proof.
  apply PruneCancelled_small.
  destruct (decide (MaxCancelledIds < Z.of_nat (size ids))) as [Hlt|Hge].
  - rewrite PruneCancelled_large by done. unfold MaxCancelledIds. lia.
  - rewrite PruneCancelled_small by lia. lia.
Qed.

(** X21. Which ids [CleanupCompletedRequests] removes is decided by the text
    of the GUIDs, not by the time at which they were recorded: every id it
    removes comes, in the order of [FString::operator<] on the texts, at or
    before every id it keeps.  For 128-bit GUIDs that order is the order of
    the numbers, so the ids that are kept are the greatest ones.  A second
    clean-up right after the first changes nothing. *)
Theorem cleanup_keeps_the_greatest_guids m :
  let ids := CancelledRequestIds m in
  let kept := CancelledRequestIds (state (CleanupCompletedRequests m)) in
  (∀ x y, x ∈ ids → x ∉ kept → y ∈ kept → GuidString_le x y)
  ∧ (∀ a b, (a < 2 ^ 128)%N → (b < 2 ^ 128)%N →
            FString_lt (FGuid_ToString a) (FGuid_ToString b) = (a <? b)%N)
  ∧ ((∀ x, x ∈ ids → (x < 2 ^ 128)%N) →
     ∀ x y, x ∈ ids → x ∉ kept → y ∈ kept → (x < y)%N)
  ∧ CleanupCompletedRequests (state (CleanupCompletedRequests m))
    = ((), state (CleanupCompletedRequests m), []).
Proof.
  cbv zeta.
  change (state (CleanupCompletedRequests m))
    with (with_CancelledRequestIds PruneCancelled m).
  change (CancelledRequestIds (with_CancelledRequestIds PruneCancelled m))
    with (PruneCancelled (CancelledRequestIds m)).
  split; [|split; [|split]].
  - intros x y. apply PruneCancelled_order.
  - intros a b Ha Hb. rewrite FGuid_ToString_lt.
    by rewrite !N.mod_small by done.
  - intros Hrange x y Hx Hnx Hy.
    pose proof (PruneCancelled_order _ x y Hx Hnx Hy) as Hle.
    apply GuidString_le_mod in Hle.
    assert (y ∈ CancelledRequestIds m) as Hy' by (by eapply PruneCancelled_subseteq).
    rewrite !N.mod_small in Hle by auto.
    assert (x ≠ y) by congruence. lia.
  - unfold CleanupCompletedRequests, modify.
    assert (with_CancelledRequestIds PruneCancelled
              (with_CancelledRequestIds PruneCancelled m)
            = with_CancelledRequestIds PruneCancelled m) as ->; [|reflexivity].
    apply Manager_eq; [reflexivity | reflexivity | | reflexivity..].
    apply PruneCancelled_idempotent.
Qed.

(** ** A class that has been loaded *)

Lemma StartLoadingWidget_body_ids w Request m b m' t :
  StartLoadingWidget_body w Request m = (b, m', t) →
  ∀ e id, e ∈ t → EventId e = Some id → id = RequestId Request.
Proof.
  unfold StartLoadingWidget_body, GetFromWidgetClassCache,
    ExecuteLoadCompleted, ExecuteLoadFailed, ExecuteFailedDelegate, RemoveFromActive,
    AddToWidgetClassCache.
  unfold_M. simpl. intros H.
  repeat (case_match; simpl in *; simplify_eq);
    (intros e id He Hid;
     repeat (apply elem_of_cons in He as [-> | He]; [simpl in Hid; congruence|]);
     by apply elem_of_nil in He).
Qed.

(** Every event of a run of the scheduler is about a request that waited
    in the queue. *)
Lemma Serves_event_ids w m m' t :
  Serves w m m' t →
  ∀ e id, e ∈ t → EventId e = Some id → id ∈ IdsOf (PendingRequests m).
Proof.
  induction 1 as [m Hp|m Hf|m r rest m' t Hp Hlt Hc _ IH
                  |m r rest m1 t1 m' t Hp Hlt Hc Hb HA IH|m r rest m1 t1 Hp Hlt Hc Hb];
    intros e id He Hid.
  - by apply elem_of_nil in He.
  - by apply elem_of_nil in He.
  - rewrite Hp. simpl. apply elem_of_cons. right. by eapply IH.
  - rewrite Hp. simpl. apply elem_of_cons. apply elem_of_app in He as [He|He].
    + left. by eapply StartLoadingWidget_body_ids.
    + right. body_facts Hb. rewrite <- Hpend. by eapply IH.
  - rewrite Hp. simpl. apply elem_of_cons. left. by eapply StartLoadingWidget_body_ids.
Qed.

Lemma CacheHitEvents_kinds w Request cls e :
  e ∈ CacheHitEvents w Request cls →
  match e with EvRequestAsyncLoad _ _ => False | _ => True end.
Proof.
  unfold CacheHitEvents. intros He.
  apply elem_of_cons in He as [->|He]; [done|].
  apply elem_of_cons in He as [->|He]; [done|].
  destruct (CreateAndSetupWidget w (Some cls) Request).
  - destruct (OnLoadCompleted Request); simpl in He; set_unfold; naive_solver.
  - destruct (OnLoadFailed Request); simpl in He; set_unfold; naive_solver.
Qed.

(** X8. Once a load has completed for a request that is not cancelled and
    the class was in memory, the class is in the cache, whether or not the
    widget could be created.  From then on [PreloadWidgetClass] for that
    class does nothing and returns the all-zero GUID, and a request for the
    class that finds a free slot is served without asking the streamable
    manager for it. *)
Theorem loaded_class_is_not_loaded_again w Request m cls :
  IsCancelled m Request = false →
  SoftGet w (WidgetClass Request) = Some cls →
  let m' := state (OnWidgetClassLoaded w Request m) in
  let SoftClass := WidgetClass Request in
  is_Some (GetFromWidgetClassCache m' SoftClass)
  ∧ (∀ w', IsWidgetClassCached w' m' SoftClass = IsValid w' SoftClass)
  ∧ (∀ w' NewGuid Now Prio,
       PreloadWidgetClass w' NewGuid Now SoftClass Prio m' = (FGuid_Default, m', []))
  ∧ (∀ w' NewGuid Now OnCompleted OnFailed RemoveParent DestroyParent Z_Order Prio,
       Num (ActiveRequests m') < MaxConcurrentLoads m' →
       NewGuid ∉ IdsOf (PendingRequests m') →
       ∀ e p, e ∈ trace (LoadWidgetAsync w' NewGuid Now SoftClass OnCompleted OnFailed
                           RemoveParent DestroyParent Z_Order Prio m') →
              e ≠ EvRequestAsyncLoad NewGuid p).
Proof.
  intros Hc Hget. cbv zeta.
  assert (is_Some (WidgetClassCache (state (OnWidgetClassLoaded w Request m))
                     !! WidgetClass Request)) as Hhas.
  { destruct (OnWidgetClassLoaded_live_run w Request m Hc)
      as (m1 & -> & _ & _ & _ & _ & _ & _ & Hout).
    rewrite Hget in Hout. cbv zeta in Hout.
    name_run. simpl. eapply Serves_cache; [done|].
    pose proof (CacheWith_lookup (WidgetClass Request) cls (WidgetClassCache m)) as H0.
    destruct (CreateAndSetupWidget w (Some cls) Request).
    - destruct Hout as (_ & _ & ->).
      destruct (OnLoadCompleted Request) as [| |q]; try done.
      destruct (IsValid w q); [|done]. apply lookup_insert_is_Some'. by right.
    - by destruct Hout as (_ & _ & ->). }
  set (m' := state (OnWidgetClassLoaded w Request m)) in *.
  assert (IsNull (WidgetClass Request) = false) as Hnull.
  { unfold SoftGet in Hget. by destruct (IsNull (WidgetClass Request)). }
  split; [done|]. split; [|split].
  - intros w'. unfold IsWidgetClassCached.
    destruct (IsValid w' (WidgetClass Request)); simpl; [|done].
    by apply bool_decide_eq_true.
  - intros w' NewGuid Now Prio. unfold PreloadWidgetClass, IsWidgetClassCached.
    destruct (IsValid w' (WidgetClass Request)); simpl; [|done].
    unfold M_bind, get. by rewrite bool_decide_eq_true_2.
  - intros w' NewGuid Now OnCompleted OnFailed RemoveParent DestroyParent Z_Order Prio
      Hlt Hn e p He ->.
    destruct Hhas as [cls' Hhit].
    destruct (LoadWidgetAsync_hit_run w' NewGuid Now (WidgetClass Request) OnCompleted
                OnFailed RemoveParent DestroyParent Z_Order Prio m' cls' Hnull Hhit Hlt)
      as (m1 & Hrun & Hp & _).
    pose proof (ProcessNextRequest_Serves w' m1) as HS.
    destruct (ProcessNextRequest w' m1) as [[[] m2] t2].
    rewrite Hrun in He. clear Hrun. unfold trace in He, HS. cbn [snd] in He, HS.
    apply elem_of_app in He as [He|He].
    + by apply CacheHitEvents_kinds in He.
    + apply Hn. rewrite <- Hp. by eapply Serves_event_ids.
Qed.

Lemma loaded_class_is_not_loaded_again_witness :
  (IsCancelled OneLoading RequestA = false
   ∧ SoftGet GameWorld (WidgetClass RequestA) = Some 1%nat)
  ∧ PreloadWidgetClass GameWorld 2%N (Seconds 20) "A" 0
      (state (OnWidgetClassLoaded GameWorld RequestA OneLoading))
    = (FGuid_Default, state (OnWidgetClassLoaded GameWorld RequestA OneLoading), []).
Proof.
  assert (IsCancelled OneLoading RequestA = false) as H1 by (by vm_compute).
  assert (SoftGet GameWorld (WidgetClass RequestA) = Some 1%nat) as H2 by reflexivity.
  split; [repeat (split; [assumption|]); assumption|].
  destruct (loaded_class_is_not_loaded_again GameWorld RequestA OneLoading 1%nat H1 H2)
    as (_ & _ & Hp & _).
  apply (Hp GameWorld 2%N 20 0).
Defined.
